(** * The fraud-detection dashboard [app.py], embedded in Rocq

    [app.py] is a Streamlit script: one run of the script is one render of
    the page.  The script reads a CSV file into a pandas data frame, checks
    the required columns, lets the operator pick a transaction, and emits
    page elements top to bottom; [st.stop()] and uncaught exceptions end
    the run.

    The embedding follows the script section by section:
    - [Py]        the Python builtins the script calls ([str], [int],
                  [float], [round], [str.upper], [str.strip]);
    - [Binary64]  a reference implementation of the float routines;
    - [Pandas]    series and data frames with the operations used;
    - [Streamlit] page elements and the script monad (a log of emitted
                  elements and the way the run ended);
    - [App]       the script itself.

    Modelling boundaries.  A Python [str] is a Rocq [string]; the case
    mapping and the white-space test are those of the ASCII range, and a
    character above 127 is a letter-less, non-blank byte.  A binary64
    number is [NaN], an infinity, or the exact rational value of a finite
    float; CPython's conversions between floats and decimal text, from
    integers, and [round] are an interface ([Float64Ops]).  pandas is the
    one of the 1.x and 2.x series: a missing field is the float [NaN],
    and [astype(str)] turns it into the text [nan]. *)

From Stdlib Require Import Bool Arith ZArith QArith Qabs Lia List.
From Stdlib Require Import Ascii String DecimalString.
From Stdlib Require Import Permutation Sorted.
Import ListNotations.

Close Scope Q_scope.
Local Open Scope string_scope.
Local Open Scope list_scope.
Local Open Scope nat_scope.

(* ================================================================== *)
(** * Python builtins *)
(* ================================================================== *)

Module Py.

(** Exceptions raised by the builtins and by pandas. *)
Inductive exn : Set :=
| KeyError
| IndexError
| ValueError
| TypeError
| OverflowError.

(** ** Strings *)

(** [str.isspace] on one character: TAB, LF, VT, FF, CR, the four
    separators FS GS RS US, and the space. *)
Definition isspace (c : ascii) : bool :=
  let n := nat_of_ascii c in
  ((9 <=? n) && (n <=? 13)) || ((28 <=? n) && (n <=? 31)) || (n =? 32).

Definition islower (c : ascii) : bool :=
  let n := nat_of_ascii c in (97 <=? n) && (n <=? 122).

Definition isdigit (c : ascii) : bool :=
  let n := nat_of_ascii c in (48 <=? n) && (n <=? 57).

Definition toupper (c : ascii) : ascii :=
  if islower c then ascii_of_nat (nat_of_ascii c - 32) else c.

(** [s.upper()] *)
Fixpoint upper (s : string) : string :=
  match s with
  | EmptyString => EmptyString
  | String c r => String (toupper c) (upper r)
  end.

(** [s.lstrip()] *)
Fixpoint lstrip (s : string) : string :=
  match s with
  | EmptyString => EmptyString
  | String c r => if isspace c then lstrip r else s
  end.

(** [s.rstrip()] *)
Fixpoint rstrip (s : string) : string :=
  match s with
  | EmptyString => EmptyString
  | String c r =>
      match rstrip r with
      | EmptyString => if isspace c then EmptyString else String c EmptyString
      | r' => String c r'
      end
  end.

(** [s.strip()] *)
Definition strip (s : string) : string := rstrip (lstrip s).

(** Every character of [s] is white space. *)
Fixpoint blank (s : string) : bool :=
  match s with
  | EmptyString => true
  | String c r => isspace c && blank r
  end.

(** ** Numbers *)

(** A binary64 value.  [Fin q] is a finite float of exact value [q]. *)
Inductive float64 : Set :=
| NaN
| Inf (negative : bool)
| Fin (q : Q).

(** A cell of a data frame, a field of a row: a Python (or numpy) scalar. *)
Inductive value : Set :=
| VStr (s : string)
| VInt (z : Z)
| VFloat (x : float64)
| VBool (b : bool).

(** CPython's float routines: [repr] of a finite float, [float(str)]
    ([None] is a [ValueError]), [float(int)] and [round(x, ndigits)]. *)
Class Float64Ops : Type := {
  float_repr : Q -> string;
  float_of_string : string -> option float64;
  float_of_Z : Z -> float64;
  float_round : float64 -> Z -> float64
}.

(** Comparison of floats, IEEE style: every comparison with [NaN] fails. *)
Definition feqb (x y : float64) : bool :=
  match x, y with
  | Fin p, Fin q => Qeq_bool p q
  | Inf a, Inf b => Bool.eqb a b
  | _, _ => false
  end.

Definition fleb (x y : float64) : bool :=
  match x, y with
  | NaN, _ | _, NaN => false
  | Inf true, _ => true
  | _, Inf false => true
  | Fin p, Fin q => Qle_bool p q
  | _, _ => false
  end.

(** The number a scalar stands for in a comparison: [int]s exactly,
    [True] as 1 and [False] as 0; a string is not a number. *)
Definition as_number (v : value) : option float64 :=
  match v with
  | VStr _ => None
  | VInt z => Some (Fin (inject_Z z))
  | VFloat x => Some x
  | VBool b => Some (Fin (inject_Z (if b then 1 else 0)))
  end.

(** [a == b] *)
Definition eqb (a b : value) : bool :=
  match a, b with
  | VStr s, VStr t => String.eqb s t
  | _, _ =>
      match as_number a, as_number b with
      | Some x, Some y => feqb x y
      | _, _ => false
      end
  end.

(** [a <= b] between two strings or between two numbers; the mixed case
    is a [TypeError] in Python and is kept apart by the callers. *)
Definition leb (a b : value) : bool :=
  match a, b with
  | VStr s, VStr t => String.leb s t
  | _, _ =>
      match as_number a, as_number b with
      | Some x, Some y => fleb x y
      | _, _ => false
      end
  end.

Definition is_string (v : value) : bool :=
  match v with VStr _ => true | _ => false end.

Definition is_number (v : value) : bool :=
  match v with VStr _ => false | _ => true end.

(** ** [str(v)] *)

Definition str_of_Z (z : Z) : string := NilZero.string_of_int (Z.to_int z).

Section Conversions.
Context `{Float64Ops}.

Definition str_of_float (x : float64) : string :=
  match x with
  | NaN => "nan"
  | Inf false => "inf"
  | Inf true => "-inf"
  | Fin q => float_repr q
  end.

Definition str (v : value) : string :=
  match v with
  | VStr s => s
  | VInt z => str_of_Z z
  | VFloat x => str_of_float x
  | VBool true => "True"
  | VBool false => "False"
  end.

(** ** [int(v)] *)

Definition digit_value (c : ascii) : Z := Z.of_nat (nat_of_ascii c - 48).

(** Decimal digits, a single underscore allowed between two digits.
    [acc] is the number read so far, [after_digit] tells whether the
    previous character was a digit. *)
Fixpoint int_digits (s : string) (acc : Z) (after_digit : bool) : option Z :=
  match s with
  | EmptyString => if after_digit then Some acc else None
  | String c r =>
      if isdigit c then int_digits r (10 * acc + digit_value c)%Z true
      else if (c =? "_")%char && after_digit then int_digits r acc false
      else None
  end.

(** [int(s)] for a string: blanks around, an optional sign, digits. *)
Definition int_of_string (s : string) : option Z :=
  match strip s with
  | String "-" r => option_map Z.opp (int_digits r 0%Z false)
  | String "+" r => int_digits r 0%Z false
  | t => int_digits t 0%Z false
  end.

(** Truncation towards zero. *)
Definition Qtrunc (q : Q) : Z := Z.quot (Qnum q) (Zpos (Qden q)).

Definition int (v : value) : exn + Z :=
  match v with
  | VInt z => inr z
  | VBool b => inr (if b then 1 else 0)%Z
  | VFloat NaN => inl ValueError
  | VFloat (Inf _) => inl OverflowError
  | VFloat (Fin q) => inr (Qtrunc q)
  | VStr s =>
      match int_of_string s with
      | Some z => inr z
      | None => inl ValueError
      end
  end.

(** ** [float(v)] *)

Definition float (v : value) : exn + float64 :=
  match v with
  | VFloat x => inr x
  | VInt z => inr (float_of_Z z)
  | VBool b => inr (Fin (inject_Z (if b then 1 else 0)))
  | VStr s =>
      match float_of_string s with
      | Some x => inr x
      | None => inl ValueError
      end
  end.

(** [round(x, ndigits)] *)
Definition round (x : float64) (ndigits : Z) : float64 := float_round x ndigits.

End Conversions.

End Py.

(* ================================================================== *)
(** * A reference implementation of the float routines *)
(* ================================================================== *)

(** Round to nearest, ties to even, on 53 bits with the exponent range
    of binary64; decimal text in and out.  The theorems on the page
    elements hold for every [Float64Ops]; this instance runs the
    examples, and the rounding of the score is proved for it. *)

Module Binary64.
Import Py.
Local Open Scope Z_scope.

(** [num / den] rounded to the nearest integer, ties to even
    ([0 <= num], [0 < den]). *)
Definition round_half_even (num den : Z) : Z :=
  let m := num / den in
  match 2 * (num mod den) ?= den with
  | Lt => m
  | Gt => m + 1
  | Eq => if Z.even m then m else m + 1
  end.

(** [(n / d) / 2^e] as a fraction. *)
Definition scale2 (n d e : Z) : Z * Z :=
  if 0 <=? e then (n, d * 2 ^ e) else (n * 2 ^ (- e), d).

(** [floor (log2 (n / d))] for positive [n] and [d]. *)
Definition ilog2 (n d : Z) : Z :=
  let e := Z.log2 n - Z.log2 d in
  let (a, b) := scale2 n d e in
  if a <? b then e - 1 else e.

(** [m * 2^u] as a rational in lowest terms. *)
Definition dyadic (m u : Z) : Q :=
  if 0 <=? u then inject_Z (m * 2 ^ u) else Qred (Qmake m (Z.to_pos (2 ^ (- u)))).

Definition nearest_pos (n d : Z) : float64 :=
  let u := Z.max (ilog2 n d - 52) (- 1074) in
  let (a, b) := scale2 n d u in
  let m := round_half_even a b in
  if (0 <=? u) && (2 ^ 1024 <=? m * 2 ^ u) then Inf false else Fin (dyadic m u).

Definition fneg (x : float64) : float64 :=
  match x with
  | NaN => NaN
  | Inf s => Inf (negb s)
  | Fin q => Fin (Qopp q)
  end.

(** The binary64 number nearest to [q]. *)
Definition nearest (q : Q) : float64 :=
  match Qnum q with
  | Z0 => Fin (inject_Z 0)
  | Zpos n => nearest_pos (Zpos n) (Zpos (Qden q))
  | Zneg n => fneg (nearest_pos (Zpos n) (Zpos (Qden q)))
  end.

(** [q * 10^k] *)
Definition shift10 (q : Q) (k : Z) : Q :=
  if 0 <=? k then Qmult q (inject_Z (10 ^ k))
  else Qdiv q (inject_Z (10 ^ (- k))).

(** [q] rounded to the nearest integer, ties to even. *)
Definition Qround_half_even (q : Q) : Z :=
  let r := round_half_even (Z.abs (Qnum q)) (Zpos (Qden q)) in
  if Qnum q <? 0 then - r else r.

(** [round(x, ndigits)] *)
Definition round_ndigits (x : float64) (ndigits : Z) : float64 :=
  match x with
  | Fin q => nearest (shift10 (inject_Z (Qround_half_even (shift10 q ndigits))) (- ndigits))
  | _ => x
  end.

(** *** Decimal text to float *)

(** A run of digits with single underscores between digits: its
    value, the number of digits, and what follows. *)
Fixpoint scan_digits (s : string) (acc : Z) (count : nat) : Z * nat * string :=
  match s with
  | EmptyString => (acc, count, s)
  | String c r =>
      if isdigit c then scan_digits r (10 * acc + digit_value c) (S count)
      else
        match r with
        | String c' _ =>
            if (c =? "_")%char && (0 <? count)%nat && isdigit c'
            then scan_digits r acc count
            else (acc, count, s)
        | EmptyString => (acc, count, s)
        end
  end.

(** The exponent part: empty, or [e], an optional sign and digits. *)
Definition scan_exponent (s : string) : option Z :=
  match s with
  | EmptyString => Some 0
  | String c r =>
      if (c =? "e")%char || (c =? "E")%char then
        let (neg, r') :=
          match r with
          | String "-" t => (true, t)
          | String "+" t => (false, t)
          | _ => (false, r)
          end in
        match scan_digits r' 0 0 with
        | (_, O, _) => None
        | (e, _, EmptyString) => Some (if neg then - e else e)
        | _ => None
        end
      else None
  end.

(** Digits, an optional point and digits, an optional exponent. *)
Definition scan_decimal (s : string) : option Q :=
  let '(ip, ni, r) := scan_digits s 0 0 in
  let '(fp, nf, r') :=
    match r with
    | String "." t => scan_digits t 0 0
    | _ => (0, O, r)
    end in
  if ((ni + nf)%nat =? 0)%nat then None
  else
    match scan_exponent r' with
    | Some e => Some (shift10 (inject_Z (ip * 10 ^ Z.of_nat nf + fp)) (e - Z.of_nat nf))
    | None => None
    end.

Definition scan_unsigned (s : string) : option float64 :=
  let u := upper s in
  if (u =? "INF")%string || (u =? "INFINITY")%string then Some (Inf false)
  else if (u =? "NAN")%string then Some NaN
  else option_map nearest (scan_decimal s).

(** [float(s)] for a string *)
Definition of_string (s : string) : option float64 :=
  match strip s with
  | String "-" r => option_map fneg (scan_unsigned r)
  | String "+" r => scan_unsigned r
  | t => scan_unsigned t
  end.

(** *** Float to decimal text *)

(** The least [k] from [k0] on with [q < 10^k] ([0 < q]). *)
Fixpoint decimal_point (fuel : nat) (q : Q) (k : Z) : Z :=
  match fuel with
  | O => k
  | S fuel' =>
      if Qle_bool (shift10 (inject_Z 1) k) q
      then decimal_point fuel' q (k + 1)
      else k
  end.

(** The shortest digit string, from [p] digits on, that reads back as
    [q]: the digits and the position of the decimal point. *)
Fixpoint shortest (fuel : nat) (q : Q) (k p : Z) : Z * Z :=
  let d := Qround_half_even (shift10 q (p - k)) in
  let (d, k') := if d =? 10 ^ p then (10 ^ (p - 1), k + 1) else (d, k) in
  match fuel with
  | O => (d, k')
  | S fuel' =>
      if feqb (nearest (shift10 (inject_Z d) (k' - p))) (Fin q)
      then (d, k')
      else shortest fuel' q k (p + 1)
  end.

Fixpoint zeros (n : nat) : string :=
  match n with
  | O => EmptyString
  | S n' => String "0" (zeros n')
  end.

Fixpoint drop_zeros (fuel : nat) (d : Z) : Z :=
  match fuel with
  | O => d
  | S fuel' => if (d mod 10 =? 0) && (0 <? d) then drop_zeros fuel' (d / 10) else d
  end.

Definition two_digits (e : Z) : string :=
  if e <? 10 then String "0" (str_of_Z e) else str_of_Z e.

(** [repr(x)] for a finite float of value [q]. *)
Definition repr (q : Q) : string :=
  match Qnum q with
  | Z0 => "0.0"
  | _ =>
      let a := Qabs q in
      let k := decimal_point 700 a (- 330) in
      let (d, decpt) := shortest 16 a k 1 in
      let digits := str_of_Z (drop_zeros 17 d) in
      let n := Z.of_nat (String.length digits) in
      let body : string :=
        if (decpt <=? - 4) || (16 <? decpt) then
          let mantissa : string :=
            match digits with
            | String c EmptyString => String c EmptyString
            | String c r => String c (String "." r)
            | EmptyString => EmptyString
            end in
          let e := decpt - 1 in
          (mantissa ++ "e" ++ (if (e <? 0)%Z then "-" else "+") ++ two_digits (Z.abs e))%string
        else if decpt <=? 0 then
          ("0." ++ zeros (Z.to_nat (- decpt)) ++ digits)%string
        else if n <=? decpt then
          (digits ++ zeros (Z.to_nat (decpt - n)) ++ ".0")%string
        else
          (substring 0 (Z.to_nat decpt) digits ++ "."
           ++ substring (Z.to_nat decpt) (Z.to_nat (n - decpt)) digits)%string in
      if Qnum q <? 0 then ("-" ++ body)%string else body
  end.

#[export] Instance ops : Float64Ops := {|
  float_repr := repr;
  float_of_string := of_string;
  float_of_Z := fun z => nearest (inject_Z z);
  float_round := round_ndigits
|}.

End Binary64.

(* ================================================================== *)
(** * pandas *)
(* ================================================================== *)

Module Pandas.
Import Py.

(** A series is the list of its values in row order; the index is the
    default one, positions [0 .. n-1]. *)
Definition Series : Set := list value.

(** A data frame is the list of its labelled columns, in file order. *)
Definition DataFrame : Set := list (string * Series).

(** One row of a frame: a series indexed by the column labels. *)
Definition Row : Set := list (string * value).

(** [df.columns] *)
Definition columns (df : DataFrame) : list string := map fst df.

(** [c in labels] *)
Definition contains (c : string) (labels : list string) : bool :=
  existsb (String.eqb c) labels.

(** [len(df)] *)
Definition len (df : DataFrame) : nat :=
  match df with
  | [] => 0
  | (_, s) :: _ => List.length s
  end.

(** Columns carry distinct labels and have one length. *)
Definition wf (df : DataFrame) : Prop :=
  NoDup (columns df) /\ Forall (fun cs => List.length (snd cs) = len df) df.

Fixpoint distinct (labels : list string) : bool :=
  match labels with
  | [] => true
  | c :: r => negb (contains c r) && distinct r
  end.

(** [wf], decided. *)
Definition wfb (df : DataFrame) : bool :=
  distinct (columns df) && forallb (fun cs => List.length (snd cs) =? len df) df.

(** [df[c]] *)
Fixpoint getitem (df : DataFrame) (c : string) : exn + Series :=
  match df with
  | [] => inl KeyError
  | (c', s) :: r => if String.eqb c' c then inr s else getitem r c
  end.

(** [df[c] = s]: replaces the column, or appends a new one. *)
Fixpoint setitem (df : DataFrame) (c : string) (s : Series) : DataFrame :=
  match df with
  | [] => [(c, s)]
  | (c', s') :: r =>
      if String.eqb c' c then (c', s) :: r else (c', s') :: setitem r c s
  end.

(** [row[c]] *)
Fixpoint row_get (r : Row) (c : string) : exn + value :=
  match r with
  | [] => inl KeyError
  | (c', v) :: r' => if String.eqb c' c then inr v else row_get r' c
  end.

(** A missing value is the float [NaN]. *)
Definition isna (v : value) : bool :=
  match v with VFloat NaN => true | _ => false end.

Definition notna (v : value) : bool := negb (isna v).

(** [s.str.strip()]: an element that is not a string becomes [NaN]. *)
Definition str_strip (s : Series) : Series :=
  map (fun v => match v with VStr x => VStr (strip x) | _ => VFloat NaN end) s.

(** Two values fall under one key of a hash table: equal, or both
    missing. *)
Definition same_key (a b : value) : bool :=
  (isna a && isna b) || Py.eqb a b.

(** [s.unique()]: the scan of the hash table, [seen] being its keys;
    the result keeps the order of first occurrence. *)
Fixpoint unique_from (seen : list value) (s : Series) : list value :=
  match s with
  | [] => []
  | v :: r =>
      if existsb (same_key v) seen then unique_from seen r
      else v :: unique_from (v :: seen) r
  end.

Definition unique (s : Series) : list value := unique_from [] s.

(** [s == x], where [x] may be Python's [None]. *)
Definition eq_scalar (s : Series) (x : option value) : list bool :=
  map (fun v => match x with Some y => Py.eqb v y | None => false end) s.

(** Boolean indexing. *)
Fixpoint select {A : Type} (mask : list bool) (l : list A) : list A :=
  match mask, l with
  | b :: m, x :: r => if b then x :: select m r else select m r
  | _, _ => []
  end.

(** [df[mask]] *)
Definition filter_rows (df : DataFrame) (mask : list bool) : DataFrame :=
  map (fun cs => (fst cs, select mask (snd cs))) df.

(** [df.empty]: no column or no row. *)
Definition empty (df : DataFrame) : bool :=
  (List.length df =? 0) || (len df =? 0).

Definition row_at (df : DataFrame) (i : nat) : Row :=
  map (fun cs => (fst cs, nth i (snd cs) (VFloat NaN))) df.

(** [df.iloc[i]] *)
Definition iloc (df : DataFrame) (i : nat) : exn + Row :=
  if i <? len df then inr (row_at df i) else inl IndexError.

(** [df.index.tolist()] *)
Definition index (df : DataFrame) : list nat := seq 0 (len df).

(** [df.loc[label]] on the default index. *)
Definition loc (df : DataFrame) (label : option nat) : exn + Row :=
  match label with
  | Some i => if i <? len df then inr (row_at df i) else inl KeyError
  | None => inl KeyError
  end.

(** ** Sorting *)

Section Sort.
Context {A : Type} (le : A -> A -> bool).

Fixpoint insert (x : A) (l : list A) : list A :=
  match l with
  | [] => [x]
  | y :: r => if le x y then x :: l else y :: insert x r
  end.

Definition isort (l : list A) : list A := fold_right insert [] l.

End Sort.

(** [s.sort_values()]: ascending, missing values last.  Strings sort
    among strings and numbers among numbers; a mixed series does not
    compare. *)
Definition sort_values (s : Series) : exn + Series :=
  let present := filter notna s in
  let missing := filter isna s in
  if forallb is_number present || forallb is_string present
  then inr (isort Py.leb present ++ missing)
  else inl TypeError.

(** [s.reset_index(drop=True)]: the values stay, the index is the
    default one again. *)
Definition reset_index (s : Series) : Series := s.

(** ** Sampling *)

(** [s.take(positions)] *)
Fixpoint take (s : Series) (positions : list nat) : exn + Series :=
  match positions with
  | [] => inr []
  | i :: r =>
      match nth_error s i, take s r with
      | Some v, inr vs => inr (v :: vs)
      | None, _ => inl IndexError
      | _, inl e => inl e
      end
  end.

(** [s.sample(n)], without replacement: the first [n] positions of a
    random permutation [rng] of [0 .. len(s)-1]. *)
Definition sample (rng : list nat) (n : nat) (s : Series) : exn + Series :=
  if List.length s <? n then inl ValueError else take s (firstn n rng).

(** ** Counting *)

(** One more occurrence of [v] in the table of counts. *)
Fixpoint count_into (v : value) (table : list (value * nat)) : list (value * nat) :=
  match table with
  | [] => [(v, 1)]
  | (k, n) :: r =>
      if same_key k v then (k, S n) :: r else (k, n) :: count_into v r
  end.

(** [s.value_counts()]: missing values dropped, one count per distinct
    value, the largest count first. *)
Definition value_counts (s : Series) : list (value * nat) :=
  isort (fun a b => snd b <=? snd a)
        (fold_left (fun table v => count_into v table) (filter notna s) []).

Section Conversions.
Context `{Float64Ops}.

(** [s.astype(str)] *)
Definition astype_str (s : Series) : Series := map (fun v => VStr (Py.str v)) s.

End Conversions.

End Pandas.

(* ================================================================== *)
(** * Streamlit *)
(* ================================================================== *)

Module Streamlit.
Import Py Pandas.

(** What a run puts on the page, in call order. *)
#[warnings="-register-all"]
Inductive element : Set :=
| set_page_config (page_title layout : string)
| st_title (body : string)
| st_write (body : string)
| st_header (body : string)
| st_subheader (body : string)
| st_markdown (body : string)
| st_caption (body : string)
| st_error (body : string)
| st_warning (body : string)
| st_success (body : string)
| st_info (body : string)
| st_columns (n : nat)
| st_metric (column : nat) (label : string) (val : value)
| st_selectbox (label : string) (options : list value)
| st_bar_chart (data : list (value * value))
| st_line_chart (data : Series)
| st_sidebar (e : element)
| st_expander (label : string) (body : list element).

(** How a run ends: it reaches the end of the block with a result, it
    is halted by [st.stop()], or an exception escapes. *)
Inductive outcome (A : Type) : Type :=
| Done (a : A)
| Stopped
| Raised (e : exn).

Arguments Done {A} a.
Arguments Stopped {A}.
Arguments Raised {A} e.

(** A script block: the elements it emits and how it ends. *)
Definition script (A : Type) : Type := list element * outcome A.

Definition ret {A : Type} (a : A) : script A := ([], Done a).

Definition bind {A B : Type} (m : script A) (k : A -> script B) : script B :=
  match snd m with
  | Done a => (fst m ++ fst (k a), snd (k a))
  | Stopped => (fst m, Stopped)
  | Raised e => (fst m, Raised e)
  end.

Definition emit (e : element) : script unit := ([e], Done tt).

(** [st.stop()] *)
Definition stop {A : Type} : script A := ([], Stopped).

(** A call that may raise. *)
Definition lift {A : Type} (r : exn + A) : script A :=
  match r with
  | inr a => ret a
  | inl e => ([], Raised e)
  end.

(** [with st.expander(label): body] *)
Definition expander {A : Type} (label : string) (body : script A) : script A :=
  ([st_expander label (fst body)], snd body).

(** The value a select box returns: the option at the chosen position,
    the first option while nothing valid is chosen, [None] when there is
    no option at all. *)
Definition selectbox {A : Type} (options : list A) (choice : nat) : option A :=
  match nth_error options choice with
  | Some x => Some x
  | None => hd_error options
  end.

(** The error messages a page shows, expanders included. *)
Fixpoint errors_of (e : element) : list string :=
  match e with
  | st_error body => [body]
  | st_sidebar e' => errors_of e'
  | st_expander _ body => flat_map errors_of body
  | _ => []
  end.

Definition errors (page : list element) : list string := flat_map errors_of page.

End Streamlit.

Declare Scope script_scope.
Delimit Scope script_scope with script.
Notation "x <- m ;; k" := (Streamlit.bind m (fun x => k))
  (at level 61, m at next level, right associativity) : script_scope.
Notation "m ;; k" := (Streamlit.bind m (fun _ => k))
  (at level 61, right associativity) : script_scope.

(* ================================================================== *)
(** * The application *)
(* ================================================================== *)

Module App.
Import Py Pandas Streamlit.
Local Open Scope script_scope.

(** What one run depends on besides the script: the file on disk as
    [pd.read_csv] parses it ([None] when there is no file at [CSV_FILE]),
    the position chosen in the side-bar select box, and the permutation
    drawn by [sample]. *)
Record inputs : Set := {
  csv_file : option DataFrame;
  choice : nat;
  rng : list nat
}.

Definition required_cols : list string :=
  [ "is_fraud";
    "final_moe_score";
    "fraud_risk_level";
    "lstm_score";
    "transformer_score";
    "autoencoder_score";
    "xgb_score";
    "ada_score" ].

(** [repr] of a string without quotes, backslashes or control
    characters, and of a list of such strings. *)
Definition repr_str (s : string) : string := "'" ++ s ++ "'".

Definition repr_list (l : list string) : string :=
  "[" ++ String.concat ", " (map repr_str l) ++ "]".

(** ** Page config *)

Definition page_config : script unit :=
  emit (set_page_config "Nubank Fraud Detection – Mixture of Experts" "wide") ;;
  emit (st_title "💳 Nubank Fraud Detection – Mixture of Experts (MoE)") ;;
  emit (st_write ("This UI simulates Nubank’s real-time fraud defense platform, "
                  ++ "where multiple expert models are combined to produce an "
                  ++ "transparent fraud risk decision.")).

(** ** Load data *)

Definition file_not_found : string :=
  "❌ final_nubank_fraud_output.csv not found in the app directory.".

Definition load_data (i : inputs) : script DataFrame :=
  match csv_file i with
  | None => emit (st_error file_not_found) ;; stop
  | Some df => ret df
  end.

(** ** Required columns check *)

Definition missing_cols (df : DataFrame) : list string :=
  filter (fun c => negb (contains c (columns df))) required_cols.

Definition missing_columns (missing : list string) : string :=
  "❌ Missing required columns: " ++ repr_list missing.

Definition required_columns_check (df : DataFrame) : script unit :=
  match missing_cols df with
  | [] => ret tt
  | missing => emit (st_error (missing_columns missing)) ;; stop
  end.

Section Script.
Context `{Float64Ops}.

(** ** Sidebar: transaction selection *)

Definition not_found : string := "❌ Selected transaction not found.".

(** The branch taken when the frame has a [transaction_id] column, from
    the chosen identifier on. *)
Definition lookup (df : DataFrame) (txn_id : option value) : script Row :=
  ids <- lift (getitem df "transaction_id") ;;
  let filtered := filter_rows df (eq_scalar ids txn_id) in
  if empty filtered
  then emit (st_error not_found) ;; stop
  else lift (iloc filtered 0).

Definition transaction_selection (i : inputs) (df : DataFrame)
  : script (DataFrame * Row) :=
  emit (st_sidebar (st_header "🔍 Select Transaction")) ;;
  if contains "transaction_id" (columns df) then
    raw <- lift (getitem df "transaction_id") ;;
    let df := setitem df "transaction_id" (str_strip (astype_str raw)) in
    ids <- lift (getitem df "transaction_id") ;;
    let options := unique ids in
    emit (st_sidebar (st_selectbox "Transaction ID" options)) ;;
    let txn_id := selectbox options (choice i) in
    txn <- lookup df txn_id ;;
    ret (df, txn)
  else
    let options := index df in
    emit (st_sidebar (st_selectbox "Transaction Row Index"
                        (map (fun n => VInt (Z.of_nat n)) options))) ;;
    let txn_index := selectbox options (choice i) in
    txn <- lift (loc df txn_index) ;;
    ret (df, txn).

(** ** Main output: final decision *)

Definition ground_truth (n : Z) : string :=
  if (n =? 1)%Z then "Yes" else "No".

Definition final_decision (txn : Row) : script unit :=
  emit (st_subheader "🚨 Final Fraud Decision") ;;
  emit (st_columns 3) ;;
  score <- lift (row_get txn "final_moe_score") ;;
  x <- lift (Py.float score) ;;
  emit (st_metric 1 "Final Fraud Score" (VFloat (Py.round x 3))) ;;
  level <- lift (row_get txn "fraud_risk_level") ;;
  emit (st_metric 2 "Fraud Risk Level" (VStr (Py.str level))) ;;
  label <- lift (row_get txn "is_fraud") ;;
  n <- lift (Py.int label) ;;
  emit (st_metric 3 "Actual Fraud (Ground Truth)" (VStr (ground_truth n))).

(** ** Business decision message *)

Definition status_message (risk_level : string) : element :=
  if (risk_level =? "LOW")%string then
    st_success "✅ Your transaction was successful."
  else if (risk_level =? "MEDIUM")%string then
    st_warning "⚠️ Your transaction is on hold. Please contact the bank."
  else if (risk_level =? "HIGH")%string then
    st_error "🚫 Your transaction is blocked. Please contact the bank immediately."
  else
    st_info "ℹ️ Transaction status unavailable.".

Definition transaction_status (txn : Row) : script unit :=
  level <- lift (row_get txn "fraud_risk_level") ;;
  let risk_level := upper (Py.str level) in
  emit (st_subheader "📢 Transaction Status") ;;
  emit (status_message risk_level).

(** ** Expert model scores *)

Definition expert_contributions (txn : Row) : script unit :=
  emit (st_subheader "🧠 Expert Model Contributions") ;;
  lstm <- lift (row_get txn "lstm_score") ;;
  transformer <- lift (row_get txn "transformer_score") ;;
  autoencoder <- lift (row_get txn "autoencoder_score") ;;
  xgb <- lift (row_get txn "xgb_score") ;;
  ada <- lift (row_get txn "ada_score") ;;
  emit (st_bar_chart
          [ (VStr "LSTM (Behavioral)", lstm);
            (VStr "Transformer (Feature Interaction)", transformer);
            (VStr "Autoencoder (Anomaly)", autoencoder);
            (VStr "XGBoost (Tabular)", xgb);
            (VStr "AdaBoost (Ensemble)", ada) ]).

(** ** Explanation section *)

Definition explanation : script unit :=
  emit (st_subheader "📘 How This Decision Was Made") ;;
  emit (st_markdown "
- **LSTM** analyzes sequential transaction behavior  
- **Transformer** models complex feature interactions  
- **Autoencoder** detects anomalous patterns  
- **XGBoost & AdaBoost** provide strong tabular signals  
- **Gating Network (MoE)** combines all expert outputs dynamically  
").

(** ** Optional dataset insights *)

Definition risk_level_distribution (df : DataFrame) : exn + list (value * value) :=
  match getitem df "fraud_risk_level" with
  | inr levels =>
      inr (map (fun kn => (fst kn, VInt (Z.of_nat (snd kn)))) (value_counts levels))
  | inl e => inl e
  end.

Definition score_sample (i : inputs) (df : DataFrame) : exn + Series :=
  match getitem df "final_moe_score" with
  | inr scores =>
      match sample (rng i) (Nat.min 1000 (len df)) scores with
      | inr sampled =>
          match sort_values sampled with
          | inr sorted => inr (reset_index sorted)
          | inl e => inl e
          end
      | inl e => inl e
      end
  | inl e => inl e
  end.

Definition dataset_insights (i : inputs) (df : DataFrame) : script unit :=
  expander "📊 Dataset Insights"
    (emit (st_write "Fraud Risk Level Distribution") ;;
     counts <- lift (risk_level_distribution df) ;;
     emit (st_bar_chart counts) ;;
     emit (st_write "Final MoE Score Distribution (Sample)") ;;
     line <- lift (score_sample i df) ;;
     emit (st_line_chart line)).

(** ** Footer *)

Definition footer : script unit :=
  emit (st_markdown "---") ;;
  emit (st_caption ("This application demonstrates a Mixture-of-Experts fraud detection "
                    ++ "architecture inspired by Nubank’s real-time defense platform.")).

(** ** The script, top to bottom *)

Definition after_selection (i : inputs) (df : DataFrame) (txn : Row) : script unit :=
  final_decision txn ;;
  transaction_status txn ;;
  expert_contributions txn ;;
  explanation ;;
  dataset_insights i df ;;
  footer.

Definition after_check (i : inputs) (df : DataFrame) : script unit :=
  sel <- transaction_selection i df ;;
  after_selection i (fst sel) (snd sel).

Definition after_load (i : inputs) (df : DataFrame) : script unit :=
  required_columns_check df ;;
  after_check i df.

Definition app (i : inputs) : script unit :=
  page_config ;;
  df <- load_data i ;;
  after_load i df.

End Script.

End App.

(* ================================================================== *)
(** * Sample data *)
(* ================================================================== *)

Module Examples.
Import Py Pandas Streamlit App.

(** A decimal literal of the file, as [read_csv] stores it. *)
Definition num (s : string) : value :=
  match Binary64.of_string s with
  | Some x => VFloat x
  | None => VStr s
  end.

(** Three scored transactions: a repeated identifier, an identifier and
    a level with blanks around, a missing level. *)
Definition scored : DataFrame :=
  [ ("transaction_id", [VStr "T100"; VStr " T101 "; VStr "T100"]);
    ("is_fraud", [VInt 1; VInt 0; VInt 1]);
    ("final_moe_score", [num "0.8734"; num "0.12"; num "0.5"]);
    ("fraud_risk_level", [VStr "HIGH"; VStr " low"; VFloat NaN]);
    ("lstm_score", [num "0.9"; num "0.1"; num "0.5"]);
    ("transformer_score", [num "0.85"; num "0.1"; num "0.5"]);
    ("autoencoder_score", [num "0.7"; num "0.1"; num "0.5"]);
    ("xgb_score", [num "0.88"; num "0.1"; num "0.5"]);
    ("ada_score", [num "0.81"; num "0.1"; num "0.5"]) ].

Definition first_visit : inputs :=
  {| csv_file := Some scored; choice := 0; rng := [2; 0; 1] |}.

(** The header line alone: every column, no row. *)
Definition no_rows : DataFrame :=
  map (fun c => (c, [])) ("transaction_id" :: required_cols).

Definition empty_visit : inputs :=
  {| csv_file := Some no_rows; choice := 0; rng := [] |}.

(** [scored] without its [xgb_score] column. *)
Definition without_xgb : DataFrame :=
  filter (fun cs => negb (String.eqb (fst cs) "xgb_score")) scored.

Definition broken_visit : inputs :=
  {| csv_file := Some without_xgb; choice := 0; rng := [0; 1; 2] |}.

(** The first row of [scored] after the identifiers are trimmed. *)
Definition t100 : Row :=
  [ ("transaction_id", VStr "T100");
    ("is_fraud", VInt 1);
    ("final_moe_score", num "0.8734");
    ("fraud_risk_level", VStr "HIGH");
    ("lstm_score", num "0.9");
    ("transformer_score", num "0.85");
    ("autoencoder_score", num "0.7");
    ("xgb_score", num "0.88");
    ("ada_score", num "0.81") ].

(** The second row of [scored]: its level is [low] after a blank. *)
Definition t101 : Row := row_at scored 1.

(** [scored] without its [transaction_id] column. *)
Definition unlabelled : DataFrame := tl scored.

Definition unlabelled_visit : inputs :=
  {| csv_file := Some unlabelled; choice := 2; rng := [0; 1; 2] |}.

(** [scored] with the identifiers trimmed. *)
Definition trimmed : DataFrame :=
  setitem scored "transaction_id" [VStr "T100"; VStr "T101"; VStr "T100"].

(** The same file, the second option chosen. *)
Definition second_visit : inputs :=
  {| csv_file := Some scored; choice := 1; rng := [2; 0; 1] |}.

(** The required columns alone, and no row. *)
Definition bare : DataFrame := map (fun c => (c, [])) required_cols.

Definition bare_visit : inputs :=
  {| csv_file := Some bare; choice := 0; rng := [] |}.

(** [scored] with a score column of text, the first one no number. *)
Definition garbled : DataFrame :=
  setitem scored "final_moe_score" [VStr "n/a"; VStr "0.12"; VStr "0.5"].

Definition garbled_visit : inputs :=
  {| csv_file := Some garbled; choice := 0; rng := [2; 0; 1] |}.

(** [scored] with a score column of text and numbers. *)
Definition mixed : DataFrame :=
  setitem scored "final_moe_score" [num "0.8734"; VStr "n/a"; num "0.5"].

Definition mixed_visit : inputs :=
  {| csv_file := Some mixed; choice := 0; rng := [2; 0; 1] |}.

(** A row whose level is the integer 3. *)
Definition numbered : Row := [("fraud_risk_level", VInt 3)].

End Examples.

(* ================================================================== *)
(** * Vocabulary of the statements *)
(* ================================================================== *)

Module Spec.
Import Py Pandas Streamlit App.

(** All the sublists of a list, in the order of the list. *)
Fixpoint sublists {A : Type} (l : list A) : list (list A) :=
  match l with
  | [] => [[]]
  | x :: r => map (cons x) (sublists r) ++ sublists r
  end.

Definition same_names (a b : list string) : bool :=
  if list_eq_dec string_dec a b then true else false.

(** No character of [s] is white space. *)
Fixpoint solid (s : string) : bool :=
  match s with
  | EmptyString => true
  | String c r => negb (isspace c) && solid r
  end.

(** The three risk tiers. *)
Definition tier (u : string) : Prop := u = "LOW" \/ u = "MEDIUM" \/ u = "HIGH".

(** The sum of the counts of a table. *)
Definition total (counts : list (value * nat)) : nat := list_sum (map snd counts).

(** The number of values of [s] under the key [k]. *)
Definition occurrences (k : value) (s : Series) : nat :=
  List.length (filter (same_key k) s).

(** The keys of a table are pairwise different. *)
Definition tidy (table : list (value * nat)) : Prop :=
  ForallOrdPairs (fun a b => same_key (fst a) (fst b) = false) table.

(** A present number, and a string: the two kinds of values a sorted
    series is made of. *)
Definition present_number (v : value) : Prop := is_number v = true /\ isna v = false.

(** The present values of [s] are all numbers or all strings. *)
Definition sortable (s : Series) : bool :=
  forallb is_number (filter notna s) || forallb is_string (filter notna s).

(** Ascending, missing values last. *)
Definition ascending (s : Series) : Prop :=
  exists present missing,
    s = present ++ missing
    /\ Forall (fun v => isna v = false) present
    /\ Forall (fun v => isna v = true) missing
    /\ StronglySorted (fun a b => Py.leb a b = true) present.

Section Conversions.
Context `{Float64Ops}.

(** The identifiers as the selection uses them. *)
Definition trim_ids (raw : Series) : Series :=
  map (fun v => VStr (strip (Py.str v))) raw.

End Conversions.

(** The first character of [s] is white space. *)
Definition starts_blank (s : string) : bool :=
  match s with
  | EmptyString => false
  | String c _ => isspace c
  end.

(** The last character of [s] is white space. *)
Fixpoint ends_blank (s : string) : bool :=
  match s with
  | EmptyString => false
  | String c EmptyString => isspace c
  | String _ r => ends_blank r
  end.

(** The row has every required field. *)
Definition has_fields (txn : Row) : Prop :=
  forall c, In c required_cols -> exists v, row_get txn c = inr v.

(** The two elements the selection puts in the side bar. *)
Definition selection_box (label : string) (options : list value) : list element :=
  [ st_sidebar (st_header "🔍 Select Transaction");
    st_sidebar (st_selectbox label options) ].

(** The five bars of the expert chart for a row with these scores. *)
Definition expert_bars (lstm transformer autoencoder xgb ada : value)
  : list (value * value) :=
  [ (VStr "LSTM (Behavioral)", lstm);
    (VStr "Transformer (Feature Interaction)", transformer);
    (VStr "Autoencoder (Anomaly)", autoencoder);
    (VStr "XGBoost (Tabular)", xgb);
    (VStr "AdaBoost (Ensemble)", ada) ].

(** [k] thousandths is the multiple of 0.001 nearest to [q]; where two
    multiples are equally near, [k] is the even one. *)
Definition nearest_thousandth (q : Q) (k : Z) : Prop :=
  (Qabs (q - inject_Z k / inject_Z 1000) <= 1 # 2000)%Q
  /\ ((Qabs (q - inject_Z k / inject_Z 1000) == 1 # 2000)%Q -> Z.even k = true).

(** [y] is the decimal [d] as a binary64 number: a finite value is off
    by at most one part in [2^53]; an infinity stands for a magnitude of
    [2^1023] or more and has the sign of [d]. *)
Definition binary64_of (d : Q) (y : float64) : Prop :=
  match y with
  | Fin r => (Qabs (r - d) * inject_Z (2 ^ 53) <= Qabs d)%Q
  | Inf neg => (inject_Z (2 ^ 1023) <= Qabs d)%Q /\ neg = (Qnum d <? 0)%Z
  | NaN => False
  end.

(** [y] is [x] rounded to three decimal places: the float of the
    nearest multiple of 0.001; a value that is not finite is kept. *)
Definition three_decimals (x y : float64) : Prop :=
  match x with
  | Fin q =>
      exists k : Z,
        nearest_thousandth q k /\ binary64_of (inject_Z k / inject_Z 1000) y
  | _ => y = x
  end.

End Spec.

(* ================================================================== *)
(** * Properties *)
(* ================================================================== *)

Import Py Pandas Streamlit App Spec.
Local Open Scope script_scope.

(** ** The script monad *)

Section ScriptFacts.
Context {A B : Type}.

Lemma bind_done (m : script A) (k : A -> script B) (es : list element) (a : A) :
  m = (es, Done a) -> bind m k = (es ++ fst (k a), snd (k a)).
Proof. intros ->. reflexivity. Qed.

Lemma bind_stopped (m : script A) (k : A -> script B) (es : list element) :
  m = (es, Stopped) -> bind m k = (es, Stopped).
Proof. intros ->. reflexivity. Qed.

Lemma bind_raised (m : script A) (k : A -> script B) (es : list element) (e : exn) :
  m = (es, Raised e) -> bind m k = (es, Raised e).
Proof. intros ->. reflexivity. Qed.

Lemma bind_lift_inr (a : A) (k : A -> script B) : bind (lift (inr a)) k = k a.
Proof. unfold bind. simpl. now destruct (k a). Qed.

Lemma bind_lift_inl (e : exn) (k : A -> script B) :
  bind (lift (inl e)) k = ([], Raised e).
Proof. reflexivity. Qed.

Lemma errors_app (p q : list element) : errors (p ++ q) = errors p ++ errors q.
Proof. unfold errors. apply flat_map_app. Qed.

Lemma errors_bind (m : script A) (k : A -> script B) :
  errors (fst (bind m k)) =
  errors (fst m) ++ match snd m with
                    | Done a => errors (fst (k a))
                    | _ => []
                    end.
Proof.
  unfold bind. destruct (snd m); simpl.
  - apply errors_app.
  - now rewrite app_nil_r.
  - now rewrite app_nil_r.
Qed.

Lemma errors_lift (r : exn + A) : errors (fst (lift r)) = [].
Proof. now destruct r. Qed.

Lemma errors_bind_In (m : script A) (k : A -> script B) (e : string) :
  In e (errors (fst (bind m k))) ->
  In e (errors (fst m)) \/ exists a, snd m = Done a /\ In e (errors (fst (k a))).
Proof.
  rewrite errors_bind, in_app_iff. intros [He | He]; [now left |].
  destruct (snd m) as [a | |]; simpl in He; try tauto.
  right. now exists a.
Qed.

End ScriptFacts.

Ltac script_errors :=
  repeat (rewrite ?errors_bind, ?errors_lift; simpl;
          try match goal with
              | |- context [snd (lift ?r)] => destruct r; simpl
              end).

(** ** Lists and strings *)

Lemma contains_In (c : string) (labels : list string) :
  contains c labels = true <-> In c labels.
Proof.
  unfold contains. rewrite existsb_exists. split.
  - intros [x [Hx Heq]]. apply String.eqb_eq in Heq. now subst.
  - intros Hc. exists c. split; [assumption | apply String.eqb_refl].
Qed.

Lemma filter_NoDup {A : Type} (f : A -> bool) (l : list A) :
  NoDup l -> NoDup (filter f l).
Proof.
  induction 1 as [| x l Hx Hl IH]; simpl; [constructor |].
  destruct (f x); [constructor |]; auto.
  rewrite filter_In. tauto.
Qed.

Lemma filter_sublists {A : Type} (f : A -> bool) (l : list A) :
  In (filter f l) (sublists l).
Proof.
  induction l as [| x l IH]; simpl; [now left |].
  apply in_or_app. destruct (f x); [left | now right].
  now apply in_map.
Qed.

(** The text of the error tells the lists of required columns apart. *)
Lemma missing_columns_inj (a b : list string) :
  In a (sublists required_cols) -> In b (sublists required_cols) ->
  missing_columns a = missing_columns b -> a = b.
Proof.
  intros Ha Hb Heq.
  assert (Hall : forallb (fun x => forallb (fun y =>
            implb (String.eqb (missing_columns x) (missing_columns y)) (same_names x y))
            (sublists required_cols)) (sublists required_cols) = true)
    by (vm_compute; reflexivity).
  rewrite forallb_forall in Hall. specialize (Hall a Ha).
  rewrite forallb_forall in Hall. specialize (Hall b Hb).
  rewrite Heq, String.eqb_refl in Hall. simpl in Hall.
  unfold same_names in Hall.
  now destruct (list_eq_dec string_dec a b).
Qed.

(** ** Case and white space *)

Lemma isspace_toupper (c : ascii) : isspace c = true -> toupper c = c.
Proof.
  destruct c as [[] [] [] [] [] [] [] []]; vm_compute; congruence.
Qed.

Lemma upper_append (a b : string) : upper (a ++ b) = (upper a ++ upper b)%string.
Proof. induction a as [| c a IH]; simpl; [reflexivity | now rewrite IH]. Qed.

Lemma upper_blank (s : string) : blank s = true -> upper s = s.
Proof.
  induction s as [| c s IH]; simpl; [reflexivity |].
  rewrite andb_true_iff. intros [Hc Hs].
  now rewrite (isspace_toupper c Hc), IH.
Qed.

Lemma solid_upper (s : string) : solid (upper s) = true -> solid s = true.
Proof.
  induction s as [| c s IH]; simpl; [reflexivity |].
  rewrite !andb_true_iff, !negb_true_iff. intros [Hc Hs].
  split; [| now apply IH].
  destruct (isspace c) eqn:Hsp; [| reflexivity].
  now rewrite (isspace_toupper c Hsp), Hsp in Hc.
Qed.

Lemma lstrip_blank (lead s : string) :
  blank lead = true -> lstrip (lead ++ s) = lstrip s.
Proof.
  induction lead as [| c lead IH]; simpl; [reflexivity |].
  rewrite andb_true_iff. intros [Hc Hl]. rewrite Hc. now apply IH.
Qed.

Lemma rstrip_blank (trail : string) : blank trail = true -> rstrip trail = EmptyString.
Proof.
  induction trail as [| c trail IH]; simpl; [reflexivity |].
  rewrite andb_true_iff. intros [Hc Hl]. now rewrite IH, Hc.
Qed.

Lemma rstrip_solid (t trail : string) :
  solid t = true -> blank trail = true -> rstrip (t ++ trail) = t.
Proof.
  intros Ht Htrail. induction t as [| c t IH]; simpl.
  - now apply rstrip_blank.
  - simpl in Ht. rewrite andb_true_iff, negb_true_iff in Ht. destruct Ht as [Hc Ht].
    rewrite (IH Ht). destruct t; [now rewrite Hc | reflexivity].
Qed.

Lemma strip_around (lead t trail : string) :
  blank lead = true -> solid t = true -> blank trail = true ->
  strip (lead ++ t ++ trail) = t.
Proof.
  intros Hlead Ht Htrail. unfold strip. rewrite (lstrip_blank lead _ Hlead).
  destruct t as [| c t]; simpl.
  - assert (Hl : lstrip trail = EmptyString).
    { clear -Htrail. induction trail as [| c trail IH]; simpl; [reflexivity |].
      simpl in Htrail. rewrite andb_true_iff in Htrail. destruct Htrail as [Hc Hr].
      rewrite Hc. now apply IH. }
    now rewrite Hl.
  - simpl in Ht. rewrite andb_true_iff, negb_true_iff in Ht. destruct Ht as [Hc Ht].
    rewrite Hc. change (String c (t ++ trail)) with (String c t ++ trail)%string.
    apply rstrip_solid; [| assumption]. simpl. now rewrite Hc, Ht.
Qed.

(** Blanks around a tier give a string that is no tier. *)
Lemma padded_tier (lead u trail : string) :
  blank lead = true -> blank trail = true ->
  lead <> EmptyString \/ trail <> EmptyString ->
  tier u -> ~ tier (lead ++ u ++ trail).
Proof.
  intros Hlead Htrail Hpad Hu Hv.
  destruct lead as [| c lead].
  - destruct Hpad as [Hpad | Hpad]; [congruence |].
    destruct trail as [| c trail]; [congruence |].
    simpl in Htrail. rewrite andb_true_iff in Htrail. destruct Htrail as [Hc _].
    destruct Hu as [-> | [-> | ->]], Hv as [Hv | [Hv | Hv]]; simpl in Hv;
      try discriminate Hv; injection Hv as Hv; discriminate.
  - simpl in Hlead. rewrite andb_true_iff in Hlead. destruct Hlead as [Hc _].
    destruct Hv as [Hv | [Hv | Hv]]; simpl in Hv; injection Hv as -> _; discriminate Hc.
Qed.

(** ** Data frames *)

Lemma getitem_contains (df : DataFrame) (c : string) :
  contains c (columns df) = true <-> exists s, getitem df c = inr s.
Proof.
  induction df as [| [c' s'] df IH]; simpl.
  - split; [discriminate | intros [s Hs]; discriminate].
  - rewrite String.eqb_sym. destruct (String.eqb c' c); simpl.
    + split; [intros _; now exists s' | reflexivity].
    + exact IH.
Qed.

Lemma distinct_NoDup (labels : list string) : distinct labels = true -> NoDup labels.
Proof.
  induction labels as [| c r IH]; simpl; [constructor |].
  rewrite andb_true_iff, negb_true_iff. intros [Hc Hr].
  constructor; [| now apply IH].
  rewrite <- contains_In. congruence.
Qed.

Lemma wfb_wf (df : DataFrame) : wfb df = true -> wf df.
Proof.
  unfold wfb, wf. rewrite andb_true_iff, forallb_forall, Forall_forall.
  intros [Hd Hl]. split; [now apply distinct_NoDup |].
  intros cs Hin. apply Nat.eqb_eq. now apply Hl.
Qed.

Lemma getitem_In (df : DataFrame) (c : string) (s : Series) :
  getitem df c = inr s -> In (c, s) df.
Proof.
  induction df as [| [c' s'] df IH]; simpl; [discriminate |].
  destruct (String.eqb_spec c' c) as [-> | _].
  - intros [= ->]. now left.
  - intros Hs. right. now apply IH.
Qed.

Lemma wf_length (df : DataFrame) (c : string) (s : Series) :
  wf df -> getitem df c = inr s -> List.length s = len df.
Proof.
  intros [_ Hlen] Hs. apply getitem_In in Hs.
  rewrite Forall_forall in Hlen. exact (Hlen _ Hs).
Qed.

Lemma setitem_columns (df : DataFrame) (c : string) (s s0 : Series) :
  getitem df c = inr s0 -> columns (setitem df c s) = columns df.
Proof.
  induction df as [| [c' s'] df IH]; simpl; [discriminate |].
  destruct (String.eqb c' c); simpl; [reflexivity |].
  intros Hs. now rewrite IH.
Qed.

Lemma getitem_setitem (df : DataFrame) (c : string) (s s0 : Series) :
  getitem df c = inr s0 -> getitem (setitem df c s) c = inr s.
Proof.
  induction df as [| [c' s'] df IH]; simpl; [discriminate |].
  destruct (String.eqb c' c) eqn:Hc; simpl; rewrite Hc; [reflexivity | exact IH].
Qed.

Lemma getitem_setitem_other (df : DataFrame) (c c' : string) (s : Series) :
  c <> c' -> getitem (setitem df c s) c' = getitem df c'.
Proof.
  intros Hne. induction df as [| [c0 s0] df IH]; simpl.
  - apply String.eqb_neq in Hne. now rewrite Hne.
  - destruct (String.eqb_spec c0 c) as [-> | Hc0]; simpl.
    + apply String.eqb_neq in Hne. now rewrite Hne.
    + now rewrite IH.
Qed.

Lemma setitem_Forall (P : string * Series -> Prop) (df : DataFrame) (c : string)
      (s : Series) :
  Forall P df -> P (c, s) -> Forall P (setitem df c s).
Proof.
  intros Hdf Hs. induction Hdf as [| [c' s'] df Hx Hdf IH]; simpl.
  - now constructor.
  - destruct (String.eqb_spec c' c) as [-> | _]; constructor; assumption.
Qed.

Lemma setitem_len (df : DataFrame) (c : string) (s s0 : Series) :
  wf df -> getitem df c = inr s0 -> List.length s = List.length s0 ->
  len (setitem df c s) = len df.
Proof.
  intros Hwf Hs Hlen. pose proof (wf_length df c s0 Hwf Hs) as H0.
  destruct df as [| [c' s'] df]; simpl in *; [discriminate |].
  destruct (String.eqb c' c); simpl; [| reflexivity].
  injection Hs as <-. congruence.
Qed.

Lemma setitem_wf (df : DataFrame) (c : string) (s s0 : Series) :
  wf df -> getitem df c = inr s0 -> List.length s = List.length s0 ->
  wf (setitem df c s).
Proof.
  intros Hwf Hs Hlen. split.
  - rewrite (setitem_columns df c s s0 Hs). apply Hwf.
  - rewrite (setitem_len df c s s0 Hwf Hs Hlen).
    apply setitem_Forall; [apply Hwf |].
    simpl. rewrite Hlen. now apply (wf_length df c).
Qed.

(** ** Boolean indexing *)

Lemma select_nil {A : Type} (mask : list bool) (l : list A) :
  (forall k, nth k mask false = false) -> select mask l = [].
Proof.
  revert l. induction mask as [| b mask IH]; intros l Hall; [reflexivity |].
  destruct l as [| x l]; [reflexivity |]. simpl.
  pose proof (Hall 0) as H0. simpl in H0. subst b.
  apply IH. intros k. exact (Hall (S k)).
Qed.

Lemma select_first {A : Type} (mask : list bool) (l : list A) (d : A) (k : nat) :
  List.length l = List.length mask ->
  nth k mask false = true ->
  (forall j, j < k -> nth j mask false = false) ->
  exists r, select mask l = nth k l d :: r.
Proof.
  revert l k. induction mask as [| b mask IH]; intros l k Hlen Hk Hbefore.
  - destruct k; discriminate.
  - destruct l as [| x l]; [discriminate |]. simpl in Hlen.
    destruct k as [| k]; simpl in *.
    + subst b. now exists (select mask l).
    + pose proof (Hbefore 0 (Nat.lt_0_succ k)) as H0. simpl in H0. subst b.
      apply IH; [lia | assumption |].
      intros j Hj. apply (Hbefore (S j)). lia.
Qed.

Lemma first_true (mask : list bool) :
  (exists k, nth k mask false = true) ->
  exists k, k < List.length mask /\ nth k mask false = true
            /\ forall j, j < k -> nth j mask false = false.
Proof.
  induction mask as [| b mask IH]; intros [k Hk].
  - destruct k; discriminate.
  - destruct b.
    + exists 0. simpl. repeat split; [lia | intros j Hj; lia].
    + destruct k as [| k]; [discriminate |].
      destruct IH as [k' [Hlt [Hk' Hbefore]]]; [now exists k |].
      exists (S k'). simpl. repeat split; [lia | assumption |].
      intros [| j] Hj; [reflexivity | apply Hbefore; lia].
Qed.

Lemma filter_rows_none (df : DataFrame) (mask : list bool) :
  (forall k, nth k mask false = false) -> empty (filter_rows df mask) = true.
Proof.
  intros Hall. unfold empty.
  destruct df as [| [c s] df]; [reflexivity |].
  simpl. now rewrite select_nil.
Qed.

Lemma filter_rows_first (df : DataFrame) (c : string) (s : Series)
      (mask : list bool) (k : nat) :
  wf df -> getitem df c = inr s ->
  List.length mask = len df ->
  nth k mask false = true ->
  (forall j, j < k -> nth j mask false = false) ->
  empty (filter_rows df mask) = false
  /\ iloc (filter_rows df mask) 0 = inr (row_at df k).
Proof.
  intros [_ Hlen] Hs Hmask Hk Hbefore.
  assert (Hrow : row_at (filter_rows df mask) 0 = row_at df k).
  { unfold row_at, filter_rows. rewrite map_map. apply map_ext_in.
    intros [c' s'] Hin. simpl.
    rewrite Forall_forall in Hlen. specialize (Hlen _ Hin). simpl in Hlen.
    destruct (select_first mask s' (VFloat NaN) k) as [r ->];
      [congruence | assumption | assumption | reflexivity]. }
  destruct df as [| [c0 s0] df]; [discriminate |].
  inversion Hlen as [| ? ? H0 _]; subst. simpl in H0, Hmask.
  destruct (select_first mask s0 (VFloat NaN) k) as [r Hr];
    [simpl; congruence | assumption | assumption |].
  split.
  - unfold empty. simpl. now rewrite Hr.
  - unfold iloc. rewrite <- Hrow. simpl. now rewrite Hr.
Qed.

Lemma row_at_get (df : DataFrame) (c : string) (s : Series) (k : nat) :
  getitem df c = inr s -> row_get (row_at df k) c = inr (nth k s (VFloat NaN)).
Proof.
  induction df as [| [c' s'] df IH]; simpl; [discriminate |].
  destruct (String.eqb c' c); [now intros [= ->] | exact IH].
Qed.

Lemma getitem_filter_rows (df : DataFrame) (c : string) (s : Series) (mask : list bool) :
  getitem df c = inr s -> getitem (filter_rows df mask) c = inr (select mask s).
Proof.
  induction df as [| [c' s'] df IH]; simpl; [discriminate |].
  destruct (String.eqb c' c); [now intros [= ->] | exact IH].
Qed.

(** ** Identifiers *)

Lemma eqb_VStr (s : string) (y : value) : Py.eqb (VStr s) y = true <-> y = VStr s.
Proof.
  destruct y as [t | z | x | b]; simpl; try (split; [discriminate | discriminate]).
  rewrite String.eqb_eq. split; congruence.
Qed.

Lemma same_key_VStr (s : string) (y : value) :
  same_key (VStr s) y = true <-> y = VStr s.
Proof. unfold same_key. simpl. apply eqb_VStr. Qed.

Lemma eq_scalar_nth (ids : Series) (x : option value) (k : nat) :
  Forall (fun v => is_string v = true) ids ->
  nth k (eq_scalar ids x) false = true <-> (exists y, x = Some y /\ nth_error ids k = Some y).
Proof.
  intros Hstr. revert k.
  induction Hstr as [| v ids Hv Hstr IH]; intros k.
  - destruct k; simpl; (split; [discriminate | intros [y [_ Hy]]; discriminate]).
  - destruct k as [| k]; simpl; [| apply IH].
    destruct v as [s | | |]; try discriminate.
    destruct x as [y |].
    + rewrite eqb_VStr. split.
      * intros ->. now exists (VStr s).
      * intros [y' [[= ->] [= ->]]]. reflexivity.
    + split; [discriminate | intros [y [Hy _]]; discriminate].
Qed.

Lemma eq_scalar_length (ids : Series) (x : option value) :
  List.length (eq_scalar ids x) = List.length ids.
Proof. unfold eq_scalar. apply length_map. Qed.

Lemma unique_from_In (s : Series) :
  Forall (fun v => is_string v = true) s ->
  forall seen v, In v (unique_from seen s) <-> In v s /\ ~ In v seen.
Proof.
  induction 1 as [| x s Hx Hs IH]; intros seen v; simpl; [tauto |].
  destruct x as [a | | |]; try discriminate.
  destruct (existsb (same_key (VStr a)) seen) eqn:Hseen.
  - apply existsb_exists in Hseen. destruct Hseen as [w [Hw Hkey]].
    apply same_key_VStr in Hkey. subst w.
    rewrite IH. split; [tauto |].
    intros [[<- | Hin] Hnot]; tauto.
  - assert (Hnew : ~ In (VStr a) seen).
    { intros Hin. apply not_true_iff_false in Hseen. apply Hseen.
      apply existsb_exists. exists (VStr a). split; [assumption |].
      now apply same_key_VStr. }
    simpl. rewrite IH. simpl. split.
    + intros [<- | [Hin Hnot]]; [tauto |]. split; [tauto |]. tauto.
    + intros [[<- | Hin] Hnot]; [now left |].
      rewrite Forall_forall in Hs. pose proof (Hs v Hin) as Hv.
      destruct v as [b | | |]; try discriminate.
      destruct (string_dec a b) as [-> | Hne]; [now left | right].
      split; [assumption |]. intros [[= Hab] | Hseen']; tauto.
Qed.

Lemma unique_from_NoDup (s : Series) :
  Forall (fun v => is_string v = true) s ->
  forall seen, NoDup (unique_from seen s).
Proof.
  induction 1 as [| x s Hx Hs IH]; intros seen; simpl; [constructor |].
  destruct (existsb (same_key x) seen); [apply IH |].
  constructor; [| apply IH].
  rewrite (unique_from_In s Hs). simpl. tauto.
Qed.

Lemma mask_cases (mask : list bool) :
  (exists k, nth k mask false = true) \/ (forall k, nth k mask false = false).
Proof.
  induction mask as [| b mask IH].
  - right. now intros [| k].
  - destruct b; [left; now exists 0 |].
    destruct IH as [[k Hk] | Hall]; [left; now exists (S k) |].
    right. intros [| k]; [reflexivity | apply Hall].
Qed.

Lemma selectbox_some {A : Type} (options : list A) (c : nat) :
  options <> [] -> exists x, selectbox options c = Some x /\ In x options.
Proof.
  intros Hne. unfold selectbox.
  destruct (nth_error options c) as [x |] eqn:Hc.
  - exists x. split; [reflexivity | now apply nth_error_In in Hc].
  - destruct options as [| x r]; [congruence |]. exists x. simpl. tauto.
Qed.

Lemma selectbox_none {A : Type} (c : nat) : selectbox (@nil A) c = None.
Proof. unfold selectbox. now destruct c. Qed.

(** ** Keys and counts *)

Lemma feqb_sym (x y : float64) : feqb x y = feqb y x.
Proof.
  destruct x as [| a | p], y as [| b | q]; simpl; try reflexivity.
  - now destruct a, b.
  - apply eq_true_iff_eq. rewrite !Qeq_bool_iff. split; intros Heq; now symmetry.
Qed.

Lemma feqb_trans (x y z : float64) :
  feqb x y = true -> feqb y z = true -> feqb x z = true.
Proof.
  destruct x as [| a | p], y as [| b | q], z as [| c | r]; simpl; try discriminate.
  - destruct a, b, c; simpl; congruence.
  - rewrite !Qeq_bool_iff. intros Hpq Hqr. now rewrite Hpq.
Qed.

Lemma eqb_sym (a b : value) : Py.eqb a b = Py.eqb b a.
Proof.
  destruct a, b; cbn [Py.eqb as_number]; try reflexivity; try apply feqb_sym.
  apply String.eqb_sym.
Qed.

Lemma eqb_trans (a b c : value) :
  Py.eqb a b = true -> Py.eqb b c = true -> Py.eqb a c = true.
Proof.
  destruct a, b, c; cbn [Py.eqb as_number]; try discriminate; try apply feqb_trans.
  rewrite !String.eqb_eq. congruence.
Qed.

Lemma eqb_isna (a b : value) : Py.eqb a b = true -> isna a = false /\ isna b = false.
Proof.
  destruct a as [| | [| |] |], b as [| | [| |] |]; simpl; try discriminate; auto.
Qed.

Lemma same_key_refl (a : value) : same_key a a = true.
Proof.
  destruct a as [s | z | [| b | q] | b]; unfold same_key; simpl;
    try reflexivity.
  - apply String.eqb_refl.
  - apply Qeq_bool_iff. reflexivity.
  - now destruct b.
  - apply Qeq_bool_iff. reflexivity.
  - apply Qeq_bool_iff. reflexivity.
Qed.

Lemma same_key_sym (a b : value) : same_key a b = same_key b a.
Proof. unfold same_key. now rewrite andb_comm, eqb_sym. Qed.

Lemma same_key_trans (a b c : value) :
  same_key a b = true -> same_key b c = true -> same_key a c = true.
Proof.
  unfold same_key. rewrite !orb_true_iff, !andb_true_iff.
  intros [[Ha Hb] | Hab] [[Hb' Hc] | Hbc].
  - left. tauto.
  - apply eqb_isna in Hbc. destruct Hbc; congruence.
  - apply eqb_isna in Hab. destruct Hab; congruence.
  - right. now apply (eqb_trans a b c).
Qed.

Lemma same_key_isna (a b : value) :
  same_key a b = true -> isna a = isna b.
Proof.
  unfold same_key. rewrite orb_true_iff, andb_true_iff.
  intros [[-> ->] | Hab]; [reflexivity |].
  apply eqb_isna in Hab. destruct Hab; congruence.
Qed.

Lemma count_into_total (v : value) (table : list (value * nat)) :
  total (count_into v table) = S (total table).
Proof.
  unfold total. induction table as [| [k n] table IH]; simpl; [reflexivity |].
  destruct (same_key k v); simpl; [reflexivity |]. rewrite IH. lia.
Qed.

Lemma count_into_keys (v k : value) (table : list (value * nat)) :
  In k (map fst (count_into v table)) -> k = v \/ In k (map fst table).
Proof.
  induction table as [| [k0 n] table IH]; simpl.
  - intros [<- | []]. now left.
  - destruct (same_key k0 v); simpl; [tauto |].
    intros [<- | Hin]; [tauto |]. destruct (IH Hin); tauto.
Qed.

Lemma occurrences_cons (k v : value) (s : Series) :
  occurrences k (v :: s) = (if same_key k v then 1 else 0) + occurrences k s.
Proof. unfold occurrences. simpl. now destruct (same_key k v). Qed.

Lemma occurrences_none (v : value) (s : Series) :
  (forall x, In x s -> same_key v x = false) -> occurrences v s = 0.
Proof.
  unfold occurrences. induction s as [| x s IH]; intros Hall; simpl; [reflexivity |].
  rewrite (Hall x (or_introl eq_refl)). apply IH.
  intros y Hy. apply Hall. now right.
Qed.

Lemma count_into_counts (v : value) (s : Series) (table : list (value * nat)) :
  tidy table ->
  (forall k n, In (k, n) table -> n = occurrences k s) ->
  (forall x, In x s -> same_key v x = true ->
             exists k, In k (map fst table) /\ same_key k x = true) ->
  tidy (count_into v table)
  /\ forall k n, In (k, n) (count_into v table) -> n = occurrences k (v :: s).
Proof.
  induction table as [| [k0 n0] table IH]; intros Htidy Hcount Hkeys; simpl.
  - split; [repeat constructor |].
    intros k n [[= <- <-] | []]. rewrite occurrences_cons, same_key_refl.
    rewrite occurrences_none; [reflexivity |].
    intros x Hx. destruct (same_key v x) eqn:Hvx; [| reflexivity].
    destruct (Hkeys x Hx Hvx) as [k [[] _]].
  - inversion Htidy as [| ? ? Hhead Htail]; subst.
    rewrite Forall_forall in Hhead.
    destruct (same_key k0 v) eqn:Hk0.
    + split.
      * constructor; [| assumption]. now apply Forall_forall.
      * intros k n [[= <- <-] | Hin].
        -- rewrite occurrences_cons, Hk0. simpl. f_equal.
           apply Hcount. now left.
        -- rewrite occurrences_cons.
           pose proof (Hhead _ Hin) as Hne. simpl in Hne.
           assert (Hkv : same_key k v = false).
           { destruct (same_key k v) eqn:Hkv; [| reflexivity].
             rewrite same_key_sym in Hkv.
             now rewrite (same_key_trans k0 v k Hk0 Hkv) in Hne. }
           rewrite Hkv. simpl. apply Hcount. now right.
    + destruct IH as [Htidy' Hcount']; [assumption | | |].
      { intros k n Hin. apply Hcount. now right. }
      { intros x Hx Hvx. destruct (Hkeys x Hx Hvx) as [k [[<- | Hin] Hkx]].
        - simpl in Hkx. rewrite same_key_sym in Hvx.
          now rewrite (same_key_trans k0 x v Hkx Hvx) in Hk0.
        - now exists k. }
      split.
      * constructor; [| assumption].
        apply Forall_forall. intros [k n] Hin. simpl.
        assert (Hk : In k (map fst (count_into v table)))
          by (apply in_map_iff; now exists (k, n)).
        apply count_into_keys in Hk. destruct Hk as [-> | Hk]; [assumption |].
        apply in_map_iff in Hk. destruct Hk as [[k' n'] [Heq Hin']].
        simpl in Heq. subst k'. exact (Hhead _ Hin').
      * intros k n [[= <- <-] | Hin].
        -- rewrite occurrences_cons, Hk0. simpl. apply Hcount. now left.
        -- now apply Hcount'.
Qed.

Lemma count_into_keeps (v k : value) (table : list (value * nat)) :
  In k (map fst table) -> In k (map fst (count_into v table)).
Proof.
  induction table as [| [k0 n] table IH]; simpl; [tauto |].
  destruct (same_key k0 v); simpl; tauto.
Qed.

Lemma count_into_covers (v : value) (table : list (value * nat)) :
  exists k, In k (map fst (count_into v table)) /\ same_key k v = true.
Proof.
  induction table as [| [k0 n] table IH]; simpl.
  - exists v. split; [now left | apply same_key_refl].
  - destruct (same_key k0 v) eqn:Hk0; simpl.
    + exists k0. tauto.
    + destruct IH as [k [Hin Hk]]. exists k. tauto.
Qed.

Lemma occurrences_rev (k : value) (s : Series) :
  occurrences k (rev s) = occurrences k s.
Proof. unfold occurrences. now rewrite filter_rev, length_rev. Qed.

(** The table after the values of [l], started from a table that
    counts [seen]. *)
Lemma counts_fold (l : Series) :
  forall (seen : Series) (table : list (value * nat)),
  tidy table ->
  (forall k n, In (k, n) table -> n = occurrences k seen) ->
  (forall x, In x seen -> exists k, In k (map fst table) /\ same_key k x = true) ->
  let result := fold_left (fun t v => count_into v t) l table in
  tidy result
  /\ (forall k n, In (k, n) result -> n = occurrences k (rev l ++ seen))
  /\ (forall x, In x (rev l ++ seen) ->
        exists k, In k (map fst result) /\ same_key k x = true)
  /\ total result = List.length l + total table
  /\ (forall k, In k (map fst result) -> In k l \/ In k (map fst table)).
Proof.
  induction l as [| v l IH]; intros seen table Htidy Hcount Hcover; simpl.
  - repeat split; try assumption. tauto.
  - destruct (count_into_counts v seen table Htidy Hcount) as [Htidy' Hcount'].
    { intros x Hx _. now apply Hcover. }
    destruct (IH (v :: seen) (count_into v table) Htidy' Hcount')
      as [H1 [H2 [H3 [H4 H5]]]].
    { intros x [<- | Hx]; [apply count_into_covers |].
      destruct (Hcover x Hx) as [k [Hin Hk]]. exists k.
      split; [now apply count_into_keeps | assumption]. }
    rewrite <- app_assoc. simpl.
    split; [assumption |]. split; [assumption |]. split; [assumption |]. split.
    + rewrite H4, count_into_total. lia.
    + intros k Hk. destruct (H5 k Hk) as [Hl | Ht]; [tauto |].
      apply count_into_keys in Ht. destruct Ht as [-> | Ht]; tauto.
Qed.

(** ** Insertion sort *)

Section SortFacts.
Context {A : Type} (le : A -> A -> bool).

Lemma insert_perm (x : A) (l : list A) : Permutation (insert le x l) (x :: l).
Proof.
  induction l as [| y l IH]; simpl; [reflexivity |].
  destruct (le x y); [reflexivity |].
  rewrite IH. apply perm_swap.
Qed.

Lemma isort_perm (l : list A) : Permutation (isort le l) l.
Proof.
  induction l as [| x l IH]; simpl; [reflexivity |].
  rewrite insert_perm. now constructor.
Qed.

Context (P : A -> Prop).
Hypothesis le_total : forall a b, P a -> P b -> le a b = true \/ le b a = true.
Hypothesis le_trans :
  forall a b c, P a -> P b -> P c -> le a b = true -> le b c = true -> le a c = true.

Lemma insert_sorted (x : A) (l : list A) :
  P x -> Forall P l ->
  StronglySorted (fun a b => le a b = true) l ->
  StronglySorted (fun a b => le a b = true) (insert le x l).
Proof.
  intros Hx Hl Hs. induction Hs as [| y l Hs IH Hy]; simpl.
  - repeat constructor.
  - inversion Hl as [| ? ? Py Pl]; subst.
    destruct (le x y) eqn:Hxy.
    + constructor; [now constructor |].
      constructor; [assumption |].
      rewrite Forall_forall in *. intros z Hz.
      apply (le_trans x y z); auto.
    + constructor; [now apply IH |].
      rewrite Forall_forall in *. intros z Hz.
      apply (Permutation_in _ (insert_perm x l)) in Hz.
      destruct Hz as [<- | Hz]; [| now apply Hy].
      destruct (le_total x y Hx Py); congruence.
Qed.

Lemma isort_sorted (l : list A) :
  Forall P l -> StronglySorted (fun a b => le a b = true) (isort le l).
Proof.
  induction 1 as [| x l Hx Hl IH]; simpl; [constructor |].
  apply insert_sorted; [assumption | | assumption].
  rewrite Forall_forall in *. intros z Hz.
  apply (Permutation_in _ (isort_perm l)) in Hz. now apply Hl.
Qed.

End SortFacts.

Lemma total_perm (a b : list (value * nat)) : Permutation a b -> total a = total b.
Proof.
  unfold total. induction 1; simpl; lia.
Qed.

(** [value_counts]: the keys are the present values, each counted with
    all the values under its key; the counts add up to the number of
    present values and come largest first. *)
Lemma value_counts_spec (s : Series) :
  let present := filter notna s in
  (forall k n, In (k, n) (value_counts s) ->
     In k present /\ n = occurrences k present /\ 0 < n)
  /\ (forall v, In v present -> exists k n, In (k, n) (value_counts s)
                                           /\ same_key k v = true)
  /\ total (value_counts s) = List.length present
  /\ StronglySorted (fun a b => snd b <= snd a) (value_counts s).
Proof.
  intros present. unfold value_counts. fold present.
  set (table := fold_left (fun t v => count_into v t) present []).
  destruct (counts_fold present [] []) as [H1 [H2 [H3 [H4 H5]]]];
    [constructor | intros k n [] | intros x [] |].
  fold table in H1, H2, H3, H4, H5. rewrite app_nil_r in H2, H3.
  set (by_count := fun a b : value * nat => snd b <=? snd a).
  pose proof (isort_perm by_count table) as Hperm.
  assert (Hkey : forall k n, In (k, n) table -> In k present).
  { intros k n Hin. destruct (H5 k) as [Hk | []]; [| exact Hk].
    apply in_map_iff. now exists (k, n). }
  split; [| split; [| split]].
  - intros k n Hin. apply (Permutation_in _ Hperm) in Hin.
    pose proof (H2 k n Hin) as Hn. rewrite occurrences_rev in Hn.
    split; [now apply (Hkey k n) | split; [assumption |]].
    subst n. unfold occurrences.
    assert (Hk : In k (filter (same_key k) present)).
    { apply filter_In. split; [now apply (Hkey k _ Hin) | apply same_key_refl]. }
    destruct (filter (same_key k) present); [destruct Hk | simpl; lia].
  - intros v Hv. destruct (H3 v) as [k [Hk Hkv]]; [now apply in_rev in Hv |].
    apply in_map_iff in Hk. destruct Hk as [[k' n] [Heq Hin]]. simpl in Heq. subst k'.
    exists k, n. split; [| assumption].
    now apply (Permutation_in _ (Permutation_sym Hperm)).
  - rewrite (total_perm _ _ Hperm), H4. unfold total. simpl. lia.
  - assert (Hs : StronglySorted (fun a b => by_count a b = true) (isort by_count table)).
    { apply (isort_sorted by_count (fun _ => True)).
      - intros a b _ _. unfold by_count. rewrite !Nat.leb_le. lia.
      - intros a b c _ _ _. unfold by_count. rewrite !Nat.leb_le. lia.
      - now apply Forall_forall. }
    clear -Hs. induction Hs as [| a l Hs IH Ha]; constructor; [assumption |].
    rewrite Forall_forall in *. intros b Hb. apply Nat.leb_le. now apply Ha.
Qed.

(** ** Order *)

Lemma fleb_total (x y : float64) :
  x <> NaN -> y <> NaN -> fleb x y = true \/ fleb y x = true.
Proof.
  destruct x as [| [] | p], y as [| [] | q]; simpl; try tauto.
  intros _ _. rewrite !Qle_bool_iff.
  destruct (Qlt_le_dec p q) as [Hlt | Hle]; [left; now apply Qlt_le_weak | now right].
Qed.

Lemma fleb_trans (x y z : float64) :
  fleb x y = true -> fleb y z = true -> fleb x z = true.
Proof.
  destruct x as [| [] | p], y as [| [] | q], z as [| [] | r]; simpl;
    try discriminate; try reflexivity.
  rewrite !Qle_bool_iff. apply Qle_trans.
Qed.

Lemma string_leb_trans (s1 s2 s3 : string) :
  String.leb s1 s2 = true -> String.leb s2 s3 = true -> String.leb s1 s3 = true.
Proof.
  unfold String.leb. revert s2 s3.
  induction s1 as [| c1 s1 IH]; intros [| c2 s2] [| c3 s3]; simpl;
    try discriminate; try reflexivity.
  unfold Ascii.compare.
  destruct (N.compare_spec (N_of_ascii c1) (N_of_ascii c2)) as [H12 | H12 | H12];
    destruct (N.compare_spec (N_of_ascii c2) (N_of_ascii c3)) as [H23 | H23 | H23];
    destruct (N.compare_spec (N_of_ascii c1) (N_of_ascii c3)) as [H13 | H13 | H13];
    try discriminate; try reflexivity; try lia.
  apply IH.
Qed.

Lemma leb_total_numbers (a b : value) :
  present_number a -> present_number b -> Py.leb a b = true \/ Py.leb b a = true.
Proof.
  intros [Ha Ha'] [Hb Hb'].
  destruct a as [| | x |], b as [| | y |]; try discriminate;
    cbn [Py.leb as_number]; apply fleb_total; try discriminate;
    intros ->; discriminate.
Qed.

Lemma leb_trans_numbers (a b c : value) :
  present_number a -> present_number b -> present_number c ->
  Py.leb a b = true -> Py.leb b c = true -> Py.leb a c = true.
Proof.
  intros [Ha _] [Hb _] [Hc _].
  destruct a, b, c; try discriminate; cbn [Py.leb as_number]; apply fleb_trans.
Qed.

Lemma leb_total_strings (a b : value) :
  is_string a = true -> is_string b = true -> Py.leb a b = true \/ Py.leb b a = true.
Proof.
  destruct a, b; try discriminate. intros _ _. apply String.leb_total.
Qed.

Lemma leb_trans_strings (a b c : value) :
  is_string a = true -> is_string b = true -> is_string c = true ->
  Py.leb a b = true -> Py.leb b c = true -> Py.leb a c = true.
Proof.
  destruct a, b, c; try discriminate. intros _ _ _. apply string_leb_trans.
Qed.

(** ** Sorting and sampling a series *)

Lemma present_missing_perm (s : Series) :
  Permutation (filter notna s ++ filter isna s) s.
Proof.
  induction s as [| v s IH]; simpl; [reflexivity |].
  unfold notna at 1. destruct (isna v); simpl.
  - symmetry. apply Permutation_cons_app. now symmetry.
  - now constructor.
Qed.

Lemma sort_values_spec (s : Series) :
  sortable s = true ->
  exists sorted,
    sort_values s = inr sorted
    /\ Permutation sorted s
    /\ ascending sorted.
Proof.
  intros Hs. unfold sort_values. fold (sortable s). rewrite Hs.
  exists (isort Py.leb (filter notna s) ++ filter isna s).
  split; [reflexivity |]. split.
  - rewrite isort_perm. apply present_missing_perm.
  - exists (isort Py.leb (filter notna s)), (filter isna s).
    split; [reflexivity |]. split; [| split].
    + rewrite Forall_forall. intros v Hv.
      apply (Permutation_in _ (isort_perm Py.leb _)) in Hv.
      apply filter_In in Hv. destruct Hv as [_ Hv].
      unfold notna in Hv. now apply negb_true_iff.
    + rewrite Forall_forall. intros v Hv. now apply filter_In in Hv.
    + unfold sortable in Hs. apply orb_true_iff in Hs.
      destruct Hs as [Hnum | Hstr].
      * apply (isort_sorted Py.leb present_number leb_total_numbers leb_trans_numbers).
        rewrite forallb_forall in Hnum. rewrite Forall_forall.
        intros v Hv. split; [now apply Hnum |].
        apply filter_In in Hv. destruct Hv as [_ Hv].
        unfold notna in Hv. now apply negb_true_iff.
      * apply (isort_sorted Py.leb (fun v => is_string v = true)
                 leb_total_strings leb_trans_strings).
        rewrite forallb_forall in Hstr. now rewrite Forall_forall.
Qed.

Lemma sortable_incl (s t : Series) :
  incl t s -> sortable s = true -> sortable t = true.
Proof.
  unfold sortable. rewrite !orb_true_iff, !forallb_forall.
  intros Hincl [Hs | Hs]; [left | right]; intros v Hv;
    apply filter_In in Hv; destruct Hv as [Hv Hp];
    apply Hs, filter_In; split; auto.
Qed.

Lemma take_spec (s : Series) (positions : list nat) :
  Forall (fun k => k < List.length s) positions ->
  take s positions = inr (map (fun k => nth k s (VFloat NaN)) positions).
Proof.
  induction 1 as [| k positions Hk Hall IH]; simpl; [reflexivity |].
  rewrite IH. rewrite (nth_error_nth' s (VFloat NaN) Hk). reflexivity.
Qed.

Lemma nth_seq (s : Series) :
  map (fun k => nth k s (VFloat NaN)) (seq 0 (List.length s)) = s.
Proof.
  induction s as [| v s IH]; simpl; [reflexivity |].
  f_equal. rewrite <- seq_shift, map_map. exact IH.
Qed.

Lemma firstn_incl {A : Type} (n : nat) (l : list A) : incl (firstn n l) l.
Proof.
  intros x Hx. rewrite <- (firstn_skipn n l). apply in_or_app. now left.
Qed.

Lemma firstn_NoDup {A : Type} (n : nat) (l : list A) : NoDup l -> NoDup (firstn n l).
Proof.
  intros Hl. rewrite <- (firstn_skipn n l) in Hl. now apply NoDup_app_remove_r in Hl.
Qed.

Lemma present_missing_length (s : Series) :
  List.length (filter notna s) + List.length (filter isna s) = List.length s.
Proof.
  rewrite <- length_app. apply Permutation_length, present_missing_perm.
Qed.

Lemma occurrences_present (k : value) (s : Series) :
  isna k = false -> occurrences k (filter notna s) = occurrences k s.
Proof.
  intros Hk. unfold occurrences. induction s as [| v s IH]; simpl; [reflexivity |].
  unfold notna at 1. destruct (isna v) eqn:Hv; simpl.
  - destruct (same_key k v) eqn:Hkv; [| exact IH].
    apply same_key_isna in Hkv. congruence.
  - destruct (same_key k v); simpl; now rewrite IH.
Qed.

Section AppFacts.






Context `{Float64Ops}.

(** ** The error messages of each block *)

Lemma final_decision_errors (txn : Row) : errors (fst (final_decision txn)) = [].
Proof. unfold final_decision. script_errors; reflexivity. Qed.

Lemma status_message_errors (u e : string) :
  In e (errors_of (status_message u)) -> st_error e = status_message "HIGH".
Proof.
  unfold status_message.
  destruct (String.eqb u "LOW"); [intros [] |].
  destruct (String.eqb u "MEDIUM"); [intros [] |].
  destruct (String.eqb u "HIGH"); [| intros []].
  intros [<- | []]. reflexivity.
Qed.

Lemma transaction_status_errors (txn : Row) (e : string) :
  In e (errors (fst (transaction_status txn))) -> st_error e = status_message "HIGH".
Proof.
  unfold transaction_status. script_errors; try tauto.
  rewrite app_nil_r. apply status_message_errors.
Qed.

Lemma expert_contributions_errors (txn : Row) :
  errors (fst (expert_contributions txn)) = [].
Proof. unfold expert_contributions. script_errors; reflexivity. Qed.

Lemma dataset_insights_errors (i : inputs) (df : DataFrame) :
  errors (fst (dataset_insights i df)) = [].
Proof.
  unfold dataset_insights, expander, errors. simpl. rewrite app_nil_r.
  change (flat_map errors_of ?p) with (errors p).
  script_errors; reflexivity.
Qed.

Lemma after_selection_errors (i : inputs) (df : DataFrame) (txn : Row) (e : string) :
  In e (errors (fst (after_selection i df txn))) -> st_error e = status_message "HIGH".
Proof.
  unfold after_selection. intros He.
  apply errors_bind_In in He. rewrite final_decision_errors in He.
  destruct He as [[] | [_ [_ He]]].
  apply errors_bind_In in He.
  destruct He as [He | [_ [_ He]]]; [now apply transaction_status_errors in He |].
  apply errors_bind_In in He. rewrite expert_contributions_errors in He.
  destruct He as [[] | [_ [_ He]]].
  apply errors_bind_In in He.
  destruct He as [[] | [_ [_ He]]].
  apply errors_bind_In in He. rewrite dataset_insights_errors in He.
  destruct He as [[] | [_ [_ []]]].
Qed.

Lemma lookup_errors (df : DataFrame) (txn_id : option value) (e : string) :
  In e (errors (fst (lookup df txn_id))) -> e = not_found.
Proof.
  unfold lookup. intros He.
  apply errors_bind_In in He. rewrite errors_lift in He.
  destruct He as [[] | [ids [_ He]]].
  destruct (empty _).
  - destruct He as [<- | []]. reflexivity.
  - rewrite errors_lift in He. destruct He.
Qed.

Lemma transaction_selection_errors (i : inputs) (df : DataFrame) (e : string) :
  In e (errors (fst (transaction_selection i df))) -> e = not_found.
Proof.
  unfold transaction_selection. intros He.
  apply errors_bind_In in He. destruct He as [[] | [_ [_ He]]].
  destruct (contains "transaction_id" (columns df)).
  - apply errors_bind_In in He. rewrite errors_lift in He.
    destruct He as [[] | [raw [_ He]]].
    apply errors_bind_In in He. rewrite errors_lift in He.
    destruct He as [[] | [ids [_ He]]].
    apply errors_bind_In in He. destruct He as [[] | [_ [_ He]]].
    apply errors_bind_In in He.
    destruct He as [He | [_ [_ []]]]. now apply lookup_errors in He.
  - apply errors_bind_In in He. destruct He as [[] | [_ [_ He]]].
    apply errors_bind_In in He. rewrite errors_lift in He.
    destruct He as [[] | [_ [_ []]]].
Qed.

Lemma after_check_errors (i : inputs) (df : DataFrame) (e : string) :
  In e (errors (fst (after_check i df))) ->
  e = not_found \/ st_error e = status_message "HIGH".
Proof.
  unfold after_check. intros He.
  apply errors_bind_In in He. destruct He as [He | [[df' txn] [_ He]]].
  - left. now apply transaction_selection_errors in He.
  - right. now apply after_selection_errors in He.
Qed.

Lemma missing_cols_spec (df : DataFrame) (c : string) :
  In c (missing_cols df) <-> In c required_cols /\ ~ In c (columns df).
Proof.
  unfold missing_cols. rewrite filter_In, negb_true_iff.
  rewrite <- (contains_In c (columns df)).
  destruct (contains c (columns df)); intuition congruence.
Qed.

(** ** The selection *)

Lemma trim_ids_eq (raw : Series) : str_strip (astype_str raw) = trim_ids raw.
Proof. unfold str_strip, astype_str, trim_ids. now rewrite map_map. Qed.

Lemma trim_ids_strings (raw : Series) :
  Forall (fun v => is_string v = true) (trim_ids raw).
Proof. unfold trim_ids. rewrite Forall_map. now apply Forall_forall. Qed.

Lemma trim_ids_length (raw : Series) : List.length (trim_ids raw) = List.length raw.
Proof. apply length_map. Qed.

Lemma lookup_run (df : DataFrame) (ids : Series) (txn_id : option value) :
  wf df -> getitem df "transaction_id" = inr ids ->
  (forall k, nth k (eq_scalar ids txn_id) false = true ->
             (forall j, j < k -> nth j (eq_scalar ids txn_id) false = false) ->
             lookup df txn_id = ([], Done (row_at df k)))
  /\ ((forall k, nth k (eq_scalar ids txn_id) false = false) ->
      lookup df txn_id = ([st_error not_found], Stopped)).
Proof.
  intros Hwf Hids. unfold lookup. rewrite Hids. split.
  - intros k Hk Hbefore.
    destruct (filter_rows_first df _ ids (eq_scalar ids txn_id) k Hwf Hids)
      as [Hempty Hrow]; try assumption.
    { rewrite eq_scalar_length. now apply (wf_length df "transaction_id"). }
    cbn. rewrite Hempty, Hrow. reflexivity.
  - intros Hall. cbn. now rewrite filter_rows_none.
Qed.

Lemma lookup_spec (df : DataFrame) (ids : Series) (txn_id : option value) :
  wf df -> getitem df "transaction_id" = inr ids ->
  Forall (fun v => is_string v = true) ids ->
  (forall y, txn_id = Some y -> In y ids ->
     exists k, lookup df txn_id = ([], Done (row_at df k))
               /\ nth_error ids k = Some y
               /\ forall j, j < k -> nth_error ids j <> Some y)
  /\ ((forall y, txn_id = Some y -> ~ In y ids) ->
      lookup df txn_id = ([st_error not_found], Stopped)).
Proof.
  intros Hwf Hids Hstr.
  destruct (lookup_run df ids txn_id Hwf Hids) as [Hfound Hnone]. split.
  - intros y -> Hin. apply In_nth_error in Hin. destruct Hin as [k0 Hk0].
    destruct (first_true (eq_scalar ids (Some y))) as [k [_ [Hk Hbefore]]].
    { exists k0. apply (eq_scalar_nth ids (Some y) k0 Hstr). now exists y. }
    exists k. split; [now apply Hfound |]. split.
    + apply (eq_scalar_nth ids (Some y) k Hstr) in Hk.
      destruct Hk as [y' [[= <-] Hy']]. exact Hy'.
    + intros j Hj Hy. specialize (Hbefore j Hj).
      apply not_true_iff_false in Hbefore. apply Hbefore.
      apply (eq_scalar_nth ids (Some y) j Hstr). now exists y.
  - intros Habsent. apply Hnone. intros k.
    apply not_true_iff_false. intros Hk.
    apply (eq_scalar_nth ids txn_id k Hstr) in Hk. destruct Hk as [y [Hy Hnth]].
    apply (Habsent y Hy). now apply nth_error_In in Hnth.
Qed.

Lemma transaction_selection_by_id (i : inputs) (df : DataFrame) (raw : Series) :
  getitem df "transaction_id" = inr raw ->
  let df' := setitem df "transaction_id" (trim_ids raw) in
  let options := unique (trim_ids raw) in
  transaction_selection i df =
    (emit (st_sidebar (st_header "🔍 Select Transaction")) ;;
     emit (st_sidebar (st_selectbox "Transaction ID" options)) ;;
     txn <- lookup df' (selectbox options (choice i)) ;;
     ret (df', txn)).
Proof.
  intros Hraw df' options. unfold transaction_selection.
  assert (Hc : contains "transaction_id" (columns df) = true)
    by (apply getitem_contains; now exists raw).
  subst df' options.
  rewrite Hc, Hraw, bind_lift_inr, trim_ids_eq.
  rewrite (getitem_setitem df _ (trim_ids raw) raw Hraw), bind_lift_inr.
  reflexivity.
Qed.

(** Every column of the frame is a field of the selected row. *)
Lemma lookup_fields (df : DataFrame) (txn_id : option value) (es : list element)
      (txn : Row) (c : string) (s : Series) :
  lookup df txn_id = (es, Done txn) ->
  getitem df c = inr s -> exists v, row_get txn c = inr v.
Proof.
  unfold lookup. intros Hrun Hc.
  destruct (getitem df "transaction_id") as [e | ids]; [discriminate Hrun |].
  rewrite bind_lift_inr in Hrun.
  destruct (empty _); [discriminate Hrun |].
  unfold iloc in Hrun. destruct (0 <? len _); [| discriminate Hrun].
  injection Hrun as _ <-.
  eexists. apply row_at_get. apply getitem_filter_rows. exact Hc.
Qed.

Lemma selected_row_fields (i : inputs) (df df' : DataFrame) (es : list element)
      (txn : Row) (c : string) :
  missing_cols df = [] ->
  transaction_selection i df = (es, Done (df', txn)) ->
  In c required_cols -> exists v, row_get txn c = inr v.
Proof.
  intros Hm Hrun Hc.
  assert (Hcol : exists s, getitem df c = inr s).
  { apply getitem_contains. destruct (contains c (columns df)) eqn:Hin; [reflexivity |].
    assert (Hmiss : In c (missing_cols df)).
    { apply missing_cols_spec. split; [assumption |].
      rewrite <- contains_In. congruence. }
    rewrite Hm in Hmiss. destruct Hmiss. }
  destruct Hcol as [s Hs].
  destruct (contains "transaction_id" (columns df)) eqn:Hid.
  - apply getitem_contains in Hid. destruct Hid as [raw Hraw].
    rewrite (transaction_selection_by_id i df raw Hraw) in Hrun.
    set (df1 := setitem df "transaction_id" (trim_ids raw)) in Hrun.
    destruct (lookup df1 (selectbox (unique (trim_ids raw)) (choice i)))
      as [es1 [txn1 | | e]] eqn:Hlook; cbn in Hrun; try discriminate Hrun.
    injection Hrun as _ _ <-.
    destruct (String.eqb_spec "transaction_id" c) as [<- | Hne].
    + apply (lookup_fields df1 _ es1 txn1 _ (trim_ids raw) Hlook).
      exact (getitem_setitem df _ _ raw Hraw).
    + apply (lookup_fields df1 _ es1 txn1 c s Hlook).
      unfold df1. now rewrite getitem_setitem_other.
  - unfold transaction_selection, loc in Hrun. rewrite Hid in Hrun.
    destruct (selectbox (index df) (choice i)) as [k |];
      [destruct (k <? len df) |]; cbn in Hrun; try discriminate Hrun.
    injection Hrun as _ _ <-. eexists. apply row_at_get. exact Hs.
Qed.

(** ** The run as a whole *)

Lemma app_no_file (i : inputs) :
  csv_file i = None ->
  app i = (fst page_config ++ [st_error file_not_found], Stopped).
Proof. unfold app, load_data. intros ->. reflexivity. Qed.

Lemma app_loaded (i : inputs) (df : DataFrame) :
  csv_file i = Some df ->
  app i = (fst page_config ++ fst (after_load i df), snd (after_load i df)).
Proof. unfold app, load_data. intros ->. reflexivity. Qed.

Lemma after_load_missing (i : inputs) (df : DataFrame) :
  missing_cols df <> [] ->
  after_load i df = ([st_error (missing_columns (missing_cols df))], Stopped).
Proof.
  unfold after_load, required_columns_check.
  destruct (missing_cols df); [congruence | reflexivity].
Qed.

Lemma after_load_complete (i : inputs) (df : DataFrame) :
  missing_cols df = [] -> after_load i df = after_check i df.
Proof.
  unfold after_load, required_columns_check. intros ->.
  unfold bind. simpl. now destruct (after_check i df).
Qed.

Lemma app_errors_split (i : inputs) (df : DataFrame) (e : string) :
  csv_file i = Some df ->
  In e (errors (fst (app i))) ->
  (missing_cols df <> [] /\ e = missing_columns (missing_cols df))
  \/ (missing_cols df = [] /\ In e (errors (fst (after_check i df)))).
Proof.
  intros Hfile He. rewrite (app_loaded i df Hfile) in He.
  cbn [fst] in He. rewrite errors_app in He. cbn in He.
  destruct (missing_cols df) as [| c m] eqn:Hm.
  - right. split; [reflexivity |].
    now rewrite (after_load_complete i df Hm) in He.
  - left. split; [discriminate |].
    rewrite after_load_missing in He by (rewrite Hm; discriminate).
    rewrite Hm in He. destruct He as [<- | []]. reflexivity.
Qed.

Lemma app_errors_loaded (i : inputs) (df : DataFrame) (e : string) :
  csv_file i = Some df ->
  In e (errors (fst (app i))) ->
  (missing_cols df <> [] /\ e = missing_columns (missing_cols df))
  \/ (missing_cols df = [] /\ (e = not_found \/ st_error e = status_message "HIGH")).
Proof.
  intros Hfile He.
  destruct (app_errors_split i df e Hfile He) as [Hm | [Hm Hin]]; [now left | right].
  split; [assumption | exact (after_check_errors i df e Hin)].
Qed.

Lemma required_cols_NoDup : NoDup required_cols.
Proof.
  unfold required_cols.
  repeat (constructor; [simpl; intuition discriminate |]). constructor.
Qed.

End AppFacts.

(* ================================================================== *)
(** * The claims *)
(* ================================================================== *)

Section Claims.
Context `{Float64Ops}.

(** C7.  With no file at the fixed path the run shows the page header,
    then one error that names [final_nubank_fraud_output.csv], and is
    halted there: nothing is rendered after the error.  With a file the
    run goes on with the loaded frame and never shows that error. *)
Theorem missing_file_halts (i : inputs) :
  match csv_file i with
  | None =>
      app i = (fst page_config ++ [st_error file_not_found], Stopped)
  | Some df =>
      app i = (fst page_config ++ fst (after_load i df), snd (after_load i df))
      /\ ~ In file_not_found (errors (fst (app i)))
  end
  /\ String.index 0 "final_nubank_fraud_output.csv" file_not_found = Some 4
  /\ errors (fst page_config) = [].
Proof.
  split; [| split; reflexivity].
  destruct (csv_file i) as [df |] eqn:Hfile.
  - split; [now apply app_loaded |].
    intros He. apply (app_errors_loaded i df _ Hfile) in He.
    destruct He as [[_ He] | [_ [He | He]]]; discriminate He.
  - now apply app_no_file.
Qed.

(** C2.  The list of missing columns is exactly the required columns
    absent from the frame, each once, in the order of the requirement.
    When it is not empty the run shows one error carrying that list and
    is halted; the text of the error determines the list.  When it is
    empty the run goes on to the selection and shows no such error. *)
Theorem missing_columns_reported (i : inputs) (df : DataFrame) :
  csv_file i = Some df ->
  (forall c, In c (missing_cols df) <-> In c required_cols /\ ~ In c (columns df))
  /\ NoDup (missing_cols df)
  /\ In (missing_cols df) (sublists required_cols)
  /\ (forall df', missing_columns (missing_cols df') = missing_columns (missing_cols df) ->
                  missing_cols df' = missing_cols df)
  /\ match missing_cols df with
     | [] =>
         app i = (fst page_config ++ fst (after_check i df), snd (after_check i df))
         /\ forall missing, ~ In (missing_columns missing) (errors (fst (app i)))
     | _ :: _ =>
         app i = (fst page_config ++ [st_error (missing_columns (missing_cols df))],
                  Stopped)
     end.
Proof.
  intros Hfile.
  split; [apply missing_cols_spec |].
  split; [apply filter_NoDup, required_cols_NoDup |].
  split; [apply filter_sublists |].
  split; [intros df'; apply missing_columns_inj; apply filter_sublists |].
  destruct (missing_cols df) as [| c m] eqn:Hm.
  - split.
    + rewrite (app_loaded i df Hfile). now rewrite (after_load_complete i df Hm).
    + intros missing He. apply (app_errors_loaded i df _ Hfile) in He.
      destruct He as [[Hne _] | [_ [He | He]]]; [congruence | |]; discriminate He.
  - rewrite (app_loaded i df Hfile).
    rewrite after_load_missing by (rewrite Hm; discriminate).
    now rewrite Hm.
Qed.

(** C1.  The status block is a function of the upper-cased
    [fraud_risk_level] of the selected row alone: LOW gives the success
    message, MEDIUM the warning, HIGH the error, anything else (the
    empty string and a missing value among them) the information
    message; two rows with the same upper-cased level get the same
    block, and the block follows the final decision on the page.  Every
    selected row has the field ([selected_row_fields]). *)
Theorem status_by_risk_level (txn : Row) (level : value) :
  row_get txn "fraud_risk_level" = inr level ->
  let u := upper (Py.str level) in
  transaction_status txn =
    ([st_subheader "📢 Transaction Status"; status_message u], Done tt)
  /\ (u = "LOW" ->
      status_message u = st_success "✅ Your transaction was successful.")
  /\ (u = "MEDIUM" ->
      status_message u =
      st_warning "⚠️ Your transaction is on hold. Please contact the bank.")
  /\ (u = "HIGH" ->
      status_message u =
      st_error "🚫 Your transaction is blocked. Please contact the bank immediately.")
  /\ (u <> "LOW" -> u <> "MEDIUM" -> u <> "HIGH" ->
      status_message u = st_info "ℹ️ Transaction status unavailable.")
  /\ (level = VStr EmptyString \/ level = VFloat NaN ->
      status_message u = st_info "ℹ️ Transaction status unavailable.")
  /\ (forall txn' level',
        row_get txn' "fraud_risk_level" = inr level' ->
        upper (Py.str level') = u ->
        transaction_status txn' = transaction_status txn)
  /\ (forall i df shown,
        final_decision txn = (shown, Done tt) ->
        exists rest,
          fst (after_selection i df txn) =
          shown ++ [st_subheader "📢 Transaction Status"; status_message u] ++ rest).
Proof.
  intros Hlevel u.
  assert (Hrun : forall t l, row_get t "fraud_risk_level" = inr l ->
            transaction_status t =
            ([st_subheader "📢 Transaction Status"; status_message (upper (Py.str l))],
             Done tt)).
  { intros t l Hl. unfold transaction_status. now rewrite Hl. }
  split; [now apply Hrun |].
  split; [intros ->; reflexivity |].
  split; [intros ->; reflexivity |].
  split; [intros ->; reflexivity |].
  split.
  { intros Hlow Hmed Hhigh. unfold status_message.
    apply String.eqb_neq in Hlow, Hmed, Hhigh. now rewrite Hlow, Hmed, Hhigh. }
  split.
  { intros [-> | ->]; reflexivity. }
  split.
  { intros txn' level' Hl' Hu.
    rewrite (Hrun _ _ Hl'), (Hrun _ _ Hlevel). fold u. now rewrite Hu. }
  intros i df shown Hshown. unfold after_selection.
  rewrite (bind_done _ _ shown tt Hshown). cbn [fst].
  rewrite (bind_done _ _ _ tt (Hrun _ _ Hlevel)). cbn [fst]. fold u.
  eexists. reflexivity.
Qed.

(** C4.  Once the three fields are read and [float] has accepted the
    score, the ground-truth metric shows what [int(is_fraud)] decides:
    "Yes" when the integer is 1 and "No" for every other integer; when
    [int] raises, the run ends there without that metric. *)
Theorem ground_truth_metric (txn : Row) (score level label : value) (x : float64) :
  row_get txn "final_moe_score" = inr score ->
  Py.float score = inr x ->
  row_get txn "fraud_risk_level" = inr level ->
  row_get txn "is_fraud" = inr label ->
  let shown :=
    [ st_subheader "🚨 Final Fraud Decision";
      st_columns 3;
      st_metric 1 "Final Fraud Score" (VFloat (Py.round x 3));
      st_metric 2 "Fraud Risk Level" (VStr (Py.str level)) ] in
  match Py.int label with
  | inr n =>
      final_decision txn =
        (shown ++ [st_metric 3 "Actual Fraud (Ground Truth)" (VStr (ground_truth n))],
         Done tt)
      /\ (ground_truth n = "Yes" <-> n = 1%Z)
      /\ (n <> 1%Z -> ground_truth n = "No")
  | inl e => final_decision txn = (shown, Raised e)
  end.
Proof.
  intros Hscore Hx Hlevel Hlabel shown.
  unfold final_decision.
  destruct (Py.int label) as [e | n] eqn:Hint.
  - rewrite Hscore. cbn. rewrite Hx. cbn. rewrite Hlevel. cbn.
    rewrite Hlabel. cbn. rewrite Hint. reflexivity.
  - split; [| split].
    + rewrite Hscore. cbn. rewrite Hx. cbn. rewrite Hlevel. cbn.
      rewrite Hlabel. cbn. rewrite Hint. reflexivity.
    + unfold ground_truth. destruct (Z.eqb_spec n 1); split; congruence.
    + unfold ground_truth. intros Hn. apply Z.eqb_neq in Hn. now rewrite Hn.
Qed.

(** C3.  With a [transaction_id] column the identifiers are turned into
    strings and trimmed before the options are built and before the
    look-up.  A chosen identifier that occurs in the trimmed column
    selects the first row carrying it; a choice that occurs nowhere
    ([None] included) shows the not-found error and halts the run.  The
    look-up ends in one row or in that error, never otherwise. *)
Theorem selector_first_match (i : inputs) (df : DataFrame) (raw : Series)
        (txn_id : option value) :
  wf df ->
  getitem df "transaction_id" = inr raw ->
  let ids := map (fun v => VStr (strip (Py.str v))) raw in
  let df' := setitem df "transaction_id" ids in
  str_strip (astype_str raw) = ids
  /\ getitem df' "transaction_id" = inr ids
  /\ transaction_selection i df =
       (emit (st_sidebar (st_header "🔍 Select Transaction")) ;;
        emit (st_sidebar (st_selectbox "Transaction ID" (unique ids))) ;;
        txn <- lookup df' (selectbox (unique ids) (choice i)) ;;
        ret (df', txn))
  /\ (forall y, txn_id = Some y -> In y ids ->
        exists k, lookup df' txn_id = ([], Done (row_at df' k))
                  /\ row_get (row_at df' k) "transaction_id" = inr y
                  /\ nth_error ids k = Some y
                  /\ forall j, j < k -> nth_error ids j <> Some y)
  /\ ((forall y, txn_id = Some y -> ~ In y ids) ->
      lookup df' txn_id = ([st_error not_found], Stopped))
  /\ ((exists txn, lookup df' txn_id = ([], Done txn))
      \/ lookup df' txn_id = ([st_error not_found], Stopped)).
Proof.
  intros Hwf Hraw ids df'. fold (trim_ids raw) in ids.
  assert (Hids : getitem df' "transaction_id" = inr ids)
    by exact (getitem_setitem df _ ids raw Hraw).
  assert (Hwf' : wf df')
    by (apply (setitem_wf df _ ids raw Hwf Hraw), trim_ids_length).
  destruct (lookup_spec df' ids txn_id Hwf' Hids (trim_ids_strings raw))
    as [Hfound Habsent].
  split; [apply trim_ids_eq |].
  split; [exact Hids |].
  split; [exact (transaction_selection_by_id i df raw Hraw) |].
  split; [| split; [exact Habsent |]].
  - intros y Hy Hin. destruct (Hfound y Hy Hin) as [k [Hrun [Hk Hbefore]]].
    exists k. repeat split; try assumption.
    rewrite (row_at_get df' _ ids k Hids). f_equal.
    now apply nth_error_nth.
  - destruct (lookup_run df' ids txn_id Hwf' Hids) as [Hone Hzero].
    destruct (mask_cases (eq_scalar ids txn_id)) as [Hsome | Hnone].
    + left. destruct (first_true _ Hsome) as [k [_ [Hk Hbefore]]].
      exists (row_at df' k). now apply Hone.
    + right. now apply Hzero.
Qed.

(** C8, as amended.  The options of the select box are the distinct
    trimmed identifiers, and every one of them finds a row.  On a frame
    with at least one row the select box returns one of them, the
    selection ends with a row, and the run never shows the not-found
    error; on a frame without rows the select box has no option, returns
    [None], and the selection shows the not-found error. *)
Theorem not_found_only_without_rows (i : inputs) (df : DataFrame) (raw : Series) :
  csv_file i = Some df ->
  wf df ->
  getitem df "transaction_id" = inr raw ->
  let ids := map (fun v => VStr (strip (Py.str v))) raw in
  let df' := setitem df "transaction_id" ids in
  let shown :=
    [ st_sidebar (st_header "🔍 Select Transaction");
      st_sidebar (st_selectbox "Transaction ID" (unique ids)) ] in
  (forall v, In v (unique ids) <-> In v ids)
  /\ NoDup (unique ids)
  /\ (forall x, In x (unique ids) ->
        exists k, lookup df' (Some x) = ([], Done (row_at df' k)))
  /\ match len df with
     | S _ =>
         (exists x k, selectbox (unique ids) (choice i) = Some x
                      /\ In x (unique ids)
                      /\ transaction_selection i df = (shown, Done (df', row_at df' k)))
         /\ ~ In not_found (errors (fst (app i)))
     | O =>
         unique ids = []
         /\ transaction_selection i df = (shown ++ [st_error not_found], Stopped)
     end.
Proof.
  intros Hfile Hwf Hraw ids df' shown. fold (trim_ids raw) in ids.
  pose proof (trim_ids_strings raw) as Hstr. fold ids in Hstr.
  assert (Hids : getitem df' "transaction_id" = inr ids)
    by exact (getitem_setitem df _ ids raw Hraw).
  assert (Hwf' : wf df')
    by (apply (setitem_wf df _ ids raw Hwf Hraw), trim_ids_length).
  assert (Hopt : forall v, In v (unique ids) <-> In v ids).
  { intros v. unfold unique. rewrite (unique_from_In ids Hstr). simpl. tauto. }
  assert (Hrow : forall x, In x (unique ids) ->
            exists k, lookup df' (Some x) = ([], Done (row_at df' k))).
  { intros x Hx. apply Hopt in Hx.
    destruct (lookup_spec df' ids (Some x) Hwf' Hids Hstr) as [Hfound _].
    destruct (Hfound x eq_refl Hx) as [k [Hrun _]]. now exists k. }
  split; [exact Hopt |].
  split; [apply unique_from_NoDup, Hstr |].
  split; [exact Hrow |].
  pose proof (transaction_selection_by_id i df raw Hraw) as Hsel.
  fold ids in Hsel. fold df' in Hsel.
  pose proof (wf_length df _ raw Hwf Hraw) as Hlen.
  rewrite <- (trim_ids_length raw) in Hlen. fold ids in Hlen.
  destruct (len df) as [| n] eqn:Hn.
  - destruct ids as [| v ids0]; [| discriminate]. split; [reflexivity |].
    rewrite Hsel. change (unique []) with (@nil value). rewrite selectbox_none.
    destruct (lookup_spec df' [] None Hwf' Hids Hstr) as [_ Habsent].
    rewrite Habsent by (intros y Hy; discriminate). reflexivity.
  - assert (Hne : unique ids <> []).
    { destruct ids as [| v ids0]; [discriminate |].
      intros Hnil. assert (Hv : In v (unique (v :: ids0))) by (apply Hopt; now left).
      rewrite Hnil in Hv. destruct Hv. }
    destruct (selectbox_some (unique ids) (choice i) Hne) as [x [Hx Hin]].
    destruct (Hrow x Hin) as [k Hk].
    assert (Hrun : transaction_selection i df = (shown, Done (df', row_at df' k))).
    { rewrite Hsel, Hx, Hk. reflexivity. }
    split; [exists x, k; repeat split; assumption |].
    intros He. apply (app_errors_split i df _ Hfile) in He.
    destruct He as [[_ He] | [_ He]]; [discriminate He |].
    unfold after_check in He. apply errors_bind_In in He.
    rewrite Hrun in He. destruct He as [[] | [sel [_ He]]].
    apply after_selection_errors in He. discriminate He.
Qed.

(** C9.  The level is upper-cased but not trimmed: a level that is LOW,
    MEDIUM or HIGH in any letter case with blanks before or after it
    gets the information message, although the trimmed level is the bare
    tier and would get the tier's message. *)
Theorem untrimmed_level_unavailable (txn : Row) (lead t trail : string) :
  row_get txn "fraud_risk_level" = inr (VStr (lead ++ t ++ trail)) ->
  blank lead = true ->
  blank trail = true ->
  lead <> EmptyString \/ trail <> EmptyString ->
  upper t = "LOW" \/ upper t = "MEDIUM" \/ upper t = "HIGH" ->
  transaction_status txn =
    ([st_subheader "📢 Transaction Status";
      st_info "ℹ️ Transaction status unavailable."], Done tt)
  /\ strip (lead ++ t ++ trail) = t
  /\ status_message (upper t) <> st_info "ℹ️ Transaction status unavailable.".
Proof.
  intros Hlevel Hlead Htrail Hpad Htier.
  assert (Hno : ~ tier (upper (lead ++ t ++ trail))).
  { rewrite !upper_append, (upper_blank lead Hlead), (upper_blank trail Htrail).
    now apply padded_tier. }
  split; [| split].
  - unfold transaction_status. rewrite Hlevel, bind_lift_inr.
    cbn [Py.str]. unfold status_message.
    destruct (String.eqb_spec (upper (lead ++ t ++ trail)) "LOW") as [Hu | _];
      [exfalso; apply Hno; left; exact Hu |].
    destruct (String.eqb_spec (upper (lead ++ t ++ trail)) "MEDIUM") as [Hu | _];
      [exfalso; apply Hno; right; left; exact Hu |].
    destruct (String.eqb_spec (upper (lead ++ t ++ trail)) "HIGH") as [Hu | _];
      [exfalso; apply Hno; right; right; exact Hu |].
    reflexivity.
  - apply strip_around; try assumption.
    apply solid_upper. destruct Htier as [-> | [-> | ->]]; reflexivity.
  - destruct Htier as [-> | [-> | ->]]; discriminate.
Qed.

(** C10.  The bars of the risk-level chart are the counts of
    [value_counts]: one bar per distinct present level, its height the
    number of rows with that level; a row whose level is missing falls
    under no bar.  The heights add up to the number of rows with a
    present level, which is below the number of rows as soon as one
    level is missing. *)
Theorem missing_levels_not_counted (df : DataFrame) (levels : Series) :
  wf df ->
  getitem df "fraud_risk_level" = inr levels ->
  let counts := value_counts levels in
  risk_level_distribution df =
    inr (map (fun kn => (fst kn, VInt (Z.of_nat (snd kn)))) counts)
  /\ (forall k n, In (k, n) counts ->
        isna k = false /\ In k levels /\ n = occurrences k levels /\ 0 < n)
  /\ (forall v, In v levels -> isna v = false ->
        exists k n, In (k, n) counts /\ same_key k v = true)
  /\ (forall v, In v levels -> isna v = true ->
        forall k n, In (k, n) counts -> same_key k v = false)
  /\ total counts = List.length (filter notna levels)
  /\ total counts + List.length (filter isna levels) = len df
  /\ (existsb isna levels = true -> total counts < len df).
Proof.
  intros Hwf Hlevels counts.
  destruct (value_counts_spec levels) as [Hkeys [Hcover [Htotal _]]].
  fold counts in Hkeys, Hcover, Htotal.
  pose proof (wf_length df _ levels Hwf Hlevels) as Hlen.
  pose proof (present_missing_length levels) as Hsplit.
  assert (Hpresent : forall k n, In (k, n) counts -> isna k = false /\ In k levels).
  { intros k n Hin. destruct (Hkeys k n Hin) as [Hk _].
    apply filter_In in Hk. destruct Hk as [Hk Hna].
    unfold notna in Hna. apply negb_true_iff in Hna. tauto. }
  split.
  { unfold risk_level_distribution. now rewrite Hlevels. }
  split.
  { intros k n Hin. destruct (Hkeys k n Hin) as [_ [Hn Hpos]].
    destruct (Hpresent k n Hin) as [Hna Hk].
    rewrite (occurrences_present k levels Hna) in Hn. tauto. }
  split.
  { intros v Hv Hna. apply Hcover. apply filter_In. split; [assumption |].
    unfold notna. now rewrite Hna. }
  split.
  { intros v Hv Hna k n Hin. destruct (Hpresent k n Hin) as [Hk _].
    destruct (same_key k v) eqn:Hkv; [| reflexivity].
    apply same_key_isna in Hkv. congruence. }
  split; [exact Htotal |].
  split; [lia |].
  intros Hmissing. apply existsb_exists in Hmissing. destruct Hmissing as [v [Hv Hna]].
  assert (Hin : In v (filter isna levels)) by (apply filter_In; tauto).
  destruct (filter isna levels); [destruct Hin | simpl in Hsplit; lia].
Qed.

(** C6.  The line chart shows a sample of the [final_moe_score] column
    of size [min 1000 (len df)], drawn without replacement at the first
    positions of the permutation the generator returns, and shows it in
    ascending order, missing values last; with at most 1000 rows the
    sample is the whole column. *)
Theorem score_sample_sorted (i : inputs) (df : DataFrame) (scores : Series) :
  wf df ->
  getitem df "final_moe_score" = inr scores ->
  sortable scores = true ->
  Permutation (rng i) (seq 0 (len df)) ->
  let n := Nat.min 1000 (len df) in
  let positions := firstn n (rng i) in
  let sampled := map (fun k => nth k scores (VFloat NaN)) positions in
  exists line,
    score_sample i df = inr line
    /\ sample (rng i) n scores = inr sampled
    /\ NoDup positions
    /\ Forall (fun k => k < len df) positions
    /\ List.length line = n
    /\ Permutation line sampled
    /\ ascending line
    /\ (len df <= 1000 -> Permutation line scores)
    /\ (forall counts, risk_level_distribution df = inr counts ->
          dataset_insights i df =
            ([st_expander "📊 Dataset Insights"
                [ st_write "Fraud Risk Level Distribution";
                  st_bar_chart counts;
                  st_write "Final MoE Score Distribution (Sample)";
                  st_line_chart line ]], Done tt)).
Proof.
  intros Hwf Hscores Hsortable Hperm n positions sampled.
  pose proof (wf_length df _ scores Hwf Hscores) as Hlen.
  assert (Hrng : List.length (rng i) = len df).
  { rewrite (Permutation_length Hperm). apply length_seq. }
  assert (Hpos : Forall (fun k => k < len df) positions).
  { rewrite Forall_forall. intros k Hk. apply firstn_incl in Hk.
    apply (Permutation_in _ Hperm) in Hk. apply in_seq in Hk. lia. }
  assert (Hsample : sample (rng i) n scores = inr sampled).
  { unfold sample. assert (Hn : (List.length scores <? n) = false).
    { apply Nat.ltb_ge. subst n. rewrite Hlen. apply Nat.le_min_r. }
    rewrite Hn. apply take_spec. now rewrite Hlen. }
  assert (Hincl : incl sampled scores).
  { intros v Hv. apply in_map_iff in Hv. destruct Hv as [k [<- Hk]].
    apply nth_In. rewrite Forall_forall in Hpos. rewrite Hlen. now apply Hpos. }
  destruct (sort_values_spec sampled (sortable_incl scores sampled Hincl Hsortable))
    as [line [Hsort [Hline Hasc]]].
  assert (Hrun : score_sample i df = inr line).
  { unfold score_sample. fold n. now rewrite Hscores, Hsample, Hsort. }
  exists line.
  split; [exact Hrun |].
  split; [exact Hsample |].
  split.
  { apply firstn_NoDup. apply (Permutation_NoDup (Permutation_sym Hperm)), seq_NoDup. }
  split; [exact Hpos |].
  split.
  { rewrite (Permutation_length Hline). unfold sampled, positions.
    rewrite length_map, length_firstn, Hrng. subst n. lia. }
  split; [exact Hline |].
  split; [exact Hasc |].
  split.
  { intros Hsmall. rewrite Hline. unfold sampled, positions.
    rewrite firstn_all2 by (subst n; lia).
    rewrite (Permutation_map _ Hperm), <- Hlen. now rewrite nth_seq. }
  intros counts Hcounts.
  unfold dataset_insights, expander.
  cbn -[score_sample risk_level_distribution]. rewrite Hcounts.
  cbn -[score_sample risk_level_distribution]. rewrite Hrun.
  reflexivity.
Qed.

End Claims.

(* ================================================================== *)
(** * Further properties of the script *)
(* ================================================================== *)

(** ** How a sequence of blocks ends *)

Section OutcomeFacts.
Context {A B : Type}.

Lemma bind_emit (e : element) (k : unit -> script B) :
  bind (emit e) k = (e :: fst (k tt), snd (k tt)).
Proof. reflexivity. Qed.

Lemma bind_fst (m : script A) (k : A -> script B) :
  fst (bind m k) = fst m ++ match snd m with
                            | Done a => fst (k a)
                            | _ => []
                            end.
Proof. unfold bind. destruct (snd m); simpl; now rewrite ?app_nil_r. Qed.

Lemma bind_snd_done (m : script A) (k : A -> script B) (b : B) :
  snd (bind m k) = Done b -> exists a, snd m = Done a /\ snd (k a) = Done b.
Proof.
  unfold bind. destruct (snd m) as [a | |]; simpl; try discriminate.
  intros Hk. now exists a.
Qed.

Lemma bind_snd_stopped (m : script A) (k : A -> script B) :
  snd (bind m k) = Stopped ->
  snd m = Stopped \/ exists a, snd m = Done a /\ snd (k a) = Stopped.
Proof.
  unfold bind. destruct (snd m) as [a | |]; simpl; intros Hk.
  - right. now exists a.
  - now left.
  - now left.
Qed.

Lemma bind_snd_raised (m : script A) (k : A -> script B) (e : exn) :
  snd (bind m k) = Raised e ->
  snd m = Raised e \/ exists a, snd m = Done a /\ snd (k a) = Raised e.
Proof.
  unfold bind. destruct (snd m) as [a | | e']; simpl; intros Hk.
  - right. now exists a.
  - discriminate Hk.
  - left. injection Hk as ->. reflexivity.
Qed.

End OutcomeFacts.

(** Runs a block as far as its calls are known. *)
Ltac run_block :=
  repeat first [ rewrite bind_emit | rewrite bind_lift_inr | rewrite bind_lift_inl ];
  cbn [fst snd].

Section More.
Context `{Float64Ops}.

(** ** Selection by row index *)

Lemma selectbox_in_range {A : Type} (options : list A) (c : nat) (d : A) :
  c < List.length options -> selectbox options c = Some (nth c options d).
Proof.
  intros Hc. unfold selectbox. now rewrite (nth_error_nth' options d Hc).
Qed.

Lemma selection_by_index (i : inputs) (df : DataFrame) :
  contains "transaction_id" (columns df) = false ->
  transaction_selection i df =
    (emit (st_sidebar (st_header "🔍 Select Transaction")) ;;
     emit (st_sidebar (st_selectbox "Transaction Row Index"
                         (map (fun n => VInt (Z.of_nat n)) (index df)))) ;;
     txn <- lift (loc df (selectbox (index df) (choice i))) ;;
     ret (df, txn)).
Proof. intros Hid. unfold transaction_selection. now rewrite Hid. Qed.

Lemma selectbox_index_bound (n c k : nat) :
  selectbox (seq 0 n) c = Some k -> k < n.
Proof.
  unfold selectbox. intros Hk.
  assert (Hin : In k (seq 0 n)).
  { destruct (nth_error (seq 0 n) c) as [x |] eqn:Hc.
    - injection Hk as <-. now apply nth_error_In in Hc.
    - destruct (seq 0 n) as [| x r]; [discriminate Hk |].
      injection Hk as <-. now left. }
  apply in_seq in Hin. lia.
Qed.

Lemma selection_by_index_empty (i : inputs) (df : DataFrame) :
  contains "transaction_id" (columns df) = false ->
  len df = 0 ->
  transaction_selection i df = (selection_box "Transaction Row Index" [], Raised KeyError).
Proof.
  intros Hid Hn. rewrite (selection_by_index i df Hid). unfold index. rewrite Hn.
  change (seq 0 0) with (@nil nat). rewrite selectbox_none. reflexivity.
Qed.

Lemma selection_by_index_rows (i : inputs) (df : DataFrame) :
  contains "transaction_id" (columns df) = false ->
  0 < len df ->
  exists k,
    selectbox (index df) (choice i) = Some k
    /\ k < len df
    /\ transaction_selection i df =
       (selection_box "Transaction Row Index"
          (map (fun n => VInt (Z.of_nat n)) (index df)),
        Done (df, row_at df k)).
Proof.
  intros Hid Hn. rewrite (selection_by_index i df Hid).
  destruct (selectbox_some (index df) (choice i)) as [k [Hk Hin]].
  { unfold index. destruct (len df); [lia | discriminate]. }
  exists k. split; [exact Hk |].
  assert (Hlt : k < len df) by (apply (selectbox_index_bound _ (choice i)); exact Hk).
  split; [exact Hlt |].
  rewrite Hk. unfold loc. apply Nat.ltb_lt in Hlt. rewrite Hlt. reflexivity.
Qed.

(** X1.  Without a [transaction_id] column the options are the row
    positions [0 .. n-1], the selected row is the row at the chosen
    position, its fields are the cells of that row, and the frame is
    handed on unchanged. *)
Theorem row_index_selection (i : inputs) (df : DataFrame) :
  contains "transaction_id" (columns df) = false ->
  choice i < len df ->
  transaction_selection i df =
    (selection_box "Transaction Row Index"
       (map (fun n => VInt (Z.of_nat n)) (seq 0 (len df))),
     Done (df, row_at df (choice i)))
  /\ forall c s, getitem df c = inr s ->
                 row_get (row_at df (choice i)) c = inr (nth (choice i) s (VFloat NaN)).
Proof.
  intros Hid Hc.
  destruct (selection_by_index_rows i df Hid) as [k [Hk [_ Hrun]]]; [lia |].
  rewrite (selectbox_in_range (index df) (choice i) 0) in Hk
    by (unfold index; now rewrite length_seq).
  unfold index in Hk. rewrite seq_nth in Hk by exact Hc. injection Hk as <-.
  split; [exact Hrun |].
  intros c s Hs. now apply row_at_get.
Qed.

(** ** Selection by identifier *)

Lemma unique_incl_both (ids : Series) :
  Forall (fun v => is_string v = true) ids ->
  forall v, In v (unique ids) <-> In v ids.
Proof.
  intros Hstr v. unfold unique. rewrite (unique_from_In ids Hstr). simpl. tauto.
Qed.

Lemma selection_by_id_empty (i : inputs) (df : DataFrame) (raw : Series) :
  wf df ->
  getitem df "transaction_id" = inr raw ->
  len df = 0 ->
  transaction_selection i df =
    (selection_box "Transaction ID" [] ++ [st_error not_found], Stopped).
Proof.
  intros Hwf Hraw Hn.
  pose proof (wf_length df _ raw Hwf Hraw) as Hlen. rewrite Hn in Hlen.
  destruct raw as [| v raw]; [| discriminate Hlen].
  rewrite (transaction_selection_by_id i df [] Hraw).
  change (unique (trim_ids [])) with (@nil value). rewrite selectbox_none.
  set (df' := setitem df "transaction_id" (trim_ids [])).
  assert (Hwf' : wf df') by (apply (setitem_wf df _ _ [] Hwf Hraw); reflexivity).
  assert (Hids : getitem df' "transaction_id" = inr (trim_ids []))
    by exact (getitem_setitem df _ _ [] Hraw).
  destruct (lookup_spec df' _ None Hwf' Hids (trim_ids_strings [])) as [_ Habsent].
  rewrite Habsent by (intros y Hy; discriminate). reflexivity.
Qed.

Lemma selection_by_id_rows (i : inputs) (df : DataFrame) (raw : Series) :
  wf df ->
  getitem df "transaction_id" = inr raw ->
  0 < len df ->
  let ids := trim_ids raw in
  let df' := setitem df "transaction_id" ids in
  exists x k,
    selectbox (unique ids) (choice i) = Some x
    /\ In x (unique ids)
    /\ nth_error ids k = Some x
    /\ (forall j, j < k -> nth_error ids j <> Some x)
    /\ transaction_selection i df =
       (selection_box "Transaction ID" (unique ids), Done (df', row_at df' k)).
Proof.
  intros Hwf Hraw Hn ids df'.
  pose proof (trim_ids_strings raw) as Hstr. fold ids in Hstr.
  assert (Hids : getitem df' "transaction_id" = inr ids)
    by exact (getitem_setitem df _ ids raw Hraw).
  assert (Hwf' : wf df')
    by (apply (setitem_wf df _ ids raw Hwf Hraw), trim_ids_length).
  pose proof (wf_length df _ raw Hwf Hraw) as Hlen.
  rewrite <- (trim_ids_length raw) in Hlen. fold ids in Hlen.
  assert (Hne : unique ids <> []).
  { destruct ids as [| v ids0]; [simpl in Hlen; lia |].
    intros Hnil.
    assert (Hv : In v (unique (v :: ids0)))
      by (apply (unique_incl_both _ Hstr); now left).
    rewrite Hnil in Hv. destruct Hv. }
  destruct (selectbox_some (unique ids) (choice i) Hne) as [x [Hx Hin]].
  destruct (lookup_spec df' ids (Some x) Hwf' Hids Hstr) as [Hfound _].
  destruct (Hfound x eq_refl (proj1 (unique_incl_both ids Hstr x) Hin))
    as [k [Hrun [Hk Hbefore]]].
  exists x, k. repeat (split; [assumption |]).
  rewrite (transaction_selection_by_id i df raw Hraw). fold ids. fold df'.
  rewrite Hx, Hrun. reflexivity.
Qed.

(** ** How each block ends *)

Lemma getitem_raises (df : DataFrame) (c : string) (e : exn) :
  getitem df c = inl e -> e = KeyError /\ contains c (columns df) = false.
Proof.
  intros He. split.
  - induction df as [| [c' s'] df IH]; simpl in He; [congruence |].
    destruct (String.eqb c' c); [discriminate | auto].
  - destruct (contains c (columns df)) eqn:Hc; [| reflexivity].
    apply getitem_contains in Hc. destruct Hc as [s0 Hs]. congruence.
Qed.

Lemma float_raises (v : value) (e : exn) : Py.float v = inl e -> e = ValueError.
Proof.
  destruct v as [s | z | x | b]; simpl; try discriminate.
  destruct (float_of_string s); [discriminate | congruence].
Qed.

Lemma int_raises (v : value) (e : exn) :
  Py.int v = inl e -> e = ValueError \/ e = OverflowError.
Proof.
  destruct v as [s | z | [| neg | q] | b]; simpl; try discriminate.
  - destruct (int_of_string s); [discriminate | intros [= <-]; now left].
  - intros [= <-]. now left.
  - intros [= <-]. now right.
Qed.

Lemma take_raises (s : Series) (positions : list nat) (e : exn) :
  take s positions = inl e -> e = IndexError.
Proof.
  induction positions as [| k positions IH]; simpl; [discriminate |].
  destruct (nth_error s k); [| congruence].
  destruct (take s positions) as [e' | vs]; [| discriminate].
  intros [= <-]. now apply IH.
Qed.

Lemma score_sample_raises (i : inputs) (df : DataFrame) (e : exn) :
  score_sample i df = inl e ->
  (e = KeyError /\ contains "final_moe_score" (columns df) = false)
  \/ e = ValueError \/ e = IndexError \/ e = TypeError.
Proof.
  unfold score_sample.
  destruct (getitem df "final_moe_score") as [e' | scores] eqn:Hs.
  - intros [= <-]. left. now apply getitem_raises.
  - unfold sample. destruct (List.length scores <? _).
    + intros [= <-]. tauto.
    + destruct (take scores _) as [e' | sampled] eqn:Ht.
      * intros [= <-]. apply take_raises in Ht. tauto.
      * unfold sort_values. destruct (_ || _); [discriminate |].
        intros [= <-]. tauto.
Qed.

Lemma risk_level_distribution_raises (df : DataFrame) (e : exn) :
  risk_level_distribution df = inl e ->
  e = KeyError /\ contains "fraud_risk_level" (columns df) = false.
Proof.
  unfold risk_level_distribution.
  destruct (getitem df "fraud_risk_level") as [e' | levels] eqn:Hl; [| discriminate].
  intros [= <-]. now apply getitem_raises.
Qed.

(** The expander with what was drawn before the first failure. *)
Lemma dataset_insights_cases (i : inputs) (df : DataFrame) :
  dataset_insights i df =
  match risk_level_distribution df, score_sample i df with
  | inl e, _ =>
      ([st_expander "📊 Dataset Insights"
          [st_write "Fraud Risk Level Distribution"]], Raised e)
  | inr counts, inl e =>
      ([st_expander "📊 Dataset Insights"
          [ st_write "Fraud Risk Level Distribution";
            st_bar_chart counts;
            st_write "Final MoE Score Distribution (Sample)" ]], Raised e)
  | inr counts, inr line =>
      ([st_expander "📊 Dataset Insights"
          [ st_write "Fraud Risk Level Distribution";
            st_bar_chart counts;
            st_write "Final MoE Score Distribution (Sample)";
            st_line_chart line ]], Done tt)
  end.
Proof.
  unfold dataset_insights, expander.
  destruct (risk_level_distribution df) as [e | counts]; [reflexivity |].
  destruct (score_sample i df) as [e | line]; reflexivity.
Qed.

Lemma final_decision_cases (txn : Row) (score level label : value) :
  row_get txn "final_moe_score" = inr score ->
  row_get txn "fraud_risk_level" = inr level ->
  row_get txn "is_fraud" = inr label ->
  final_decision txn =
  match Py.float score, Py.int label with
  | inl e, _ =>
      ([st_subheader "🚨 Final Fraud Decision"; st_columns 3], Raised e)
  | inr x, inl e =>
      ([ st_subheader "🚨 Final Fraud Decision"; st_columns 3;
         st_metric 1 "Final Fraud Score" (VFloat (Py.round x 3));
         st_metric 2 "Fraud Risk Level" (VStr (Py.str level)) ], Raised e)
  | inr x, inr n =>
      ([ st_subheader "🚨 Final Fraud Decision"; st_columns 3;
         st_metric 1 "Final Fraud Score" (VFloat (Py.round x 3));
         st_metric 2 "Fraud Risk Level" (VStr (Py.str level));
         st_metric 3 "Actual Fraud (Ground Truth)" (VStr (ground_truth n)) ], Done tt)
  end.
Proof.
  intros Hscore Hlevel Hlabel. unfold final_decision.
  rewrite !bind_emit, Hscore, bind_lift_inr.
  destruct (Py.float score) as [e | x]; [reflexivity |].
  rewrite bind_lift_inr, bind_emit, Hlevel, bind_lift_inr, bind_emit.
  rewrite Hlabel, bind_lift_inr.
  destruct (Py.int label) as [e | n]; reflexivity.
Qed.

Lemma transaction_status_run (txn : Row) (level : value) :
  row_get txn "fraud_risk_level" = inr level ->
  transaction_status txn =
    ([st_subheader "📢 Transaction Status"; status_message (upper (Py.str level))],
     Done tt).
Proof. intros Hl. unfold transaction_status. now rewrite Hl. Qed.

Lemma expert_contributions_run (txn : Row) (lstm transformer autoencoder xgb ada : value) :
  row_get txn "lstm_score" = inr lstm ->
  row_get txn "transformer_score" = inr transformer ->
  row_get txn "autoencoder_score" = inr autoencoder ->
  row_get txn "xgb_score" = inr xgb ->
  row_get txn "ada_score" = inr ada ->
  expert_contributions txn =
    ([ st_subheader "🧠 Expert Model Contributions";
       st_bar_chart (expert_bars lstm transformer autoencoder xgb ada) ], Done tt).
Proof.
  intros H1 H2 H3 H4 H5. unfold expert_contributions.
  now rewrite H1, H2, H3, H4, H5.
Qed.

Lemma has_fields_get (txn : Row) (c : string) :
  has_fields txn -> In c required_cols -> exists v, row_get txn c = inr v.
Proof. intros Hf. apply Hf. Qed.

Lemma lookup_stopped (df : DataFrame) (txn_id : option value) :
  snd (lookup df txn_id) = Stopped ->
  lookup df txn_id = ([st_error not_found], Stopped).
Proof.
  unfold lookup.
  destruct (getitem df "transaction_id") as [e | ids]; [discriminate |].
  rewrite bind_lift_inr. destruct (empty _); [reflexivity |].
  destruct (iloc _ 0); discriminate.
Qed.

Lemma lookup_raises (df : DataFrame) (ids : Series) (txn_id : option value) (e : exn) :
  getitem df "transaction_id" = inr ids ->
  snd (lookup df txn_id) = Raised e -> e = IndexError.
Proof.
  intros Hids. unfold lookup. rewrite Hids, bind_lift_inr.
  destruct (empty _); [discriminate |].
  unfold iloc. destruct (0 <? len _); [discriminate |].
  now intros [= <-].
Qed.

Lemma lookup_done (df : DataFrame) (txn_id : option value) (txn : Row) :
  snd (lookup df txn_id) = Done txn -> lookup df txn_id = ([], Done txn).
Proof.
  unfold lookup.
  destruct (getitem df "transaction_id") as [e | ids]; [discriminate |].
  rewrite bind_lift_inr. destruct (empty _); [discriminate |].
  destruct (iloc _ 0); [discriminate |]. now intros [= <-].
Qed.

(** What the selection leaves behind when it ends with a row. *)
Lemma selection_done (i : inputs) (df df' : DataFrame) (txn : Row) :
  snd (transaction_selection i df) = Done (df', txn) ->
  columns df' = columns df
  /\ exists label options,
       transaction_selection i df = (selection_box label options, Done (df', txn)).
Proof.
  intros Hdone.
  destruct (contains "transaction_id" (columns df)) eqn:Hid.
  - apply getitem_contains in Hid. destruct Hid as [raw Hraw].
    rewrite (transaction_selection_by_id i df raw Hraw) in Hdone |- *.
    rewrite !bind_emit in Hdone |- *. cbn [fst snd] in Hdone |- *.
    apply bind_snd_done in Hdone. destruct Hdone as [txn' [Hlook Hret]].
    injection Hret as <- <-.
    split; [exact (setitem_columns df _ _ raw Hraw) |].
    exists "Transaction ID", (unique (trim_ids raw)).
    rewrite (lookup_done _ _ _ Hlook). reflexivity.
  - rewrite (selection_by_index i df Hid) in Hdone |- *.
    rewrite !bind_emit in Hdone |- *. cbn [fst snd] in Hdone |- *.
    destruct (loc df _) as [e | txn']; [discriminate Hdone |].
    rewrite bind_lift_inr in Hdone |- *. injection Hdone as <- <-.
    split; [reflexivity |].
    now exists "Transaction Row Index", (map (fun n => VInt (Z.of_nat n)) (index df)).
Qed.

Lemma selection_fields (i : inputs) (df df' : DataFrame) (txn : Row) :
  missing_cols df = [] ->
  snd (transaction_selection i df) = Done (df', txn) ->
  has_fields txn.
Proof.
  intros Hm Hdone c Hc.
  destruct (selection_done i df df' txn Hdone) as [_ [label [options Hrun]]].
  exact (selected_row_fields i df df' _ txn c Hm Hrun Hc).
Qed.

Lemma required_present (df : DataFrame) (c : string) :
  missing_cols df = [] -> In c required_cols -> contains c (columns df) = true.
Proof.
  intros Hm Hc. destruct (contains c (columns df)) eqn:Hin; [reflexivity |].
  assert (Hmiss : In c (missing_cols df)).
  { apply missing_cols_spec. split; [assumption |].
    rewrite <- contains_In. congruence. }
  rewrite Hm in Hmiss. destruct Hmiss.
Qed.

Lemma block_never_stops (i : inputs) (df : DataFrame) (txn : Row) :
  snd (final_decision txn) <> Stopped
  /\ snd (transaction_status txn) <> Stopped
  /\ snd (expert_contributions txn) <> Stopped
  /\ snd (dataset_insights i df) <> Stopped.
Proof.
  split; [| split; [| split]].
  - unfold final_decision.
    repeat first [ rewrite bind_emit | rewrite bind_lift_inr | rewrite bind_lift_inl
                 | match goal with |- context [lift ?r] => destruct r end ];
      cbn; discriminate.
  - unfold transaction_status.
    repeat first [ rewrite bind_emit | rewrite bind_lift_inr | rewrite bind_lift_inl
                 | match goal with |- context [lift ?r] => destruct r end ];
      cbn; discriminate.
  - unfold expert_contributions.
    repeat first [ rewrite bind_emit | rewrite bind_lift_inr | rewrite bind_lift_inl
                 | match goal with |- context [lift ?r] => destruct r end ];
      cbn; discriminate.
  - rewrite dataset_insights_cases.
    destruct (risk_level_distribution df); [discriminate |].
    destruct (score_sample i df); discriminate.
Qed.

Lemma after_selection_never_stops (i : inputs) (df : DataFrame) (txn : Row) :
  snd (after_selection i df txn) <> Stopped.
Proof.
  destruct (block_never_stops i df txn) as [H1 [H2 [H3 H4]]].
  unfold after_selection. intros Hs.
  apply bind_snd_stopped in Hs. destruct Hs as [Hs | [_ [_ Hs]]]; [tauto |].
  apply bind_snd_stopped in Hs. destruct Hs as [Hs | [_ [_ Hs]]]; [tauto |].
  apply bind_snd_stopped in Hs. destruct Hs as [Hs | [_ [_ Hs]]]; [tauto |].
  apply bind_snd_stopped in Hs. destruct Hs as [Hs | [_ [_ Hs]]]; [discriminate Hs |].
  apply bind_snd_stopped in Hs. destruct Hs as [Hs | [_ [_ Hs]]]; [tauto |].
  discriminate Hs.
Qed.

(** The page below the selection when the final decision is complete. *)
Lemma after_selection_run (i : inputs) (df : DataFrame) (txn : Row)
      (page : list element) :
  has_fields txn ->
  final_decision txn = (page, Done tt) ->
  exists level lstm transformer autoencoder xgb ada,
    row_get txn "fraud_risk_level" = inr level
    /\ row_get txn "lstm_score" = inr lstm
    /\ row_get txn "transformer_score" = inr transformer
    /\ row_get txn "autoencoder_score" = inr autoencoder
    /\ row_get txn "xgb_score" = inr xgb
    /\ row_get txn "ada_score" = inr ada
    /\ after_selection i df txn =
       (page
        ++ [st_subheader "📢 Transaction Status"; status_message (upper (Py.str level))]
        ++ [st_subheader "🧠 Expert Model Contributions";
            st_bar_chart (expert_bars lstm transformer autoencoder xgb ada)]
        ++ fst explanation
        ++ fst (dataset_insights i df)
        ++ match snd (dataset_insights i df) with
           | Done _ => fst footer
           | _ => []
           end,
        snd (dataset_insights i df)).
Proof.
  intros Hf Hpage.
  destruct (Hf "fraud_risk_level") as [level Hlevel]; [simpl; tauto |].
  destruct (Hf "lstm_score") as [lstm H1]; [simpl; tauto |].
  destruct (Hf "transformer_score") as [transformer H2]; [simpl; tauto |].
  destruct (Hf "autoencoder_score") as [autoencoder H3]; [simpl; tauto |].
  destruct (Hf "xgb_score") as [xgb H4]; [simpl; tauto |].
  destruct (Hf "ada_score") as [ada H5]; [simpl; tauto |].
  exists level, lstm, transformer, autoencoder, xgb, ada.
  repeat (split; [assumption |]).
  unfold after_selection.
  rewrite (bind_done _ _ page tt Hpage).
  rewrite (bind_done _ _ _ tt (transaction_status_run txn level Hlevel)).
  rewrite (bind_done _ _ _ tt (expert_contributions_run txn _ _ _ _ _ H1 H2 H3 H4 H5)).
  rewrite (bind_done explanation _ (fst explanation) tt eq_refl).
  cbn [fst snd].
  unfold bind at 1.
  destruct (dataset_insights i df) as [shown [[] | | e]]; cbn [fst snd];
    rewrite <- ?app_assoc; cbn [app]; rewrite ?app_nil_r; reflexivity.
Qed.

(** ** The run as a whole *)

Lemma app_checked (i : inputs) (df : DataFrame) :
  csv_file i = Some df -> missing_cols df = [] ->
  app i = (fst page_config ++ fst (after_check i df), snd (after_check i df)).
Proof.
  intros Hfile Hm. rewrite (app_loaded i df Hfile).
  now rewrite (after_load_complete i df Hm).
Qed.

(** X2.  A run raises [KeyError] in one case only: the file has every
    required column, no [transaction_id] column and no row, so that the
    select box has nothing to return and [df.loc[None]] fails.  No
    required field of a selected row and no column of the charts is ever
    missing. *)
Theorem key_error_only_without_rows (i : inputs) (df : DataFrame) :
  csv_file i = Some df ->
  snd (app i) = Raised KeyError
  <-> missing_cols df = []
      /\ contains "transaction_id" (columns df) = false
      /\ len df = 0.
Proof.
  intros Hfile. split.
  - rewrite (app_loaded i df Hfile). cbn [snd].
    destruct (missing_cols df) as [| c0 m] eqn:Hm.
    2:{ rewrite after_load_missing by (rewrite Hm; discriminate). discriminate. }
    rewrite (after_load_complete i df Hm). unfold after_check. intros Hr.
    apply bind_snd_raised in Hr. destruct Hr as [Hr | [[df' txn] [Hdone Hr]]].
    + split; [reflexivity |].
      destruct (contains "transaction_id" (columns df)) eqn:Hid.
      * exfalso. apply getitem_contains in Hid. destruct Hid as [raw Hraw].
        rewrite (transaction_selection_by_id i df raw Hraw) in Hr.
        rewrite !bind_emit in Hr. cbn [snd] in Hr.
        apply bind_snd_raised in Hr. destruct Hr as [Hr | [txn' [_ Hr]]]; [| discriminate Hr].
        apply (lookup_raises _ (trim_ids raw)) in Hr; [discriminate Hr |].
        exact (getitem_setitem df _ _ raw Hraw).
      * split; [reflexivity |].
        destruct (len df) as [| n] eqn:Hn; [reflexivity | exfalso].
        destruct (selection_by_index_rows i df Hid) as [k [_ [_ Hrun]]]; [lia |].
        rewrite Hrun in Hr. discriminate Hr.
    + exfalso. cbn [fst snd] in Hr.
      pose proof (selection_fields i df df' txn Hm Hdone) as Hf.
      destruct (selection_done i df df' txn Hdone) as [Hcols _].
      destruct (Hf "final_moe_score") as [score Hscore]; [simpl; tauto |].
      destruct (Hf "fraud_risk_level") as [level Hlevel]; [simpl; tauto |].
      destruct (Hf "is_fraud") as [label Hlabel]; [simpl; tauto |].
      pose proof (final_decision_cases txn score level label Hscore Hlevel Hlabel) as Hfd.
      destruct (Py.float score) as [e | x] eqn:Hx.
      { unfold after_selection in Hr. rewrite (bind_raised _ _ _ _ Hfd) in Hr.
        cbn [snd] in Hr. assert (He : e = KeyError) by congruence; subst e.
        apply float_raises in Hx. discriminate Hx. }
      destruct (Py.int label) as [e | n] eqn:Hn.
      { unfold after_selection in Hr. rewrite (bind_raised _ _ _ _ Hfd) in Hr.
        cbn [snd] in Hr. assert (He : e = KeyError) by congruence; subst e.
        apply int_raises in Hn. destruct Hn; discriminate. }
      destruct (after_selection_run i df' txn _ Hf Hfd)
        as [l [a1 [a2 [a3 [a4 [a5 [_ [_ [_ [_ [_ [_ Hrun]]]]]]]]]]]].
      rewrite Hrun in Hr. cbn [snd] in Hr.
      rewrite dataset_insights_cases in Hr.
      destruct (risk_level_distribution df') as [e | counts] eqn:Hrisk.
      { cbn [snd] in Hr. assert (He : e = KeyError) by congruence; subst e.
        apply risk_level_distribution_raises in Hrisk.
        destruct Hrisk as [_ Habs]. rewrite Hcols in Habs.
        rewrite (required_present df _ Hm) in Habs; [discriminate | simpl; tauto]. }
      destruct (score_sample i df') as [e | line] eqn:Hsample; cbn [snd] in Hr;
        [| discriminate Hr].
      assert (He : e = KeyError) by congruence; subst e.
      apply score_sample_raises in Hsample.
      destruct Hsample as [[_ Habs] | [Habs | [Habs | Habs]]]; try discriminate Habs.
      rewrite Hcols in Habs.
      rewrite (required_present df _ Hm) in Habs; [discriminate | simpl; tauto].
  - intros [Hm [Hid Hn]]. rewrite (app_checked i df Hfile Hm). cbn [snd].
    unfold after_check. now rewrite (selection_by_index_empty i df Hid Hn).
Qed.

(** X3.  A run halted by [st.stop()] shows one error message and shows
    it last: the message about the file, the one about the missing
    columns, or the not-found message of the identifier branch.  What
    precedes it on the page carries no error. *)
Theorem halted_run_shows_one_error (i : inputs) :
  snd (app i) = Stopped ->
  exists page msg,
    fst (app i) = page ++ [st_error msg]
    /\ errors page = []
    /\ errors (fst (app i)) = [msg]
    /\ match csv_file i with
       | None => msg = file_not_found
       | Some df =>
           match missing_cols df with
           | [] => msg = not_found /\ contains "transaction_id" (columns df) = true
           | missing => msg = missing_columns missing
           end
       end.
Proof.
  intros Hs. destruct (csv_file i) as [df |] eqn:Hfile.
  - destruct (missing_cols df) as [| c0 m] eqn:Hm.
    + rewrite (app_checked i df Hfile Hm) in Hs |- *. cbn [fst snd] in Hs |- *.
      unfold after_check in Hs |- *.
      apply bind_snd_stopped in Hs. destruct Hs as [Hs | [sel [_ Hs]]].
      2:{ now apply after_selection_never_stops in Hs. }
      destruct (contains "transaction_id" (columns df)) eqn:Hid.
      * pose proof Hid as Hraw. apply getitem_contains in Hraw.
        destruct Hraw as [raw Hraw].
        assert (Hrun : transaction_selection i df =
                       (selection_box "Transaction ID" (unique (trim_ids raw))
                        ++ [st_error not_found], Stopped)).
        { rewrite (transaction_selection_by_id i df raw Hraw) in Hs |- *.
          rewrite !bind_emit in Hs |- *. cbn [fst snd] in Hs |- *.
          apply bind_snd_stopped in Hs.
          destruct Hs as [Hs | [txn' [_ Hs]]]; [| discriminate Hs].
          rewrite (lookup_stopped _ _ Hs). reflexivity. }
        rewrite Hrun.
        exists (fst page_config ++ selection_box "Transaction ID" (unique (trim_ids raw))),
               not_found.
        split; [cbn [bind fst snd]; now rewrite app_assoc |].
        split; [reflexivity |]. split; [reflexivity | tauto].
      * exfalso. rewrite (selection_by_index i df Hid) in Hs.
        rewrite !bind_emit in Hs. cbn [snd] in Hs.
        destruct (loc df _); discriminate Hs.
    + rewrite (app_loaded i df Hfile).
      rewrite after_load_missing by (rewrite Hm; discriminate). rewrite Hm.
      exists (fst page_config), (missing_columns (c0 :: m)).
      repeat split; reflexivity.
  - rewrite (app_no_file i Hfile).
    exists (fst page_config), file_not_found. repeat split; reflexivity.
Qed.

(** X4.  On a well-formed frame the run is halted by [st.stop()] exactly
    when a required column is missing, or the frame has a
    [transaction_id] column and no row. *)
Theorem halted_run_conditions (i : inputs) (df : DataFrame) :
  csv_file i = Some df ->
  wf df ->
  snd (app i) = Stopped
  <-> missing_cols df <> []
      \/ (contains "transaction_id" (columns df) = true /\ len df = 0).
Proof.
  intros Hfile Hwf.
  destruct (missing_cols df) as [| c0 m] eqn:Hm.
  - rewrite (app_checked i df Hfile Hm). cbn [snd]. unfold after_check. split.
    + intros Hs. right.
      apply bind_snd_stopped in Hs. destruct Hs as [Hs | [sel [_ Hs]]].
      2:{ now apply after_selection_never_stops in Hs. }
      destruct (contains "transaction_id" (columns df)) eqn:Hid.
      * split; [reflexivity |].
        destruct (len df) as [| n] eqn:Hn; [reflexivity | exfalso].
        apply getitem_contains in Hid. destruct Hid as [raw Hraw].
        destruct (selection_by_id_rows i df raw Hwf Hraw) as [x [k [_ [_ [_ [_ Hrun]]]]]];
          [lia |].
        rewrite Hrun in Hs. discriminate Hs.
      * exfalso. rewrite (selection_by_index i df Hid) in Hs.
        rewrite !bind_emit in Hs. cbn [snd] in Hs.
        destruct (loc df _); discriminate Hs.
    + intros [Hne | [Hid Hn]]; [congruence |].
      apply getitem_contains in Hid. destruct Hid as [raw Hraw].
      now rewrite (selection_by_id_empty i df raw Hwf Hraw Hn).
  - rewrite (app_loaded i df Hfile).
    rewrite after_load_missing by (rewrite Hm; discriminate).
    split; [intros _; left; discriminate | reflexivity].
Qed.

(** X5.  A run that reaches the end has rendered every section once, in
    the order of the script: header, side bar, three metrics, status,
    expert chart, explanation, insights, footer, nineteen entries of
    the page log in all.  The level shown by the second metric is the text whose upper
    case decides the status, and the charts are drawn from the frame the
    selection hands on. *)
Theorem completed_page (i : inputs) (df : DataFrame) :
  csv_file i = Some df ->
  snd (app i) = Done tt ->
  exists df' txn label options score x level is_fraud n
         lstm transformer autoencoder xgb ada counts line,
    transaction_selection i df = (selection_box label options, Done (df', txn))
    /\ row_get txn "final_moe_score" = inr score /\ Py.float score = inr x
    /\ row_get txn "fraud_risk_level" = inr level
    /\ row_get txn "is_fraud" = inr is_fraud /\ Py.int is_fraud = inr n
    /\ row_get txn "lstm_score" = inr lstm
    /\ row_get txn "transformer_score" = inr transformer
    /\ row_get txn "autoencoder_score" = inr autoencoder
    /\ row_get txn "xgb_score" = inr xgb
    /\ row_get txn "ada_score" = inr ada
    /\ risk_level_distribution df' = inr counts
    /\ score_sample i df' = inr line
    /\ fst (app i) =
       fst page_config
       ++ selection_box label options
       ++ [ st_subheader "🚨 Final Fraud Decision"; st_columns 3;
            st_metric 1 "Final Fraud Score" (VFloat (Py.round x 3));
            st_metric 2 "Fraud Risk Level" (VStr (Py.str level));
            st_metric 3 "Actual Fraud (Ground Truth)" (VStr (ground_truth n)) ]
       ++ [ st_subheader "📢 Transaction Status";
            status_message (upper (Py.str level)) ]
       ++ [ st_subheader "🧠 Expert Model Contributions";
            st_bar_chart (expert_bars lstm transformer autoencoder xgb ada) ]
       ++ fst explanation
       ++ [ st_expander "📊 Dataset Insights"
              [ st_write "Fraud Risk Level Distribution";
                st_bar_chart counts;
                st_write "Final MoE Score Distribution (Sample)";
                st_line_chart line ] ]
       ++ fst footer
    /\ List.length (fst (app i)) = 19.
Proof.
  intros Hfile Hdone.
  destruct (missing_cols df) as [| c0 m] eqn:Hm.
  2:{ rewrite (app_loaded i df Hfile) in Hdone.
      rewrite after_load_missing in Hdone by (rewrite Hm; discriminate).
      discriminate Hdone. }
  rewrite (app_checked i df Hfile Hm) in Hdone |- *. cbn [fst snd] in Hdone |- *.
  unfold after_check in Hdone |- *.
  apply bind_snd_done in Hdone. destruct Hdone as [[df' txn] [Hsel Hrest]].
  cbn [fst snd] in Hrest.
  pose proof (selection_fields i df df' txn Hm Hsel) as Hf.
  destruct (selection_done i df df' txn Hsel) as [_ [label [options Hrun]]].
  destruct (Hf "final_moe_score") as [score Hscore]; [simpl; tauto |].
  destruct (Hf "fraud_risk_level") as [level Hlevel]; [simpl; tauto |].
  destruct (Hf "is_fraud") as [is_fraud Hlabel]; [simpl; tauto |].
  pose proof (final_decision_cases txn score level is_fraud Hscore Hlevel Hlabel) as Hfd.
  destruct (Py.float score) as [e | x] eqn:Hx.
  { unfold after_selection in Hrest. rewrite (bind_raised _ _ _ _ Hfd) in Hrest.
    discriminate Hrest. }
  destruct (Py.int is_fraud) as [e | n] eqn:Hn.
  { unfold after_selection in Hrest. rewrite (bind_raised _ _ _ _ Hfd) in Hrest.
    discriminate Hrest. }
  destruct (after_selection_run i df' txn _ Hf Hfd)
    as [level' [lstm [transformer [autoencoder [xgb [ada
         [Hlevel' [H1 [H2 [H3 [H4 [H5 Hpage]]]]]]]]]]]].
  assert (level' = level) by congruence. subst level'.
  rewrite Hpage in Hrest. cbn [snd] in Hrest.
  pose proof (dataset_insights_cases i df') as Hins.
  destruct (risk_level_distribution df') as [e | counts] eqn:Hrisk;
    [rewrite Hins in Hrest; discriminate Hrest |].
  destruct (score_sample i df') as [e | line] eqn:Hsample;
    [rewrite Hins in Hrest; discriminate Hrest |].
  exists df', txn, label, options, score, x, level, is_fraud, n,
         lstm, transformer, autoencoder, xgb, ada, counts, line.
  repeat (split; [assumption || reflexivity |]).
  rewrite (bind_done _ _ _ _ Hrun). cbn [fst snd].
  rewrite Hpage, Hins. cbn [fst snd].
  split; [reflexivity |].
  rewrite !length_app. reflexivity.
Qed.

(** X6.  Every row the selection can return has the five expert
    scores, so the expert block always draws its chart: five bars, in
    the fixed order LSTM, Transformer, Autoencoder, XGBoost, AdaBoost,
    each carrying the cell of the row as it is. *)
Theorem expert_chart_of_selected_row (i : inputs) (df df' : DataFrame) (txn : Row) :
  missing_cols df = [] ->
  snd (transaction_selection i df) = Done (df', txn) ->
  exists lstm transformer autoencoder xgb ada,
    row_get txn "lstm_score" = inr lstm
    /\ row_get txn "transformer_score" = inr transformer
    /\ row_get txn "autoencoder_score" = inr autoencoder
    /\ row_get txn "xgb_score" = inr xgb
    /\ row_get txn "ada_score" = inr ada
    /\ expert_contributions txn =
       ([ st_subheader "🧠 Expert Model Contributions";
          st_bar_chart
            [ (VStr "LSTM (Behavioral)", lstm);
              (VStr "Transformer (Feature Interaction)", transformer);
              (VStr "Autoencoder (Anomaly)", autoencoder);
              (VStr "XGBoost (Tabular)", xgb);
              (VStr "AdaBoost (Ensemble)", ada) ] ], Done tt).
Proof.
  intros Hm Hsel. pose proof (selection_fields i df df' txn Hm Hsel) as Hf.
  destruct (Hf "lstm_score") as [lstm H1]; [simpl; tauto |].
  destruct (Hf "transformer_score") as [transformer H2]; [simpl; tauto |].
  destruct (Hf "autoencoder_score") as [autoencoder H3]; [simpl; tauto |].
  destruct (Hf "xgb_score") as [xgb H4]; [simpl; tauto |].
  destruct (Hf "ada_score") as [ada H5]; [simpl; tauto |].
  exists lstm, transformer, autoencoder, xgb, ada.
  repeat (split; [assumption |]).
  exact (expert_contributions_run txn _ _ _ _ _ H1 H2 H3 H4 H5).
Qed.

(** X7.  When [float] rejects the score of the selected row the run ends
    with [ValueError] right under the heading of the final decision: no
    metric, no status message, no chart and no footer is rendered. *)
Theorem bad_score_ends_run (i : inputs) (df df' : DataFrame) (txn : Row)
        (score : value) (e : exn) :
  csv_file i = Some df ->
  missing_cols df = [] ->
  snd (transaction_selection i df) = Done (df', txn) ->
  row_get txn "final_moe_score" = inr score ->
  Py.float score = inl e ->
  e = ValueError
  /\ exists label options,
       app i =
       (fst page_config
        ++ selection_box label options
        ++ [st_subheader "🚨 Final Fraud Decision"; st_columns 3],
        Raised ValueError).
Proof.
  intros Hfile Hm Hsel Hscore Hx.
  pose proof (float_raises score e Hx) as He. subst e. split; [reflexivity |].
  destruct (selection_done i df df' txn Hsel) as [_ [label [options Hrun]]].
  exists label, options.
  rewrite (app_checked i df Hfile Hm). unfold after_check.
  rewrite (bind_done _ _ _ _ Hrun). cbn [fst snd].
  assert (Hfd : final_decision txn =
                ([st_subheader "🚨 Final Fraud Decision"; st_columns 3],
                 Raised ValueError)).
  { unfold final_decision. rewrite !bind_emit, Hscore, bind_lift_inr, Hx. reflexivity. }
  unfold after_selection. rewrite (bind_raised _ _ _ _ Hfd). reflexivity.
Qed.

(** X8.  With nothing chosen yet (position 0) and at least one row, the
    selection returns the first row of the frame, with or without a
    [transaction_id] column. *)
Theorem first_row_by_default (i : inputs) (df : DataFrame) :
  wf df ->
  0 < len df ->
  choice i = 0 ->
  exists label options df',
    transaction_selection i df = (selection_box label options, Done (df', row_at df' 0))
    /\ columns df' = columns df
    /\ len df' = len df.
Proof.
  intros Hwf Hn Hc.
  destruct (contains "transaction_id" (columns df)) eqn:Hid.
  - apply getitem_contains in Hid. destruct Hid as [raw Hraw].
    destruct (selection_by_id_rows i df raw Hwf Hraw Hn)
      as [x [k [Hx [_ [Hk [Hbefore Hrun]]]]]].
    rewrite Hc in Hx.
    pose proof (wf_length df _ raw Hwf Hraw) as Hlen.
    rewrite <- (trim_ids_length raw) in Hlen.
    destruct (trim_ids raw) as [| v ids] eqn:Hids; [simpl in Hlen; lia |].
    assert (Hv : x = v) by (cbn in Hx; congruence). subst x.
    assert (Hk0 : k = 0).
    { destruct k as [| k]; [reflexivity | exfalso].
      apply (Hbefore 0); [lia | reflexivity]. }
    subst k.
    exists "Transaction ID", (unique (v :: ids)),
           (setitem df "transaction_id" (v :: ids)).
    split; [exact Hrun |].
    split; [exact (setitem_columns df _ _ raw Hraw) |].
    apply (setitem_len df _ _ raw Hwf Hraw). rewrite <- Hids. apply trim_ids_length.
  - destruct (selection_by_index_rows i df Hid Hn) as [k [Hk [_ Hrun]]].
    rewrite Hc in Hk. unfold index in Hk.
    destruct (len df) as [| n] eqn:Hlen; [lia |].
    cbn in Hk. injection Hk as <-.
    exists "Transaction Row Index",
           (map (fun j => VInt (Z.of_nat j)) (index df)), df.
    unfold index. rewrite Hlen. repeat split; try reflexivity.
    unfold index in Hrun. rewrite Hlen in Hrun. exact Hrun.
Qed.

(** ** Identifiers, trimmed *)

Lemma lstrip_starts (s : string) : starts_blank (lstrip s) = false.
Proof.
  induction s as [| c s IH]; simpl; [reflexivity |].
  destruct (isspace c) eqn:Hc; [exact IH | simpl; exact Hc].
Qed.

Lemma lstrip_fix (s : string) : starts_blank s = false -> lstrip s = s.
Proof. destruct s as [| c s]; simpl; [reflexivity | now intros ->]. Qed.

Lemma rstrip_ends (s : string) : ends_blank (rstrip s) = false.
Proof.
  induction s as [| c s IH]; simpl; [reflexivity |].
  destruct (rstrip s) as [| c' r'].
  - destruct (isspace c) eqn:Hc; simpl; [reflexivity | exact Hc].
  - exact IH.
Qed.

Lemma rstrip_fix (s : string) : ends_blank s = false -> rstrip s = s.
Proof.
  induction s as [| c s IH]; [reflexivity |].
  destruct s as [| c' r'].
  - simpl. now intros ->.
  - intros He. change (ends_blank (String c' r') = false) in He.
    change (rstrip (String c (String c' r')))
      with (match rstrip (String c' r') with
            | EmptyString => if isspace c then EmptyString else String c EmptyString
            | r => String c r
            end).
    now rewrite (IH He).
Qed.

Lemma rstrip_starts (s : string) :
  starts_blank s = false -> starts_blank (rstrip s) = false.
Proof.
  destruct s as [| c s]; simpl; [reflexivity |].
  intros Hc. destruct (rstrip s); [rewrite Hc |]; simpl; exact Hc.
Qed.

Lemma strip_clean (s : string) :
  starts_blank (strip s) = false /\ ends_blank (strip s) = false.
Proof.
  unfold strip. split; [apply rstrip_starts, lstrip_starts | apply rstrip_ends].
Qed.

Lemma strip_fix (s : string) :
  starts_blank s = false -> ends_blank s = false -> strip s = s.
Proof.
  intros Hs He. unfold strip. rewrite (lstrip_fix s Hs). now apply rstrip_fix.
Qed.

Lemma unique_from_fix (s : Series) :
  Forall (fun v => is_string v = true) s ->
  NoDup s ->
  forall seen, (forall v, In v s -> ~ In v seen) -> unique_from seen s = s.
Proof.
  induction 1 as [| x s Hx Hs IH]; intros Hnd seen Hfresh; simpl; [reflexivity |].
  inversion Hnd as [| ? ? Hnotin Hnd']; subst.
  destruct x as [a | | |]; try discriminate.
  destruct (existsb (same_key (VStr a)) seen) eqn:Hseen.
  - exfalso. apply existsb_exists in Hseen. destruct Hseen as [w [Hw Hkey]].
    apply same_key_VStr in Hkey. subst w. apply (Hfresh (VStr a)); [now left | exact Hw].
  - f_equal. apply (IH Hnd').
    intros v Hv [<- | Hin]; [contradiction |].
    apply (Hfresh v); [now right | exact Hin].
Qed.

(** X9.  The select box offers one option per distinct trimmed
    identifier, never more options than rows; it offers every row, in
    the order of the file, exactly when the trimmed identifiers are
    pairwise different. *)
Theorem options_against_rows (i : inputs) (df : DataFrame) (raw : Series) :
  wf df ->
  getitem df "transaction_id" = inr raw ->
  let ids := map (fun v => VStr (strip (Py.str v))) raw in
  exists rest,
    fst (transaction_selection i df) = selection_box "Transaction ID" (unique ids) ++ rest
    /\ List.length (unique ids) <= len df
    /\ (List.length (unique ids) = len df <-> NoDup ids)
    /\ (NoDup ids -> unique ids = ids).
Proof.
  intros Hwf Hraw ids. fold (trim_ids raw) in ids.
  pose proof (trim_ids_strings raw) as Hstr. fold ids in Hstr.
  pose proof (wf_length df _ raw Hwf Hraw) as Hlen.
  rewrite <- (trim_ids_length raw) in Hlen. fold ids in Hlen.
  pose proof (unique_from_NoDup ids Hstr []) as Hnd. fold (unique ids) in Hnd.
  pose proof (unique_incl_both ids Hstr) as Hsame.
  exists (fst (txn <- lookup (setitem df "transaction_id" ids)
                        (selectbox (unique ids) (choice i)) ;;
               ret (setitem df "transaction_id" ids, txn))).
  split.
  { rewrite (transaction_selection_by_id i df raw Hraw). fold ids.
    rewrite !bind_emit. reflexivity. }
  split.
  { rewrite <- Hlen. apply NoDup_incl_length; [exact Hnd |].
    intros v Hv. now apply Hsame. }
  split.
  - rewrite <- Hlen. split.
    + intros Heq. apply (NoDup_incl_NoDup Hnd); [lia |].
      intros v Hv. now apply Hsame.
    + intros Hids. apply Permutation_length.
      apply (NoDup_Permutation Hnd Hids). exact Hsame.
  - intros Hids. unfold unique. apply (unique_from_fix ids Hstr Hids). tauto.
Qed.

(** X10.  Trimming the identifiers replaces the [transaction_id] column
    and nothing else: the labels, the number of rows and every other
    column stay, and the insights drawn from the trimmed frame are those
    of the frame as loaded. *)
Theorem trimming_touches_one_column (i : inputs) (df : DataFrame) (raw : Series) :
  wf df ->
  getitem df "transaction_id" = inr raw ->
  let df' := setitem df "transaction_id" (str_strip (astype_str raw)) in
  wf df'
  /\ columns df' = columns df
  /\ len df' = len df
  /\ (forall c, c <> "transaction_id" -> getitem df' c = getitem df c)
  /\ dataset_insights i df' = dataset_insights i df.
Proof.
  intros Hwf Hraw df'. unfold df'. rewrite trim_ids_eq. clear df'.
  set (df' := setitem df "transaction_id" (trim_ids raw)).
  assert (Hlen : len df' = len df)
    by (apply (setitem_len df _ _ raw Hwf Hraw), trim_ids_length).
  assert (Hother : forall c, c <> "transaction_id" -> getitem df' c = getitem df c).
  { intros c Hc. apply getitem_setitem_other. congruence. }
  split; [apply (setitem_wf df _ _ raw Hwf Hraw), trim_ids_length |].
  split; [exact (setitem_columns df _ _ raw Hraw) |].
  split; [exact Hlen |]. split; [exact Hother |].
  rewrite !dataset_insights_cases.
  unfold risk_level_distribution, score_sample.
  rewrite Hlen, !Hother by discriminate. reflexivity.
Qed.

(** X11.  A trimmed identifier neither starts nor ends with white
    space, and trimming the trimmed identifiers again changes nothing. *)
Theorem trimmed_ids_stable (raw : Series) :
  let ids := str_strip (astype_str raw) in
  str_strip (astype_str ids) = ids
  /\ forall v, In v ids ->
       exists s, v = VStr s /\ starts_blank s = false /\ ends_blank s = false
                 /\ strip s = s.
Proof.
  intros ids. unfold ids. rewrite !trim_ids_eq. unfold trim_ids. split.
  - rewrite map_map. apply map_ext. intros v. cbn [Py.str].
    destruct (strip_clean (Py.str v)) as [Hs He]. now rewrite strip_fix.
  - intros v Hv. apply in_map_iff in Hv. destruct Hv as [w [<- _]].
    exists (strip (Py.str w)). destruct (strip_clean (Py.str w)) as [Hs He].
    repeat split; try assumption. now apply strip_fix.
Qed.

(** X12.  The look-up compares with the trimmed identifiers only: a key
    that starts or ends with white space matches no row, whatever the
    file holds, and ends in the not-found error. *)
Theorem blank_padded_key_not_found (df : DataFrame) (raw : Series) (key : string) :
  wf df ->
  getitem df "transaction_id" = inr raw ->
  starts_blank key = true \/ ends_blank key = true ->
  lookup (setitem df "transaction_id" (str_strip (astype_str raw))) (Some (VStr key))
  = ([st_error not_found], Stopped).
Proof.
  intros Hwf Hraw Hpad. rewrite trim_ids_eq.
  set (df' := setitem df "transaction_id" (trim_ids raw)).
  assert (Hids : getitem df' "transaction_id" = inr (trim_ids raw))
    by exact (getitem_setitem df _ _ raw Hraw).
  assert (Hwf' : wf df')
    by (apply (setitem_wf df _ _ raw Hwf Hraw), trim_ids_length).
  destruct (lookup_spec df' _ (Some (VStr key)) Hwf' Hids (trim_ids_strings raw))
    as [_ Habsent].
  apply Habsent. intros y [= <-] Hin.
  unfold trim_ids in Hin. apply in_map_iff in Hin. destruct Hin as [w [[= Hkey] _]].
  destruct (strip_clean (Py.str w)) as [Hs He]. rewrite Hkey in Hs, He.
  destruct Hpad; congruence.
Qed.

(** ** Counts and labels *)

(** X13.  The bars of the risk-level chart come largest count first,
    and no two bars stand for the same level. *)
Theorem bars_largest_first (levels : Series) :
  let counts := value_counts levels in
  StronglySorted (fun a b => snd b <= snd a) counts
  /\ (forall a b, In a counts -> In b counts ->
                  same_key (fst a) (fst b) = true -> a = b)
  /\ List.length counts <= List.length (filter notna levels).
Proof.
  intros counts.
  destruct (value_counts_spec levels) as [Hkeys [_ [Htotal Hsorted]]].
  fold counts in Hkeys, Htotal, Hsorted.
  split; [exact Hsorted |]. split.
  - unfold counts, value_counts.
    set (table := fold_left (fun t v => count_into v t) (filter notna levels) []).
    destruct (counts_fold (filter notna levels) [] [])
      as [Htidy _]; [constructor | intros k n [] | intros x [] |].
    fold table in Htidy.
    intros a b Ha Hb Hkey.
    apply (Permutation_in _ (isort_perm _ table)) in Ha, Hb.
    destruct (ForallOrdPairs_In Htidy a b Ha Hb) as [Heq | [Hab | Hba]];
      [exact Heq | congruence |].
    rewrite same_key_sym in Hba. congruence.
  - rewrite <- Htotal. unfold total.
    assert (Hpos : Forall (fun kn => 0 < snd kn) counts).
    { apply Forall_forall. intros [k n] Hin. now destruct (Hkeys k n Hin) as [_ [_ Hn]]. }
    clear -Hpos. induction Hpos as [| kn l Hn Hl IH]; simpl; lia.
Qed.

(** X14.  A label stored as a float is truncated before the test: it is
    shown as Yes exactly when it lies in [1, 2); a boolean label is Yes
    exactly when it is [True]; a missing label makes [int] raise
    [ValueError] and an infinite one [OverflowError]. *)
Theorem label_truncated (q : Q) (b neg : bool) :
  Py.int (VFloat (Fin q)) = inr (Qtrunc q)
  /\ (ground_truth (Qtrunc q) = "Yes" <-> (1 <= q /\ q < 2)%Q)
  /\ (exists n, Py.int (VBool b) = inr n /\ (ground_truth n = "Yes" <-> b = true))
  /\ Py.int (VFloat NaN) = inl ValueError
  /\ Py.int (VFloat (Inf neg)) = inl OverflowError.
Proof.
  split; [reflexivity |]. split; [| split; [| split; reflexivity]].
  - assert (Hyes : forall n, ground_truth n = "Yes" <-> n = 1%Z).
    { intros n. unfold ground_truth. destruct (Z.eqb_spec n 1); split; congruence. }
    rewrite Hyes. destruct q as [n d]. unfold Qtrunc, Qle, Qlt. cbn [Qnum Qden].
    destruct (Z_lt_le_dec n 0) as [Hneg | Hpos].
    + assert (Hq : (Z.quot n (Zpos d) <= 0)%Z).
      { replace n with (- (- n))%Z by lia. rewrite Z.quot_opp_l by lia.
        pose proof (Z.quot_pos (- n) (Zpos d)). lia. }
      split; intros; lia.
    + rewrite Z.quot_div_nonneg by lia. split.
      * intros Hdiv. pose proof (Z.div_mod n (Zpos d)).
        pose proof (Z.mod_pos_bound n (Zpos d)). nia.
      * intros [Hlo Hhi]. symmetry. apply (Z.div_unique n (Zpos d) 1 (n - Zpos d)); lia.
  - exists (if b then 1 else 0)%Z. split; [reflexivity |].
    destruct b; unfold ground_truth; simpl; split; congruence.
Qed.

(** X15.  A level that is not text never names a tier: an integer, a
    boolean, a missing value or an infinity gets the information
    message. *)
Theorem untyped_level_unavailable (txn : Row) (level : value) :
  row_get txn "fraud_risk_level" = inr level ->
  (exists z, level = VInt z) \/ (exists b, level = VBool b)
  \/ level = VFloat NaN \/ (exists neg, level = VFloat (Inf neg)) ->
  transaction_status txn =
    ([st_subheader "📢 Transaction Status";
      st_info "ℹ️ Transaction status unavailable."], Done tt).
Proof.
  intros Hlevel Hkind. rewrite (transaction_status_run txn level Hlevel).
  do 2 f_equal. f_equal.
  destruct Hkind as [[z ->] | [[b ->] | [-> | [neg ->]]]].
  - cbn [Py.str]. unfold str_of_Z, NilZero.string_of_int.
    destruct (Z.to_int z) as [d | d]; destruct d; reflexivity.
  - destruct b; reflexivity.
  - reflexivity.
  - destruct neg; reflexivity.
Qed.

(** ** What a run depends on *)

(** X16.  The check of the required columns looks at the labels only:
    two frames with the same labels, in any order and whatever their
    cells, have the same missing columns, and a further column changes
    nothing. *)
Theorem check_reads_labels_only (df1 df2 : DataFrame) (c : string) (s : Series) :
  (forall l, In l (columns df1) <-> In l (columns df2)) ->
  missing_cols df1 = missing_cols df2
  /\ required_columns_check df1 = required_columns_check df2
  /\ (~ In c required_cols -> missing_cols (df1 ++ [(c, s)]) = missing_cols df1).
Proof.
  intros Hsame.
  assert (Heq : missing_cols df1 = missing_cols df2).
  { unfold missing_cols. apply filter_ext. intros l. f_equal.
    apply eq_true_iff_eq. rewrite !contains_In. apply Hsame. }
  split; [exact Heq |]. split.
  - unfold required_columns_check. now rewrite Heq.
  - intros Hc. unfold missing_cols. apply filter_ext_in. intros l Hl. f_equal.
    apply eq_true_iff_eq. rewrite !contains_In. unfold columns.
    rewrite map_app, in_app_iff. simpl. split; [| tauto].
    intros [Hin | [<- | []]]; [exact Hin | contradiction].
Qed.

Lemma selection_frame (i : inputs) (df df' : DataFrame) (txn : Row) :
  snd (transaction_selection i df) = Done (df', txn) ->
  (contains "transaction_id" (columns df) = false /\ df' = df)
  \/ (exists raw, getitem df "transaction_id" = inr raw
                  /\ df' = setitem df "transaction_id" (trim_ids raw)).
Proof.
  intros Hdone.
  destruct (contains "transaction_id" (columns df)) eqn:Hid.
  - right. apply getitem_contains in Hid. destruct Hid as [raw Hraw].
    exists raw. split; [exact Hraw |].
    rewrite (transaction_selection_by_id i df raw Hraw) in Hdone.
    rewrite !bind_emit in Hdone. cbn [snd] in Hdone.
    apply bind_snd_done in Hdone. destruct Hdone as [txn' [_ Hret]].
    now injection Hret as <- _.
  - left. split; [reflexivity |].
    rewrite (selection_by_index i df Hid) in Hdone.
    rewrite !bind_emit in Hdone. cbn [snd] in Hdone.
    apply bind_snd_done in Hdone. destruct Hdone as [txn' [_ Hret]].
    now injection Hret as <- _.
Qed.

Lemma dataset_insights_rng (i1 i2 : inputs) (df : DataFrame) :
  rng i1 = rng i2 -> dataset_insights i1 df = dataset_insights i2 df.
Proof.
  intros Hrng. rewrite !dataset_insights_cases. unfold score_sample. now rewrite Hrng.
Qed.

(** X17.  The insights do not depend on the transaction chosen: two
    runs over the same file that draw the same sample hand the same
    frame to the insights and show the same expander, whatever was
    picked in the side bar. *)
Theorem insights_ignore_choice (i1 i2 : inputs) (df df1 df2 : DataFrame)
        (txn1 txn2 : Row) :
  rng i1 = rng i2 ->
  snd (transaction_selection i1 df) = Done (df1, txn1) ->
  snd (transaction_selection i2 df) = Done (df2, txn2) ->
  df1 = df2 /\ dataset_insights i1 df1 = dataset_insights i2 df2.
Proof.
  intros Hrng H1 H2.
  assert (Heq : df1 = df2).
  { destruct (selection_frame i1 df df1 txn1 H1) as [[Hid1 ->] | [raw1 [Hraw1 ->]]];
      destruct (selection_frame i2 df df2 txn2 H2) as [[Hid2 ->] | [raw2 [Hraw2 ->]]];
      try reflexivity.
    - assert (Hc : contains "transaction_id" (columns df) = true)
        by (apply getitem_contains; now exists raw2).
      congruence.
    - assert (Hc : contains "transaction_id" (columns df) = true)
        by (apply getitem_contains; now exists raw1).
      congruence.
    - congruence. }
  split; [exact Heq |]. subst df2. now apply dataset_insights_rng.
Qed.

Lemma score_sample_returns (i : inputs) (df : DataFrame) (scores : Series) :
  wf df ->
  getitem df "final_moe_score" = inr scores ->
  sortable scores = true ->
  Permutation (rng i) (seq 0 (len df)) ->
  exists line,
    score_sample i df = inr line
    /\ Permutation line
         (map (fun k => nth k scores (VFloat NaN))
              (firstn (Nat.min 1000 (len df)) (rng i))).
Proof.
  intros Hwf Hscores Hsortable Hperm.
  set (n := Nat.min 1000 (len df)).
  set (sampled := map (fun k => nth k scores (VFloat NaN)) (firstn n (rng i))).
  pose proof (wf_length df _ scores Hwf Hscores) as Hlen.
  assert (Hpos : Forall (fun k => k < len df) (firstn n (rng i))).
  { rewrite Forall_forall. intros k Hk. apply firstn_incl in Hk.
    apply (Permutation_in _ Hperm) in Hk. apply in_seq in Hk. lia. }
  assert (Hsample : sample (rng i) n scores = inr sampled).
  { unfold sample. assert (Hn : (List.length scores <? n) = false).
    { apply Nat.ltb_ge. subst n. rewrite Hlen. apply Nat.le_min_r. }
    rewrite Hn. apply take_spec. now rewrite Hlen. }
  assert (Hincl : incl sampled scores).
  { intros v Hv. apply in_map_iff in Hv. destruct Hv as [k [<- Hk]].
    apply nth_In. rewrite Forall_forall in Hpos. rewrite Hlen. now apply Hpos. }
  destruct (sort_values_spec sampled (sortable_incl scores sampled Hincl Hsortable))
    as [line [Hsort [Hline _]]].
  exists line. split; [| exact Hline].
  unfold score_sample. fold n. now rewrite Hscores, Hsample, Hsort.
Qed.

Lemma lookup_total (df : DataFrame) (ids : Series) (txn_id : option value) :
  wf df -> getitem df "transaction_id" = inr ids ->
  (exists txn, lookup df txn_id = ([], Done txn))
  \/ lookup df txn_id = ([st_error not_found], Stopped).
Proof.
  intros Hwf Hids.
  destruct (lookup_run df ids txn_id Hwf Hids) as [Hone Hzero].
  destruct (mask_cases (eq_scalar ids txn_id)) as [Hsome | Hnone].
  - left. destruct (first_true _ Hsome) as [k [_ [Hk Hbefore]]].
    exists (row_at df k). now apply Hone.
  - right. now apply Hzero.
Qed.

(** X18.  On a well-formed frame whose score column sorts, with a
    proper draw of the sample, a run raises an exception in three cases
    only: [KeyError] on a frame without identifier column and without
    rows, [ValueError] when [float] rejects the score of the selected
    row, and [ValueError] or [OverflowError] when [int] rejects its
    label.  Selecting, charting and sampling never raise. *)
Theorem run_exceptions (i : inputs) (df : DataFrame) (scores : Series) (e : exn) :
  csv_file i = Some df ->
  wf df ->
  getitem df "final_moe_score" = inr scores ->
  sortable scores = true ->
  Permutation (rng i) (seq 0 (len df)) ->
  snd (app i) = Raised e ->
  (e = KeyError /\ contains "transaction_id" (columns df) = false /\ len df = 0)
  \/ (exists df' txn score,
        snd (transaction_selection i df) = Done (df', txn)
        /\ row_get txn "final_moe_score" = inr score
        /\ Py.float score = inl e /\ e = ValueError)
  \/ (exists df' txn label,
        snd (transaction_selection i df) = Done (df', txn)
        /\ row_get txn "is_fraud" = inr label
        /\ Py.int label = inl e /\ (e = ValueError \/ e = OverflowError)).
Proof.
  intros Hfile Hwf Hscores Hsortable Hperm Hr.
  destruct (missing_cols df) as [| c0 m] eqn:Hm.
  2:{ rewrite (app_loaded i df Hfile) in Hr.
      rewrite after_load_missing in Hr by (rewrite Hm; discriminate).
      discriminate Hr. }
  rewrite (app_checked i df Hfile Hm) in Hr. cbn [snd] in Hr. unfold after_check in Hr.
  apply bind_snd_raised in Hr. destruct Hr as [Hr | [[df' txn] [Hsel Hr]]].
  - left.
    destruct (contains "transaction_id" (columns df)) eqn:Hid.
    + exfalso. apply getitem_contains in Hid. destruct Hid as [raw Hraw].
      rewrite (transaction_selection_by_id i df raw Hraw) in Hr.
      rewrite !bind_emit in Hr. cbn [snd] in Hr.
      apply bind_snd_raised in Hr. destruct Hr as [Hr | [txn' [_ Hr]]]; [| discriminate Hr].
      destruct (lookup_total (setitem df "transaction_id" (trim_ids raw)) (trim_ids raw)
                  (selectbox (unique (trim_ids raw)) (choice i))) as [[txn' Hl] | Hl].
      * apply (setitem_wf df _ _ raw Hwf Hraw), trim_ids_length.
      * exact (getitem_setitem df _ _ raw Hraw).
      * rewrite Hl in Hr. discriminate Hr.
      * rewrite Hl in Hr. discriminate Hr.
    + destruct (len df) as [| n] eqn:Hn.
      * rewrite (selection_by_index_empty i df Hid Hn) in Hr.
        injection Hr as <-. tauto.
      * exfalso.
        destruct (selection_by_index_rows i df Hid) as [k [_ [_ Hrun]]]; [lia |].
        rewrite Hrun in Hr. discriminate Hr.
  - right. cbn [fst snd] in Hr.
    pose proof (selection_fields i df df' txn Hm Hsel) as Hf.
    destruct (Hf "final_moe_score") as [score Hscore]; [simpl; tauto |].
    destruct (Hf "fraud_risk_level") as [level Hlevel]; [simpl; tauto |].
    destruct (Hf "is_fraud") as [label Hlabel]; [simpl; tauto |].
    pose proof (final_decision_cases txn score level label Hscore Hlevel Hlabel) as Hfd.
    destruct (Py.float score) as [e' | x] eqn:Hx.
    { left. unfold after_selection in Hr. rewrite (bind_raised _ _ _ _ Hfd) in Hr.
      cbn [snd] in Hr. assert (He : e' = e) by congruence. subst e'.
      exists df', txn, score. repeat split; try assumption.
      now apply (float_raises score). }
    destruct (Py.int label) as [e' | n] eqn:Hn.
    { right. unfold after_selection in Hr. rewrite (bind_raised _ _ _ _ Hfd) in Hr.
      cbn [snd] in Hr. assert (He : e' = e) by congruence. subst e'.
      exists df', txn, label. repeat split; try assumption.
      now apply (int_raises label). }
    exfalso.
    destruct (after_selection_run i df' txn _ Hf Hfd)
      as [l [a1 [a2 [a3 [a4 [a5 [_ [_ [_ [_ [_ [_ Hrun]]]]]]]]]]]].
    rewrite Hrun in Hr. cbn [snd] in Hr. rewrite dataset_insights_cases in Hr.
    destruct (selection_done i df df' txn Hsel) as [Hcols _].
    destruct (risk_level_distribution df') as [e' | counts] eqn:Hrisk.
    { apply risk_level_distribution_raises in Hrisk. destruct Hrisk as [_ Habs].
      rewrite Hcols in Habs.
      rewrite (required_present df _ Hm) in Habs; [discriminate | simpl; tauto]. }
    assert (Hsample : exists line, score_sample i df' = inr line).
    { destruct (selection_frame i df df' txn Hsel) as [[_ ->] | [raw [Hraw ->]]].
      - destruct (score_sample_returns i df scores Hwf Hscores Hsortable Hperm)
          as [line [Hline _]]. now exists line.
      - assert (Hlen : len (setitem df "transaction_id" (trim_ids raw)) = len df)
          by (apply (setitem_len df _ _ raw Hwf Hraw), trim_ids_length).
        destruct (score_sample_returns i (setitem df "transaction_id" (trim_ids raw)) scores)
          as [line [Hline _]]; try assumption.
        + apply (setitem_wf df _ _ raw Hwf Hraw), trim_ids_length.
        + rewrite getitem_setitem_other by discriminate. exact Hscores.
        + now rewrite Hlen.
        + now exists line. }
    destruct Hsample as [line Hline]. rewrite Hline in Hr. discriminate Hr.
Qed.

Lemma not_sortable (s : Series) (a b : value) :
  In a s -> is_string a = true ->
  In b s -> is_number b = true -> isna b = false ->
  sortable s = false.
Proof.
  intros Ha Hsa Hb Hnb Hpb. unfold sortable. apply orb_false_iff. split.
  - apply not_true_iff_false. intros Hall. rewrite forallb_forall in Hall.
    assert (Hin : In a (filter notna s)).
    { apply filter_In. split; [exact Ha |]. now destruct a. }
    specialize (Hall a Hin). destruct a; discriminate.
  - apply not_true_iff_false. intros Hall. rewrite forallb_forall in Hall.
    assert (Hin : In b (filter notna s)).
    { apply filter_In. split; [exact Hb |]. unfold notna. now rewrite Hpb. }
    specialize (Hall b Hin). destruct b; discriminate.
Qed.

(** X19.  A score column that holds both text and numbers does not
    sort: with at most 1000 rows the whole column is sampled,
    [sort_values] raises [TypeError], and the run ends inside the
    expander, after the bar chart and the second caption, with no line
    chart and no footer. *)
Theorem mixed_scores_break_insights (i : inputs) (df : DataFrame) (scores : Series)
        (counts : list (value * value)) (a b : value) :
  wf df ->
  getitem df "final_moe_score" = inr scores ->
  risk_level_distribution df = inr counts ->
  Permutation (rng i) (seq 0 (len df)) ->
  len df <= 1000 ->
  In a scores -> is_string a = true ->
  In b scores -> is_number b = true -> isna b = false ->
  score_sample i df = inl TypeError
  /\ dataset_insights i df =
     ([st_expander "📊 Dataset Insights"
         [ st_write "Fraud Risk Level Distribution";
           st_bar_chart counts;
           st_write "Final MoE Score Distribution (Sample)" ]], Raised TypeError).
Proof.
  intros Hwf Hscores Hcounts Hperm Hsmall Ha Hsa Hb Hnb Hpb.
  pose proof (wf_length df _ scores Hwf Hscores) as Hlen.
  assert (Hrng : List.length (rng i) = len df).
  { rewrite (Permutation_length Hperm). apply length_seq. }
  set (sampled := map (fun k => nth k scores (VFloat NaN)) (rng i)).
  assert (Hall : Permutation sampled scores).
  { unfold sampled. rewrite (Permutation_map _ Hperm), <- Hlen. now rewrite nth_seq. }
  assert (Hsample : sample (rng i) (Nat.min 1000 (len df)) scores = inr sampled).
  { unfold sample. rewrite Nat.min_r by exact Hsmall.
    assert (Hn : (List.length scores <? len df) = false)
      by (apply Nat.ltb_ge; lia).
    rewrite Hn, firstn_all2 by lia. apply take_spec.
    rewrite Forall_forall. intros k Hk.
    apply (Permutation_in _ Hperm) in Hk. apply in_seq in Hk. lia. }
  assert (Hsort : sort_values sampled = inl TypeError).
  { unfold sort_values. fold (sortable sampled).
    rewrite (not_sortable sampled a b); try assumption; try reflexivity.
    - now apply (Permutation_in _ (Permutation_sym Hall)).
    - now apply (Permutation_in _ (Permutation_sym Hall)). }
  assert (Hrun : score_sample i df = inl TypeError).
  { unfold score_sample. now rewrite Hscores, Hsample, Hsort. }
  split; [exact Hrun |].
  rewrite dataset_insights_cases. now rewrite Hcounts, Hrun.
Qed.

End More.

(* ================================================================== *)
(** * The rounding of the score *)
(* ================================================================== *)

(** ** The reference float routines *)

Section Binary64Facts.
Local Open Scope Z_scope.

(** [round_half_even] gives a nearest integer, the even one at a tie. *)
Lemma round_half_even_spec (num den : Z) :
  0 <= num -> 0 < den ->
  let r := Binary64.round_half_even num den in
  0 <= r
  /\ 2 * Z.abs (r * den - num) <= den
  /\ (2 * Z.abs (r * den - num) = den -> Z.even r = true).
Proof.
  intros Hn Hd r. subst r. unfold Binary64.round_half_even.
  pose proof (Z.div_mod num den ltac:(lia)) as Hdm.
  pose proof (Z.mod_pos_bound num den Hd) as Hm.
  pose proof (Z.div_pos num den Hn Hd) as Hq.
  set (m := num / den) in *. set (t := num mod den) in *.
  destruct (Z.compare_spec (2 * t) den) as [Heq | Hlt | Hgt].
  - destruct (Z.even m) eqn:He.
    + repeat split; [lia | nia | intros _; exact He].
    + repeat split; [lia | nia |]. intros _.
      rewrite Z.add_1_r, Z.even_succ, <- Z.negb_even, He. reflexivity.
  - repeat split; [lia | nia | nia].
  - repeat split; [lia | nia | nia].
Qed.

Lemma Qround_half_even_spec (q : Q) :
  let k := Binary64.Qround_half_even q in
  (inject_Z k - (1 # 2) <= q)%Q
  /\ (q <= inject_Z k + (1 # 2))%Q
  /\ ((q == inject_Z k + (1 # 2))%Q \/ (q == inject_Z k - (1 # 2))%Q -> Z.even k = true).
Proof.
  destruct q as [n d]. unfold Binary64.Qround_half_even. cbn [Qnum Qden].
  destruct (round_half_even_spec (Z.abs n) (Zpos d)) as [H0 [Hle Htie]]; [lia | lia |].
  set (r := Binary64.round_half_even (Z.abs n) (Z.pos d)) in *.
  assert (He : Z.even (- r) = Z.even r) by apply Z.even_opp.
  destruct (Z.ltb_spec n 0) as [Hneg | Hpos];
    unfold Qle, Qeq, Qminus, Qplus, Qopp, inject_Z; cbn [Qnum Qden];
    rewrite ?Pos2Z.inj_mul.
  - split; [nia |]. split; [nia |]. intros Ht. rewrite He. apply Htie. nia.
  - split; [nia |]. split; [nia |]. intros Ht. apply Htie. nia.
Qed.

Lemma scale2_nonneg (n d e : Z) : 0 <= e -> Binary64.scale2 n d e = (n, d * 2 ^ e).
Proof. intros He. unfold Binary64.scale2. destruct (Z.leb_spec 0 e); [reflexivity | lia]. Qed.

Lemma scale2_neg (n d e : Z) : e < 0 -> Binary64.scale2 n d e = (n * 2 ^ (- e), d).
Proof. intros He. unfold Binary64.scale2. destruct (Z.leb_spec 0 e); [lia | reflexivity]. Qed.

Lemma pow2_pos (e : Z) : 0 <= e -> 0 < 2 ^ e.
Proof. intros He. apply Z.pow_pos_nonneg; lia. Qed.

Lemma pow2_succ (e : Z) : 0 <= e -> 2 ^ (e + 1) = 2 * 2 ^ e.
Proof. intros He. rewrite Z.pow_add_r by lia. lia. Qed.

(** [ilog2 n d] is the exponent of [n / d]: [2^e <= n / d < 2^(e+1)]. *)
Lemma ilog2_spec (n d : Z) :
  0 < n -> 0 < d ->
  let e := Binary64.ilog2 n d in
  0 < snd (Binary64.scale2 n d e)
  /\ snd (Binary64.scale2 n d e) <= fst (Binary64.scale2 n d e)
  /\ fst (Binary64.scale2 n d e) < 2 * snd (Binary64.scale2 n d e).
Proof.
  intros Hn Hd e. subst e. unfold Binary64.ilog2.
  destruct (Z.log2_spec n Hn) as [Hn1 Hn2].
  destruct (Z.log2_spec d Hd) as [Hd1 Hd2].
  pose proof (Z.log2_nonneg n) as Hln. pose proof (Z.log2_nonneg d) as Hld.
  rewrite <- Z.add_1_r in Hn2, Hd2. rewrite pow2_succ in Hn2, Hd2 by lia.
  set (ln := Z.log2 n) in *. set (ld := Z.log2 d) in *.
  pose proof (pow2_pos ln Hln) as Pn. pose proof (pow2_pos ld Hld) as Pd.
  destruct (Z_lt_le_dec (ln - ld) 0) as [Hneg | Hpos].
  - rewrite (scale2_neg n d (ln - ld) Hneg).
    assert (Hp : 2 ^ ld = 2 ^ ln * 2 ^ (- (ln - ld))).
    { rewrite <- Z.pow_add_r by lia. f_equal. lia. }
    pose proof (pow2_pos (- (ln - ld)) ltac:(lia)) as Pe.
    set (p := 2 ^ (- (ln - ld))) in *.
    destruct (Z.ltb_spec (n * p) d) as [Hlt | Hge].
    + rewrite scale2_neg by lia. cbn [fst snd].
      replace (- (ln - ld - 1)) with (- (ln - ld) + 1) by lia.
      rewrite pow2_succ by lia. fold p. nia.
    + rewrite scale2_neg by lia. cbn [fst snd]. fold p. nia.
  - rewrite (scale2_nonneg n d (ln - ld) Hpos).
    assert (Hp : 2 ^ ln = 2 ^ ld * 2 ^ (ln - ld)).
    { rewrite <- Z.pow_add_r by lia. f_equal. lia. }
    pose proof (pow2_pos (ln - ld) Hpos) as Pe.
    destruct (Z.ltb_spec n (d * 2 ^ (ln - ld))) as [Hlt | Hge].
    + destruct (Z.eq_dec (ln - ld) 0) as [H0 | H0].
      * rewrite scale2_neg by lia. cbn [fst snd]. rewrite H0 in *.
        change (- (0 - 1)) with 1. change (2 ^ 1) with 2. change (2 ^ 0) with 1 in *. nia.
      * rewrite scale2_nonneg by lia. cbn [fst snd].
        assert (Hq : 2 ^ (ln - ld) = 2 * 2 ^ (ln - ld - 1)).
        { rewrite <- pow2_succ by lia. f_equal. lia. }
        pose proof (pow2_pos (ln - ld - 1) ltac:(lia)) as Pq.
        set (p := 2 ^ (ln - ld - 1)) in *. nia.
    + rewrite scale2_nonneg by lia. cbn [fst snd]. nia.
Qed.

Lemma dyadic_neg (m u : Z) : u < 0 -> (Binary64.dyadic m u == m # Z.to_pos (2 ^ (- u)))%Q.
Proof.
  intros Hu. unfold Binary64.dyadic. destruct (Z.leb_spec 0 u); [lia |]. apply Qred_correct.
Qed.

Lemma dyadic_nonneg (m u : Z) : 0 <= u -> Binary64.dyadic m u = inject_Z (m * 2 ^ u).
Proof. intros Hu. unfold Binary64.dyadic. destruct (Z.leb_spec 0 u); [reflexivity | lia]. Qed.

Lemma rel_bound (Y D n P p : Z) :
  0 <= Y -> 0 < D -> 0 < p -> 2 * Y <= D -> D * p <= n * P ->
  Y * (2 * p) <= n * P.
Proof. intros. nia. Qed.

(** [nearest_pos] is never [NaN]; in the normal range the result is off
    by at most one part in [2^53]; it overflows from [2^1023] on only. *)
Lemma nearest_pos_spec (n d : Z) :
  0 < n -> 0 < d ->
  match Binary64.nearest_pos n d with
  | Fin r =>
      (0 <= r)%Q
      /\ (-1022 <= Binary64.ilog2 n d ->
          (Qabs (r - (n # Z.to_pos d)) * inject_Z (2 ^ 53) <= n # Z.to_pos d)%Q)
  | Inf s => s = false /\ 1023 <= Binary64.ilog2 n d
  | NaN => False
  end.
Proof.
  intros Hn Hd. unfold Binary64.nearest_pos.
  assert (HD : Z.pos (Z.to_pos d) = d) by (apply Z2Pos.id; exact Hd).
  destruct (ilog2_spec n d Hn Hd) as [Hb [Hlo Hhi]].
  set (e := Binary64.ilog2 n d) in *.
  set (u := Z.max (e - 52) (- 1074)).
  destruct (Binary64.scale2 n d u) as [a b] eqn:Hs.
  assert (Hab : 0 <= a /\ 0 < b).
  { destruct (Z_lt_le_dec u 0) as [Hu | Hu].
    - rewrite scale2_neg in Hs by exact Hu. injection Hs as <- <-.
      pose proof (pow2_pos (- u) ltac:(lia)). split; nia.
    - rewrite scale2_nonneg in Hs by exact Hu. injection Hs as <- <-.
      pose proof (pow2_pos u Hu). split; nia. }
  destruct (round_half_even_spec a b) as [Hm0 [Hm _]]; [lia | lia |].
  set (m := Binary64.round_half_even a b) in *.
  destruct ((0 <=? u) && (2 ^ 1024 <=? m * 2 ^ u)) eqn:Hover.
  - split; [reflexivity |].
    apply andb_true_iff in Hover. destruct Hover as [Hu Hbig].
    apply Z.leb_le in Hu, Hbig.
    rewrite scale2_nonneg in Hs by exact Hu. injection Hs as <- <-.
    assert (Heu : u = e - 52) by lia.
    rewrite scale2_nonneg in Hlo, Hhi, Hb by lia. cbn [fst snd] in Hlo, Hhi, Hb.
    assert (Hp : 2 ^ e = 2 ^ u * 2 ^ 52).
    { rewrite <- Z.pow_add_r by lia. f_equal. lia. }
    pose proof (pow2_pos u Hu) as Pu.
    destruct (Z_lt_le_dec e 1023) as [Hsmall | Hok]; [exfalso | exact Hok].
    assert (Hle : 2 ^ u <= 2 ^ 970) by (apply Z.pow_le_mono_r; lia).
    assert (Hc : 2 ^ 1024 = 2 ^ 54 * 2 ^ 970) by (rewrite <- Z.pow_add_r by lia; reflexivity).
    assert (H52 : 2 ^ 54 = 4 * 2 ^ 52) by reflexivity.
    set (p52 := 2 ^ 52) in *. set (pu := 2 ^ u) in *. set (p970 := 2 ^ 970) in *.
    set (pe := 2 ^ e) in *. set (p1024 := 2 ^ 1024) in *. set (p54 := 2 ^ 54) in *.
    assert (P52 : 0 < p52) by (unfold p52; apply pow2_pos; lia).
    nia.
  - split.
    { destruct (Z_lt_le_dec u 0) as [Hu | Hu].
      - rewrite (dyadic_neg m u Hu). unfold Qle. cbn [Qnum Qden]. lia.
      - rewrite (dyadic_nonneg m u Hu). unfold Qle, inject_Z. cbn [Qnum Qden].
        pose proof (pow2_pos u Hu). nia. }
    intros Hnorm. assert (Heu : u = e - 52) by lia.
    assert (H53 : 2 ^ 53 = 2 * 2 ^ 52) by reflexivity.
    assert (P52 : 0 < 2 ^ 52) by (apply pow2_pos; lia).
    destruct (Z_lt_le_dec u 0) as [Hu | Hu].
    + rewrite (dyadic_neg m u Hu).
      rewrite scale2_neg in Hs by exact Hu. injection Hs as <- <-.
      pose proof (pow2_pos (- u) ltac:(lia)) as Pu.
      assert (HP : Z.pos (Z.to_pos (2 ^ (- u))) = 2 ^ (- u)) by (apply Z2Pos.id; exact Pu).
      unfold Qle, Qabs, Qminus, Qplus, Qopp, Qmult, inject_Z. cbn [Qnum Qden].
      rewrite ?Pos2Z.inj_mul, HP, ?HD.
      destruct (Z_lt_le_dec e 0) as [He | He].
      * rewrite scale2_neg in Hlo, Hhi, Hb by exact He. cbn [fst snd] in Hlo, Hhi, Hb.
        assert (Hp : 2 ^ (- u) = 2 ^ (- e) * 2 ^ 52).
        { rewrite <- Z.pow_add_r by lia. f_equal. lia. }
        pose proof (pow2_pos (- e) ltac:(lia)) as Pe.
        set (p52 := 2 ^ 52) in *. set (pu := 2 ^ (- u)) in *. set (pe := 2 ^ (- e)) in *.
        set (p53 := 2 ^ 53) in *.
        pose proof (rel_bound (Z.abs (m * d + - n * pu)) d n pu p52 ltac:(lia) Hd P52
                      ltac:(lia) ltac:(nia)) as Hrel.
        nia.
      * rewrite scale2_nonneg in Hlo, Hhi, Hb by exact He. cbn [fst snd] in Hlo, Hhi, Hb.
        assert (Hp : 2 ^ 52 = 2 ^ e * 2 ^ (- u)).
        { rewrite <- Z.pow_add_r by lia. f_equal. lia. }
        pose proof (pow2_pos e He) as Pe.
        set (p52 := 2 ^ 52) in *. set (pu := 2 ^ (- u)) in *. set (pe := 2 ^ e) in *.
        set (p53 := 2 ^ 53) in *.
        pose proof (rel_bound (Z.abs (m * d + - n * pu)) d n pu p52 ltac:(lia) Hd P52
                      ltac:(lia) ltac:(nia)) as Hrel.
        nia.
    + rewrite (dyadic_nonneg m u Hu).
      rewrite scale2_nonneg in Hs by exact Hu. injection Hs as <- <-.
      rewrite scale2_nonneg in Hlo, Hhi, Hb by lia. cbn [fst snd] in Hlo, Hhi, Hb.
      assert (Hp : 2 ^ e = 2 ^ u * 2 ^ 52).
      { rewrite <- Z.pow_add_r by lia. f_equal. lia. }
      pose proof (pow2_pos u Hu) as Pu.
      unfold Qle, Qabs, Qminus, Qplus, Qopp, Qmult, inject_Z. cbn [Qnum Qden].
      rewrite ?Pos2Z.inj_mul, ?HD.
      set (p52 := 2 ^ 52) in *. set (pu := 2 ^ u) in *. set (pe := 2 ^ e) in *.
      set (p53 := 2 ^ 53) in *.
      pose proof (rel_bound (Z.abs (m * pu * d + - n * 1)) (d * pu) n 1 p52 ltac:(lia)
                    ltac:(nia) P52 ltac:(nia) ltac:(nia)) as Hrel.
      nia.
Qed.

Lemma ilog2_overflow (n d : Z) :
  0 < n -> 0 < d -> 1023 <= Binary64.ilog2 n d -> d * 2 ^ 1023 <= n.
Proof.
  intros Hn Hd He.
  destruct (ilog2_spec n d Hn Hd) as [_ [Hlo _]].
  rewrite scale2_nonneg in Hlo by lia. cbn [fst snd] in Hlo.
  assert (Hp : 2 ^ 1023 <= 2 ^ Binary64.ilog2 n d) by (apply Z.pow_le_mono_r; lia).
  set (p := 2 ^ 1023) in *. set (pe := 2 ^ Binary64.ilog2 n d) in *.
  assert (0 < p) by (unfold p; apply pow2_pos; lia).
  nia.
Qed.

(** The same for [nearest], with the sign. *)
Lemma nearest_spec (q : Q) :
  Qnum q = 0 \/ -1022 <= Binary64.ilog2 (Z.abs (Qnum q)) (Zpos (Qden q)) ->
  binary64_of q (Binary64.nearest q).
Proof.
  destruct q as [n d]. cbn [Qnum Qden]. intros Hrange. unfold Binary64.nearest. cbn [Qnum Qden].
  destruct n as [| n | n].
  - unfold binary64_of, Qle, Qabs, Qminus, Qplus, Qopp, Qmult, inject_Z. cbn [Qnum Qden]. lia.
  - destruct Hrange as [H0 | Hrange]; [discriminate H0 |]. cbn [Z.abs] in Hrange.
    pose proof (nearest_pos_spec (Zpos n) (Zpos d) ltac:(lia) ltac:(lia)) as Hs.
    pose proof (ilog2_overflow (Zpos n) (Zpos d) ltac:(lia) ltac:(lia)) as Ho.
    destruct (Binary64.nearest_pos (Zpos n) (Zpos d)) as [| s | r]; [contradiction | |].
    + destruct Hs as [-> He]. split; [| reflexivity].
      specialize (Ho He). unfold Qle, Qabs, inject_Z. cbn [Qnum Qden Z.abs]. lia.
    + destruct Hs as [_ Hacc]. specialize (Hacc Hrange).
      cbn [Z.to_pos] in Hacc. unfold binary64_of.
      change (Qabs (Zpos n # d)%Q) with (Zpos n # d)%Q. exact Hacc.
  - destruct Hrange as [H0 | Hrange]; [discriminate H0 |]. cbn [Z.abs] in Hrange.
    pose proof (nearest_pos_spec (Zpos n) (Zpos d) ltac:(lia) ltac:(lia)) as Hs.
    pose proof (ilog2_overflow (Zpos n) (Zpos d) ltac:(lia) ltac:(lia)) as Ho.
    destruct (Binary64.nearest_pos (Zpos n) (Zpos d)) as [| s | r]; [contradiction | |].
    + destruct Hs as [-> He]. split; [| reflexivity].
      specialize (Ho He). unfold Qle, Qabs, inject_Z. cbn [Qnum Qden Z.abs]. lia.
    + destruct Hs as [_ Hacc]. specialize (Hacc Hrange).
      cbn [Z.to_pos] in Hacc. unfold Binary64.fneg, binary64_of.
      change (Qabs (Zneg n # d)%Q) with (Zpos n # d)%Q.
      destruct r as [rn rd].
      revert Hacc.
      unfold Qle, Qabs, Qminus, Qplus, Qopp, Qmult, inject_Z. cbn [Qnum Qden].
      rewrite ?Pos2Z.inj_mul.
      replace (- rn * Z.pos d + - Z.neg n * Z.pos rd)
        with (- (rn * Z.pos d + - Z.pos n * Z.pos rd)) by lia.
      rewrite Z.abs_opp. intros Hacc. exact Hacc.
Qed.

Lemma ilog2_thousandths (n : Z) : 0 < n -> -1022 <= Binary64.ilog2 n 1000.
Proof.
  intros Hn.
  destruct (ilog2_spec n 1000 Hn ltac:(lia)) as [_ [_ Hhi]].
  destruct (Z_lt_le_dec (Binary64.ilog2 n 1000) (- 1022)) as [He | He]; [exfalso | exact He].
  rewrite scale2_neg in Hhi by lia. cbn [fst snd] in Hhi.
  assert (Hp : 2 ^ 11 <= 2 ^ (- Binary64.ilog2 n 1000)) by (apply Z.pow_le_mono_r; lia).
  change (2 ^ 11) with 2048 in Hp. nia.
Qed.

(** Scaling by 1000 and rounding to an integer finds the nearest
    thousandth. *)
Lemma Qround_thousandth (q : Q) :
  nearest_thousandth q (Binary64.Qround_half_even (Binary64.shift10 q 3)).
Proof.
  change (Binary64.shift10 q 3) with (q * inject_Z 1000)%Q.
  destruct (Qround_half_even_spec (q * inject_Z 1000)%Q) as [Hlo [Hhi Htie]].
  set (k := Binary64.Qround_half_even (q * inject_Z 1000)) in *.
  destruct q as [n d].
  revert Hlo Hhi Htie.
  unfold nearest_thousandth, Qle, Qeq, Qabs, Qdiv, Qinv, Qminus, Qplus, Qopp, Qmult, inject_Z.
  cbn [Qnum Qden]. rewrite ?Pos2Z.inj_mul.
  intros Hlo Hhi Htie. split; [lia |].
  intros Heq. apply Htie. lia.
Qed.

(** [round(x, 3)] of the reference implementation rounds to three
    decimal places. *)
Lemma round_three_decimals (x : float64) : three_decimals x (Binary64.round_ndigits x 3).
Proof.
  destruct x as [| s | q]; [reflexivity | reflexivity |].
  unfold three_decimals, Binary64.round_ndigits.
  exists (Binary64.Qround_half_even (Binary64.shift10 q 3)). split; [apply Qround_thousandth |].
  set (k := Binary64.Qround_half_even (Binary64.shift10 q 3)).
  change (Binary64.shift10 (inject_Z k) (- (3))) with (inject_Z k / inject_Z 1000)%Q.
  apply nearest_spec.
  unfold Qdiv, Qinv, Qmult, inject_Z. cbn [Qnum Qden].
  destruct (Z.eq_dec k 0) as [-> | Hk]; [left; reflexivity | right].
  change (Z.pos (1 * 1000)) with 1000.
  apply ilog2_thousandths. lia.
Qed.

End Binary64Facts.

(** ** The score metric *)

Section ScoreRounding.
#[local] Existing Instance Binary64.ops.

(** C5.  For a selected record whose [final_moe_score] converts to the
    float [x], the first of the three metrics, Final Fraud Score, shows
    [round(x, 3)], and that value is [x] rounded to three decimal
    places: for a finite [x] it is the binary64 number of [k / 1000],
    where [k / 1000] is the multiple of 0.001 nearest to [x] (the even
    [k] at a tie); a [nan] or an infinity is shown as it is.  The score
    0.8734 is shown as 0.873. *)
Theorem final_score_rounded (txn : Row) (score : value) (x : float64) :
  row_get txn "final_moe_score" = inr score ->
  Py.float score = inr x ->
  (exists rest outcome,
      final_decision txn =
        ([ st_subheader "🚨 Final Fraud Decision";
           st_columns 3;
           st_metric 1 "Final Fraud Score" (VFloat (Py.round x 3)) ] ++ rest,
         outcome))
  /\ three_decimals x (Py.round x 3)
  /\ (score = Examples.num "0.8734" ->
      VFloat (Py.round x 3) = Examples.num "0.873"
      /\ Py.str (VFloat (Py.round x 3)) = "0.873").
Proof.
  intros Hscore Hx. split; [| split].
  - unfold final_decision. run_block. rewrite Hscore. run_block.
    rewrite Hx. run_block. eexists. eexists. reflexivity.
  - apply round_three_decimals.
  - intros ->. vm_compute in Hx. injection Hx as <-.
    split; vm_compute; reflexivity.
Qed.

End ScoreRounding.

(* ================================================================== *)
(** * The claims on the sample data *)
(* ================================================================== *)

Module Witness.
Import Examples.

#[local] Existing Instance Binary64.ops.

Lemma scored_wf : wf scored.
Proof. apply wfb_wf. reflexivity. Qed.

Lemma no_rows_wf : wf no_rows.
Proof. apply wfb_wf. reflexivity. Qed.

(** The scenario of the specification: selecting T100 shows the score
    0.873, the level HIGH, the ground truth Yes and the blocked status. *)
Example t100_selected :
  exists page rest,
    fst (app first_visit) = fst page_config ++ page ++ rest
    /\ snd (app first_visit) = Done tt
    /\ page =
       [ st_sidebar (st_header "🔍 Select Transaction");
         st_sidebar (st_selectbox "Transaction ID" [VStr "T100"; VStr "T101"]);
         st_subheader "🚨 Final Fraud Decision";
         st_columns 3;
         st_metric 1 "Final Fraud Score" (num "0.873");
         st_metric 2 "Fraud Risk Level" (VStr "HIGH");
         st_metric 3 "Actual Fraud (Ground Truth)" (VStr "Yes");
         st_subheader "📢 Transaction Status";
         st_error "🚫 Your transaction is blocked. Please contact the bank immediately." ].
Proof.
  eexists. eexists. split; [| split]; [| | reflexivity].
  - vm_compute. reflexivity.
  - vm_compute. reflexivity.
Qed.

Lemma missing_columns_reported_witness :
  csv_file broken_visit = Some without_xgb
  /\ app broken_visit =
     (fst page_config ++ [st_error "❌ Missing required columns: ['xgb_score']"],
      Stopped).
Proof.
  split; [reflexivity |].
  destruct (missing_columns_reported broken_visit without_xgb eq_refl)
    as [_ [_ [_ [_ Hrun]]]].
  exact Hrun.
Defined.

Lemma status_by_risk_level_witness :
  row_get t100 "fraud_risk_level" = inr (VStr "HIGH")
  /\ transaction_status t100 =
     ([ st_subheader "📢 Transaction Status";
        st_error "🚫 Your transaction is blocked. Please contact the bank immediately." ],
      Done tt).
Proof.
  split; [reflexivity |].
  exact (proj1 (status_by_risk_level t100 (VStr "HIGH") eq_refl)).
Defined.

Lemma ground_truth_metric_witness :
  row_get t100 "final_moe_score" = inr (num "0.8734")
  /\ Py.float (num "0.8734") = inr (Binary64.nearest (8734 # 10000))
  /\ row_get t100 "fraud_risk_level" = inr (VStr "HIGH")
  /\ row_get t100 "is_fraud" = inr (VInt 1)
  /\ final_decision t100 =
     ([ st_subheader "🚨 Final Fraud Decision";
        st_columns 3;
        st_metric 1 "Final Fraud Score"
          (VFloat (Py.round (Binary64.nearest (8734 # 10000)) 3));
        st_metric 2 "Fraud Risk Level" (VStr "HIGH");
        st_metric 3 "Actual Fraud (Ground Truth)" (VStr "Yes") ],
      Done tt).
Proof.
  assert (Hx : Py.float (num "0.8734") = inr (Binary64.nearest (8734 # 10000)))
    by (vm_compute; reflexivity).
  repeat (split; [reflexivity || exact Hx |]).
  exact (proj1 (ground_truth_metric t100 (num "0.8734") (VStr "HIGH") (VInt 1)
                  (Binary64.nearest (8734 # 10000)) eq_refl Hx eq_refl eq_refl)).
Defined.

Lemma selector_first_match_witness :
  wf scored
  /\ getitem scored "transaction_id" = inr [VStr "T100"; VStr " T101 "; VStr "T100"]
  /\ exists k,
       lookup (setitem scored "transaction_id" [VStr "T100"; VStr "T101"; VStr "T100"])
              (Some (VStr "T101"))
       = ([], Done (row_at (setitem scored "transaction_id"
                              [VStr "T100"; VStr "T101"; VStr "T100"]) k))
       /\ nth_error [VStr "T100"; VStr "T101"; VStr "T100"] k = Some (VStr "T101").
Proof.
  split; [exact scored_wf |]. split; [reflexivity |].
  destruct (selector_first_match first_visit scored
              [VStr "T100"; VStr " T101 "; VStr "T100"] (Some (VStr "T101"))
              scored_wf eq_refl) as [_ [_ [_ [Hfound _]]]].
  destruct (Hfound (VStr "T101") eq_refl (or_intror (or_introl eq_refl)))
    as [k [Hrun [_ [Hk _]]]].
  exists k. split; [exact Hrun | exact Hk].
Defined.

Lemma not_found_only_without_rows_witness :
  csv_file first_visit = Some scored
  /\ wf scored
  /\ getitem scored "transaction_id" = inr [VStr "T100"; VStr " T101 "; VStr "T100"]
  /\ ~ In not_found (errors (fst (app first_visit))).
Proof.
  split; [reflexivity |]. split; [exact scored_wf |]. split; [reflexivity |].
  destruct (not_found_only_without_rows first_visit scored
              [VStr "T100"; VStr " T101 "; VStr "T100"] eq_refl scored_wf eq_refl)
    as [_ [_ [_ [_ Hnever]]]].
  exact Hnever.
Defined.

(** C8, as stated, fails: on the header-only file the frame has its
    [transaction_id] column and every required column, and the run ends
    in the not-found branch. *)
Lemma not_found_reached :
  wf no_rows
  /\ contains "transaction_id" (columns no_rows) = true
  /\ missing_cols no_rows = []
  /\ app empty_visit =
     (fst page_config
      ++ [ st_sidebar (st_header "🔍 Select Transaction");
           st_sidebar (st_selectbox "Transaction ID" []);
           st_error not_found ],
      Stopped)
  /\ In not_found (errors (fst (app empty_visit))).
Proof.
  split; [exact no_rows_wf |]. split; [reflexivity |]. split; [reflexivity |].
  split; [reflexivity |]. vm_compute. tauto.
Qed.

Lemma untrimmed_level_unavailable_witness :
  row_get t101 "fraud_risk_level" = inr (VStr (" " ++ "low" ++ EmptyString))
  /\ blank " " = true
  /\ blank EmptyString = true
  /\ (" " <> EmptyString \/ EmptyString <> EmptyString)
  /\ (upper "low" = "LOW" \/ upper "low" = "MEDIUM" \/ upper "low" = "HIGH")
  /\ transaction_status t101 =
     ([ st_subheader "📢 Transaction Status";
        st_info "ℹ️ Transaction status unavailable." ], Done tt).
Proof.
  assert (Hpad : " " <> EmptyString \/ EmptyString <> EmptyString) by (left; discriminate).
  repeat (split; [reflexivity || exact Hpad || (left; reflexivity) |]).
  exact (proj1 (untrimmed_level_unavailable t101 " " "low" EmptyString
                  eq_refl eq_refl eq_refl Hpad (or_introl eq_refl))).
Defined.

Lemma missing_levels_not_counted_witness :
  wf scored
  /\ getitem scored "fraud_risk_level" = inr [VStr "HIGH"; VStr " low"; VFloat NaN]
  /\ risk_level_distribution scored =
     inr [(VStr "HIGH", VInt 1); (VStr " low", VInt 1)]
  /\ total (value_counts [VStr "HIGH"; VStr " low"; VFloat NaN]) < len scored.
Proof.
  split; [exact scored_wf |]. split; [reflexivity |].
  destruct (missing_levels_not_counted scored [VStr "HIGH"; VStr " low"; VFloat NaN]
              scored_wf eq_refl) as [Hchart [_ [_ [_ [_ [_ Hless]]]]]].
  split; [exact Hchart | exact (Hless eq_refl)].
Defined.

Lemma first_visit_rng : Permutation (rng first_visit) (seq 0 (len scored)).
Proof.
  simpl. eapply perm_trans; [apply perm_swap | apply perm_skip, perm_swap].
Qed.

Lemma score_sample_sorted_witness :
  wf scored
  /\ getitem scored "final_moe_score" = inr [num "0.8734"; num "0.12"; num "0.5"]
  /\ sortable [num "0.8734"; num "0.12"; num "0.5"] = true
  /\ Permutation (rng first_visit) (seq 0 (len scored))
  /\ exists line,
       score_sample first_visit scored = inr line
       /\ List.length line = 3
       /\ ascending line
       /\ Permutation line [num "0.8734"; num "0.12"; num "0.5"].
Proof.
  split; [exact scored_wf |]. split; [reflexivity |]. split; [reflexivity |].
  split; [exact first_visit_rng |].
  destruct (score_sample_sorted first_visit scored
              [num "0.8734"; num "0.12"; num "0.5"]
              scored_wf eq_refl eq_refl first_visit_rng)
    as [line [Hrun [_ [_ [_ [Hlen [_ [Hasc [Hall _]]]]]]]]].
  exists line. split; [exact Hrun |]. split; [exact Hlen |].
  split; [exact Hasc |]. apply Hall. simpl. lia.
Defined.

Lemma final_score_rounded_witness :
  row_get t100 "final_moe_score" = inr (num "0.8734")
  /\ Py.float (num "0.8734") = inr (Binary64.nearest (8734 # 10000))
  /\ three_decimals (Binary64.nearest (8734 # 10000))
       (Py.round (Binary64.nearest (8734 # 10000)) 3)
  /\ VFloat (Py.round (Binary64.nearest (8734 # 10000)) 3) = num "0.873"
  /\ Py.str (VFloat (Py.round (Binary64.nearest (8734 # 10000)) 3)) = "0.873".
Proof.
  assert (Hx : Py.float (num "0.8734") = inr (Binary64.nearest (8734 # 10000)))
    by (vm_compute; reflexivity).
  split; [reflexivity |]. split; [exact Hx |].
  destruct (final_score_rounded t100 (num "0.8734")
              (Binary64.nearest (8734 # 10000)) eq_refl Hx)
    as [_ [Hround Hshown]].
  split; [exact Hround |]. exact (Hshown eq_refl).
Defined.

End Witness.

(* ================================================================== *)
(** * The further properties on the sample data *)
(* ================================================================== *)

Module MoreWitness.
Import Examples.

#[local] Existing Instance Binary64.ops.

Lemma frames_wf : wf scored /\ wf unlabelled /\ wf no_rows /\ wf garbled /\ wf mixed.
Proof. repeat split; apply wfb_wf; reflexivity. Qed.

Lemma sample_rng : Permutation [2; 0; 1] (seq 0 3).
Proof. eapply perm_trans; [apply perm_swap | apply perm_skip, perm_swap]. Qed.

Lemma row_index_selection_witness :
  contains "transaction_id" (columns unlabelled) = false
  /\ choice unlabelled_visit < len unlabelled
  /\ transaction_selection unlabelled_visit unlabelled =
     (selection_box "Transaction Row Index" [VInt 0; VInt 1; VInt 2],
      Done (unlabelled, row_at unlabelled 2)).
Proof.
  assert (Hc : choice unlabelled_visit < len unlabelled) by (simpl; lia).
  split; [reflexivity |]. split; [exact Hc |].
  exact (proj1 (row_index_selection unlabelled_visit unlabelled eq_refl Hc)).
Defined.

Lemma key_error_only_without_rows_witness :
  csv_file bare_visit = Some bare /\ snd (app bare_visit) = Raised KeyError.
Proof.
  split; [reflexivity |].
  apply (proj2 (key_error_only_without_rows bare_visit bare eq_refl)).
  repeat split; reflexivity.
Defined.

Lemma halted_run_shows_one_error_witness :
  snd (app empty_visit) = Stopped
  /\ exists page msg,
       fst (app empty_visit) = page ++ [st_error msg]
       /\ errors page = []
       /\ errors (fst (app empty_visit)) = [msg]
       /\ msg = not_found.
Proof.
  assert (Hs : snd (app empty_visit) = Stopped) by (vm_compute; reflexivity).
  split; [exact Hs |].
  destruct (halted_run_shows_one_error empty_visit Hs) as [page [msg [H1 [H2 [H3 H4]]]]].
  exists page, msg. repeat split; try assumption. exact (proj1 H4).
Defined.

Lemma halted_run_conditions_witness :
  csv_file empty_visit = Some no_rows
  /\ wf no_rows
  /\ snd (app empty_visit) = Stopped.
Proof.
  split; [reflexivity |]. split; [exact (proj1 (proj2 (proj2 frames_wf))) |].
  apply (proj2 (halted_run_conditions empty_visit no_rows eq_refl
                  (proj1 (proj2 (proj2 frames_wf))))).
  right. split; reflexivity.
Defined.

Lemma completed_page_witness :
  csv_file first_visit = Some scored
  /\ snd (app first_visit) = Done tt
  /\ List.length (fst (app first_visit)) = 19.
Proof.
  assert (Hd : snd (app first_visit) = Done tt) by (vm_compute; reflexivity).
  split; [reflexivity |]. split; [exact Hd |].
  destruct (completed_page first_visit scored eq_refl Hd)
    as [df' [txn [label [options [score [x [level [is_fraud [n [lstm [transformer
         [autoencoder [xgb [ada [counts [line Hpage]]]]]]]]]]]]]]]].
  exact (proj2 (proj2 (proj2 (proj2 (proj2 (proj2 (proj2 (proj2 (proj2 (proj2
           (proj2 (proj2 (proj2 (proj2 Hpage)))))))))))))).
Defined.

Lemma selection_of_first_visit :
  snd (transaction_selection first_visit scored) = Done (trimmed, t100).
Proof. vm_compute. reflexivity. Qed.

Lemma expert_chart_of_selected_row_witness :
  missing_cols scored = []
  /\ snd (transaction_selection first_visit scored) = Done (trimmed, t100)
  /\ exists lstm transformer autoencoder xgb ada,
       expert_contributions t100 =
       ([ st_subheader "🧠 Expert Model Contributions";
          st_bar_chart
            [ (VStr "LSTM (Behavioral)", lstm);
              (VStr "Transformer (Feature Interaction)", transformer);
              (VStr "Autoencoder (Anomaly)", autoencoder);
              (VStr "XGBoost (Tabular)", xgb);
              (VStr "AdaBoost (Ensemble)", ada) ] ], Done tt).
Proof.
  split; [reflexivity |]. split; [exact selection_of_first_visit |].
  destruct (expert_chart_of_selected_row first_visit scored trimmed t100 eq_refl
              selection_of_first_visit)
    as [lstm [transformer [autoencoder [xgb [ada [_ [_ [_ [_ [_ Hrun]]]]]]]]]].
  now exists lstm, transformer, autoencoder, xgb, ada.
Defined.

Lemma selection_of_garbled_visit :
  snd (transaction_selection garbled_visit garbled)
  = Done (setitem garbled "transaction_id" [VStr "T100"; VStr "T101"; VStr "T100"],
          row_at (setitem garbled "transaction_id"
                    [VStr "T100"; VStr "T101"; VStr "T100"]) 0).
Proof. vm_compute. reflexivity. Qed.

Lemma bad_score_ends_run_witness :
  csv_file garbled_visit = Some garbled
  /\ missing_cols garbled = []
  /\ Py.float (VStr "n/a") = inl ValueError
  /\ snd (app garbled_visit) = Raised ValueError.
Proof.
  assert (Hx : Py.float (VStr "n/a") = inl ValueError) by (vm_compute; reflexivity).
  split; [reflexivity |]. split; [reflexivity |]. split; [exact Hx |].
  destruct (bad_score_ends_run garbled_visit garbled _ _ (VStr "n/a") ValueError
              eq_refl eq_refl selection_of_garbled_visit eq_refl Hx)
    as [_ [label [options Hrun]]].
  now rewrite Hrun.
Defined.

Lemma first_row_by_default_witness :
  wf scored /\ 0 < len scored /\ choice first_visit = 0
  /\ exists label options df',
       transaction_selection first_visit scored =
       (selection_box label options, Done (df', row_at df' 0)).
Proof.
  assert (Hn : 0 < len scored) by (simpl; lia).
  split; [exact (proj1 frames_wf) |]. split; [exact Hn |]. split; [reflexivity |].
  destruct (first_row_by_default first_visit scored (proj1 frames_wf) Hn eq_refl)
    as [label [options [df' [Hrun _]]]].
  now exists label, options, df'.
Defined.

Lemma scored_ids :
  getitem scored "transaction_id" = inr [VStr "T100"; VStr " T101 "; VStr "T100"].
Proof. reflexivity. Qed.

Lemma options_against_rows_witness :
  wf scored
  /\ getitem scored "transaction_id" = inr [VStr "T100"; VStr " T101 "; VStr "T100"]
  /\ List.length (unique [VStr "T100"; VStr "T101"; VStr "T100"]) <= len scored.
Proof.
  split; [exact (proj1 frames_wf) |]. split; [exact scored_ids |].
  destruct (options_against_rows first_visit scored _ (proj1 frames_wf) scored_ids)
    as [rest [_ [Hle _]]].
  exact Hle.
Defined.

Lemma trimming_touches_one_column_witness :
  wf scored
  /\ getitem scored "transaction_id" = inr [VStr "T100"; VStr " T101 "; VStr "T100"]
  /\ dataset_insights first_visit trimmed = dataset_insights first_visit scored.
Proof.
  split; [exact (proj1 frames_wf) |]. split; [exact scored_ids |].
  exact (proj2 (proj2 (proj2 (proj2
           (trimming_touches_one_column first_visit scored _
              (proj1 frames_wf) scored_ids))))).
Defined.

Lemma blank_padded_key_not_found_witness :
  wf scored
  /\ getitem scored "transaction_id" = inr [VStr "T100"; VStr " T101 "; VStr "T100"]
  /\ (starts_blank " T101 " = true \/ ends_blank " T101 " = true)
  /\ lookup trimmed (Some (VStr " T101 ")) = ([st_error not_found], Stopped).
Proof.
  assert (Hpad : starts_blank " T101 " = true \/ ends_blank " T101 " = true)
    by (left; reflexivity).
  split; [exact (proj1 frames_wf) |]. split; [exact scored_ids |]. split; [exact Hpad |].
  exact (blank_padded_key_not_found scored _ " T101 " (proj1 frames_wf) scored_ids Hpad).
Defined.

Lemma untyped_level_unavailable_witness :
  row_get numbered "fraud_risk_level" = inr (VInt 3)
  /\ transaction_status numbered =
     ([ st_subheader "📢 Transaction Status";
        st_info "ℹ️ Transaction status unavailable." ], Done tt).
Proof.
  split; [reflexivity |].
  apply (untyped_level_unavailable numbered (VInt 3) eq_refl).
  left. now exists 3%Z.
Defined.

Lemma check_reads_labels_only_witness :
  (forall l, In l (columns scored) <-> In l (columns (rev scored)))
  /\ missing_cols scored = missing_cols (rev scored).
Proof.
  assert (Hsame : forall l, In l (columns scored) <-> In l (columns (rev scored))).
  { intros l. unfold columns. rewrite map_rev. apply in_rev. }
  split; [exact Hsame |].
  exact (proj1 (check_reads_labels_only scored (rev scored) "note" [] Hsame)).
Defined.

Lemma selection_of_second_visit :
  snd (transaction_selection second_visit scored) = Done (trimmed, row_at trimmed 1).
Proof. vm_compute. reflexivity. Qed.

Lemma insights_ignore_choice_witness :
  rng first_visit = rng second_visit
  /\ snd (transaction_selection first_visit scored) = Done (trimmed, t100)
  /\ snd (transaction_selection second_visit scored) = Done (trimmed, row_at trimmed 1)
  /\ dataset_insights first_visit trimmed = dataset_insights second_visit trimmed.
Proof.
  split; [reflexivity |]. split; [exact selection_of_first_visit |].
  split; [exact selection_of_second_visit |].
  exact (proj2 (insights_ignore_choice first_visit second_visit scored _ _ _ _
                  eq_refl selection_of_first_visit selection_of_second_visit)).
Defined.

Lemma run_exceptions_witness :
  csv_file garbled_visit = Some garbled
  /\ wf garbled
  /\ getitem garbled "final_moe_score" = inr [VStr "n/a"; VStr "0.12"; VStr "0.5"]
  /\ sortable [VStr "n/a"; VStr "0.12"; VStr "0.5"] = true
  /\ Permutation (rng garbled_visit) (seq 0 (len garbled))
  /\ snd (app garbled_visit) = Raised ValueError
  /\ ((ValueError = KeyError /\ contains "transaction_id" (columns garbled) = false
       /\ len garbled = 0)
      \/ (exists df' txn score,
            snd (transaction_selection garbled_visit garbled) = Done (df', txn)
            /\ row_get txn "final_moe_score" = inr score
            /\ Py.float score = inl ValueError /\ ValueError = ValueError)
      \/ (exists df' txn label,
            snd (transaction_selection garbled_visit garbled) = Done (df', txn)
            /\ row_get txn "is_fraud" = inr label
            /\ Py.int label = inl ValueError
            /\ (ValueError = ValueError \/ ValueError = OverflowError))).
Proof.
  assert (Hr : snd (app garbled_visit) = Raised ValueError) by (vm_compute; reflexivity).
  split; [reflexivity |]. split; [exact (proj1 (proj2 (proj2 (proj2 frames_wf)))) |].
  split; [reflexivity |]. split; [reflexivity |]. split; [exact sample_rng |].
  split; [exact Hr |].
  exact (run_exceptions garbled_visit garbled _ ValueError eq_refl
           (proj1 (proj2 (proj2 (proj2 frames_wf)))) eq_refl eq_refl sample_rng Hr).
Defined.

Lemma mixed_scores_break_insights_witness :
  wf mixed
  /\ getitem mixed "final_moe_score" = inr [num "0.8734"; VStr "n/a"; num "0.5"]
  /\ len mixed <= 1000
  /\ score_sample mixed_visit mixed = inl TypeError.
Proof.
  assert (Hsmall : len mixed <= 1000) by (simpl; lia).
  split; [exact (proj2 (proj2 (proj2 (proj2 frames_wf)))) |]. split; [reflexivity |].
  split; [exact Hsmall |].
  exact (proj1 (mixed_scores_break_insights mixed_visit mixed _
                  [(VStr "HIGH", VInt 1); (VStr " low", VInt 1)]
                  (VStr "n/a") (num "0.5")
                  (proj2 (proj2 (proj2 (proj2 frames_wf)))) eq_refl eq_refl sample_rng
                  Hsmall (or_intror (or_introl eq_refl)) eq_refl
                  (or_intror (or_intror (or_introl eq_refl))) eq_refl eq_refl)).
Defined.

End MoreWitness.
